(** * LangFlowB orchestrator and project service: a shallow embedding

    The development follows
    [src/backend/base/langflow/custom/orchestrator/service.py] and
    [src/backend/base/langflow/custom/projects/service.py]; of
    [orchestrator/routes.py], [projects/routes.py] and [hf_manager.py] it
    follows the routes and the method that the properties at the end are
    about.

    Conventions of the embedding:
    - a Python [str] is a Rocq [string]; a character is one [ascii], read as
      the code point of the same number (texts in the Latin-1 range);
    - a Python [dict] whose iteration order is observable is an association
      list in insertion order; a dict used only through lookups is a [gmap];
    - methods of the services are computations in a state-and-exception
      monad over the state of the service and of its surroundings: the
      committed rows of the database, which statements the database
      refuses, the generation backend, a logical clock for
      [datetime.now], a counter for [uuid4];
    - a ghost trace records the calls of the step executor and of the
      assembler, so that "executed", "not executed" and "once" can be
      stated; no method reads it. *)

From stdpp Require Import base option list gmap strings.
From Stdlib Require Import Ascii String DecimalString QArith.
From Stdlib Require DecimalFacts DecimalNat.
Local Open Scope string_scope.
Local Open Scope list_scope.
Local Open Scope nat_scope.

(** ** Python strings *)

(** [s[:n]] *)
Fixpoint str_take (n : nat) (s : string) : string :=
  match n, s with
  | S n', String c s' => String c (str_take n' s')
  | _, _ => EmptyString
  end.

(** [sep.join(parts)] *)
Fixpoint str_join (sep : string) (parts : list string) : string :=
  match parts with
  | [] => EmptyString
  | [p] => p
  | p :: ps => p +:+ sep +:+ str_join sep ps
  end.

(** [str(i)] for a non-negative [int]. *)
Definition str_of_nat (i : nat) : string :=
  NilZero.string_of_uint (Nat.to_uint i).

(** [c.isspace()] on the code points below 256: TAB, LF, VT, FF, CR,
    FS, GS, RS, US, SPACE, NEL and NBSP. *)
Definition is_space (c : ascii) : bool :=
  let n := nat_of_ascii c in
  ((9 <=? n) && (n <=? 13)) || ((28 <=? n) && (n <=? 32))
  || (n =? 133) || (n =? 160).

(** [s.lstrip()], [s.rstrip()] and [s.strip()] *)
Fixpoint lstrip (s : string) : string :=
  match s with
  | EmptyString => EmptyString
  | String c s' => if is_space c then lstrip s' else s
  end.

Fixpoint rstrip (s : string) : string :=
  match s with
  | EmptyString => EmptyString
  | String c s' =>
      match rstrip s' with
      | EmptyString => if is_space c then EmptyString else String c EmptyString
      | r => String c r
      end
  end.

Definition strip (s : string) : string := rstrip (lstrip s).

(** [Some r] when [s = p + r] *)
Fixpoint strip_prefix (p s : string) : option string :=
  match p, s with
  | EmptyString, _ => Some s
  | String a p', String b s' =>
      if Ascii.eqb a b then strip_prefix p' s' else None
  | String _ _, EmptyString => None
  end.

(** Leftmost occurrence of [needle] in [s]: the text before it and the text
    after it, as [s.partition(needle)] gives them when the needle occurs. *)
Fixpoint split_at_first (needle s : string) : option (string * string) :=
  match strip_prefix needle s with
  | Some rest => Some (EmptyString, rest)
  | None =>
      match s with
      | EmptyString => None
      | String c s' =>
          match split_at_first needle s' with
          | Some (before, rest) => Some (String c before, rest)
          | None => None
          end
      end
  end.

(** ** Regular expression search of the artifact extractor

    [re.findall(r"```jsx(.*?)```", result, re.DOTALL)] and its three
    siblings have the shape: a literal opening fence, a lazy group that
    matches any character (DOTALL), the literal closing fence.  The
    leftmost match starts at the first occurrence of the opening fence
    that is followed by a closing fence, the lazy group stops at the first
    closing fence after it, and the scan resumes after that fence.  The
    recursion is on the remaining text, strictly shorter at every match,
    so the length of the text bounds the number of iterations. *)

Definition fence : string := "```".

Fixpoint findall_fenced (fuel : nat) (opener s : string) : list string :=
  match fuel with
  | O => []
  | S fuel' =>
      match split_at_first opener s with
      | None => []
      | Some (_, after_open) =>
          match split_at_first fence after_open with
          | None => []
          | Some (body, rest) => body :: findall_fenced fuel' opener rest
          end
      end
  end.

Definition re_findall_fenced (lang result : string) : list string :=
  findall_fenced (S (String.length result)) (fence +:+ lang) result.

(** ** Artifacts *)

Record Artifact := mkArtifact {
  art_type : string;
  art_name : string;
  art_content : string;
}.

(** [enumerate(xs)] *)
Fixpoint enumerate_from {A} (i : nat) (xs : list A) : list (nat * A) :=
  match xs with
  | [] => []
  | x :: xs' => (i, x) :: enumerate_from (S i) xs'
  end.

Definition enumerate {A} (xs : list A) : list (nat * A) := enumerate_from 0 xs.

(** One [for i, block in enumerate(blocks): artifacts.append({...})] loop. *)
Definition append_blocks (step_name type infix ext : string)
    (blocks : list string) (artifacts : list Artifact) : list Artifact :=
  fold_left
    (fun acc '(i, block) =>
       acc ++ [ {| art_type := type;
                   art_name := step_name +:+ infix +:+ str_of_nat i +:+ ext;
                   art_content := strip block |} ])
    (enumerate blocks) artifacts.

(** [OrchestratorService._extract_artifacts] *)
Definition _extract_artifacts (step_name result : string) : list Artifact :=
  let artifacts := [] in
  let jsx_blocks := re_findall_fenced "jsx" result in
  let artifacts := append_blocks step_name "jsx" "_component_" ".jsx" jsx_blocks artifacts in
  let tsx_blocks := re_findall_fenced "tsx" result in
  let artifacts := append_blocks step_name "tsx" "_component_" ".tsx" tsx_blocks artifacts in
  let css_blocks := re_findall_fenced "css" result in
  let artifacts := append_blocks step_name "css" "_styles_" ".css" css_blocks artifacts in
  let py_blocks := re_findall_fenced "python" result in
  let artifacts := append_blocks step_name "python" "_script_" ".py" py_blocks artifacts in
  artifacts.

(** ** Python values, dictionaries and exceptions *)

(** The values that contexts, parameters and JSON columns hold. *)
#[local] Set Warnings "-register-all".
Inductive PyVal :=
| PyNone
| PyBool (b : bool)
| PyInt (z : Z)
| PyFloat (q : Q)
| PyStr (s : string)
| PyList (l : list PyVal)
| PyDict (d : list (string * PyVal)).

(** A [dict] with string keys, in insertion order. *)
Definition Dict := list (string * PyVal).

(** [d.get(k, default)] *)
Fixpoint dict_get (k : string) (default : PyVal) (d : Dict) : PyVal :=
  match d with
  | [] => default
  | (k', v) :: d' => if String.eqb k k' then v else dict_get k default d'
  end.

(** [d[k] = v]: an existing key keeps its position, a new key goes last. *)
Fixpoint dict_set (k : string) (v : PyVal) (d : Dict) : Dict :=
  match d with
  | [] => [(k, v)]
  | (k', v') :: d' =>
      if String.eqb k k' then (k', v) :: d' else (k', v') :: dict_set k v d'
  end.

(** [d.copy()] *)
Definition dict_copy (d : Dict) : Dict := d.

Record PyExc := mkExc { exc_class : string; exc_str : string }.

Inductive Res (A : Type) :=
| Ok (a : A)
| Raise (e : PyExc).
Arguments Ok {A} a.
Arguments Raise {A} e.

(** ** The computation monad: state [S], Python exceptions *)

Definition M (S A : Type) : Type := S -> Res A * S.

Definition ret {S A} (a : A) : M S A := fun s => (Ok a, s).

Definition bind {S A B} (m : M S A) (k : A -> M S B) : M S B :=
  fun s => match m s with
           | (Ok a, s') => k a s'
           | (Raise e, s') => (Raise e, s')
           end.

Definition raise {S A} (e : PyExc) : M S A := fun s => (Raise e, s).

(** [try: m  except Exception as e: h e] *)
Definition try_except {S A} (m : M S A) (h : PyExc -> M S A) : M S A :=
  fun s => match m s with
           | (Ok a, s') => (Ok a, s')
           | (Raise e, s') => h e s'
           end.

Definition gets {S A} (f : S -> A) : M S A := fun s => (Ok (f s), s).
Definition modify {S} (f : S -> S) : M S unit := fun s => (Ok tt, f s).

Declare Scope py_scope.
Delimit Scope py_scope with py.
Notation "x <- m ;; k" := (bind m (fun x => k))
  (at level 100, m at next level, right associativity) : py_scope.
Notation "m ;;; k" := (bind m (fun _ => k))
  (at level 100, right associativity) : py_scope.
Local Open Scope py_scope.

(** [for x in xs: body x] *)
Fixpoint for_each {S A} (xs : list A) (body : A -> M S unit) : M S unit :=
  match xs with
  | [] => ret tt
  | x :: xs' => body x ;;; for_each xs' body
  end.

(** ** Enumerations and dataclasses of the orchestrator *)

Inductive StepStatus := PENDING | RUNNING | SUCCESS | FAILED | SKIPPED.

Definition StepStatus_value (s : StepStatus) : string :=
  match s with
  | PENDING => "PENDING" | RUNNING => "RUNNING" | SUCCESS => "SUCCESS"
  | FAILED => "FAILED" | SKIPPED => "SKIPPED"
  end.

Definition StepStatus_eqb (a b : StepStatus) : bool :=
  String.eqb (StepStatus_value a) (StepStatus_value b).

Inductive ModelType := CODE_LLAMA | CODE_GEMMA | T5_GEMMA | ASSEMBLER.

Definition ModelType_value (m : ModelType) : string :=
  match m with
  | CODE_LLAMA => "CodeLlama" | CODE_GEMMA => "CodeGemma"
  | T5_GEMMA => "T5Gemma" | ASSEMBLER => "Assembler"
  end.

(** What a [StepInput.model_type] field can hold: the dataclass does not
    validate it, so besides the members of [ModelType] a caller of the
    service can pass a plain string. *)
Inductive ModelRef :=
| Member (m : ModelType)
| Plain (s : string).

Definition ModelRef_value (r : ModelRef) : string :=
  match r with
  | Member m => ModelType_value m
  | Plain s => s
  end.

(** [r == ModelType.X]: [ModelType] mixes in [str], members compare by
    value, also against a plain string. *)
Definition model_is (r : ModelRef) (m : ModelType) : bool :=
  String.eqb (ModelRef_value r) (ModelType_value m).

(** Built-ins of the interpreter that the code relies on and whose
    output the repository does not fix: [str(v)] of an arbitrary value,
    and the rendering of a model reference inside an f-string (for a
    member of a [str]-mixin enum it depends on the Python version). *)
Class PyBuiltins := {
  py_str : PyVal -> string;
  py_format_model : ModelRef -> string;
}.

Record StepInput := mkStepInput {
  step_name : string;
  model_type : ModelRef;
  prompt : string;
  context : Dict;
  parameters : Dict;
}.

Record StepOutput := mkStepOutput {
  so_step_name : string;
  so_status : StepStatus;
  so_result : option string;
  so_error : option string;
  so_artifacts : list Artifact;
  so_execution_time : nat;
}.

Record OrchestrationPipeline := mkPipeline {
  pl_project_id : N;
  pl_name : string;
  pl_steps : list StepInput;
  pl_global_context : Dict;
  pl_metadata : Dict;
}.

(** ** Tables of [models/project/model.py] *)

(** A table maps the primary key, the column [id], to the other columns
    of the row.

    The JSON column that [model.py] names [metadata] is [p_metadata] and
    [ga_metadata] here.  SQLModel keeps the attribute [metadata] of a table
    class for the [MetaData] of its registry (a [ClassVar]), so in a table
    class that can be created the column has another name; the tests of
    the repository name it [meta_data].  The services go on writing
    [metadata=...] and [row.metadata = ...]: the constructor of a table
    class drops a keyword that is no field of it, and the assignment to a
    [ClassVar] of a row raises [AttributeError].  So no method of the
    services stores the column. *)
Record Project := mkProject {
  p_name : string;
  p_description : option string;
  p_metadata : option Dict;
  p_owner_id : option N;
  p_created_at : nat;
  p_updated_at : option nat;
}.

Record Context := mkContext {
  c_project_id : N;
  c_key : string;
  c_value : option PyVal;
  c_updated_at : option nat;
}.

Record OrchestrationRun := mkRun {
  r_project_id : option N;
  r_status : option string;
  r_steps : option Dict;
  r_started_at : option nat;
  r_finished_at : option nat;
}.

Record GeneratedArtifact := mkGenerated {
  ga_project_id : option N;
  ga_run_id : option N;
  ga_name : string;
  ga_path : option string;
  ga_content : option string;
  ga_metadata : option Dict;
  ga_created_at : nat;
}.

(** [run.status = status] and [run.finished_at = t] *)
Definition set_run_status (status : string) (run : OrchestrationRun) : OrchestrationRun :=
  mkRun (r_project_id run) (Some status) (r_steps run) (r_started_at run)
        (r_finished_at run).

Definition set_run_finished_at (t : nat) (run : OrchestrationRun) : OrchestrationRun :=
  mkRun (r_project_id run) (r_status run) (r_steps run) (r_started_at run)
        (Some t).

(** The committed rows, each table keyed by its primary key. *)
Record Database := mkDatabase {
  projects : gmap N Project;
  contexts : gmap N Context;
  runs : gmap N OrchestrationRun;
  artifacts : gmap N GeneratedArtifact;
}.

(** ** The generation backend *)

Record GenRequest := mkGenRequest {
  gen_model_name : string;
  gen_prompt : string;
  gen_max_tokens : PyVal;
  gen_temperature : PyVal;
}.

(** [hf_manager.generate]: an external callable; its answer may depend on
    how many calls were made before (first argument) and it may raise.  The
    [HFModelManager] of [custom/hf_manager.py] is one such backend: its
    [generate] names its first parameter [model_key], so a call with the
    keyword [model_name] raises [TypeError]. *)
Definition HFManager := nat -> GenRequest -> Res string.

(** The ghost trace: entries to [_execute_step] and to [_run_assembler],
    in program order. *)
Inductive Event :=
| EvExecuteStep (name : string)
| EvRunAssembler.

(** ** State of a service and of its surroundings *)

Record World := mkWorld {
  w_db : Database;                 (* what [self.session] reads and commits to *)
  w_db_ops : nat;                  (* statements sent to the database so far *)
  w_db_fault : nat -> bool;        (* which statements the database refuses *)
  w_next_uuid : N;                 (* the next [uuid4()] *)
  w_hf_manager : option HFManager; (* [self.hf_manager] *)
  w_hf_calls : nat;
  w_step_history : gmap N (list StepOutput);  (* [self.step_history] *)
  w_clock : nat;                   (* [datetime.now], a logical clock *)
  w_trace : list Event;
}.

Definition set_db (db : Database) (w : World) : World :=
  mkWorld db (w_db_ops w) (w_db_fault w) (w_next_uuid w) (w_hf_manager w)
          (w_hf_calls w) (w_step_history w) (w_clock w) (w_trace w).

Definition set_step_history (h : gmap N (list StepOutput)) (w : World) : World :=
  mkWorld (w_db w) (w_db_ops w) (w_db_fault w) (w_next_uuid w) (w_hf_manager w)
          (w_hf_calls w) h (w_clock w) (w_trace w).

(** [datetime.now(timezone.utc)] *)
Definition now : M World nat :=
  fun w => (Ok (w_clock w),
            mkWorld (w_db w) (w_db_ops w) (w_db_fault w) (w_next_uuid w)
                    (w_hf_manager w) (w_hf_calls w) (w_step_history w)
                    (S (w_clock w)) (w_trace w)).

(** [uuid4()] *)
Definition uuid4 : M World N :=
  fun w => (Ok (w_next_uuid w),
            mkWorld (w_db w) (w_db_ops w) (w_db_fault w) (N.succ (w_next_uuid w))
                    (w_hf_manager w) (w_hf_calls w) (w_step_history w)
                    (w_clock w) (w_trace w)).

Definition emit (e : Event) : M World unit :=
  modify (fun w =>
    mkWorld (w_db w) (w_db_ops w) (w_db_fault w) (w_next_uuid w)
            (w_hf_manager w) (w_hf_calls w) (w_step_history w)
            (w_clock w) (w_trace w ++ [e])).

(** One statement of the session ([exec], [commit], [refresh]): it reaches
    the database or raises. *)
Definition db_statement : M World unit :=
  fun w =>
    let w' := mkWorld (w_db w) (S (w_db_ops w)) (w_db_fault w) (w_next_uuid w)
                      (w_hf_manager w) (w_hf_calls w) (w_step_history w)
                      (w_clock w) (w_trace w) in
    if w_db_fault w (w_db_ops w)
    then (Raise (mkExc "SQLAlchemyError" "database error"), w')
    else (Ok tt, w').

(** [self.hf_manager.generate(model_name=..., prompt=..., max_tokens=...,
    temperature=...)] *)
Definition hf_generate (g : HFManager) (req : GenRequest) : M World string :=
  fun w =>
    (g (w_hf_calls w) req,
     mkWorld (w_db w) (w_db_ops w) (w_db_fault w) (w_next_uuid w)
             (w_hf_manager w) (S (w_hf_calls w)) (w_step_history w)
             (w_clock w) (w_trace w)).

(** ** OrchestratorService *)

Definition nl : string := String (ascii_of_nat 10) EmptyString.

Definition artifact_dict (a : Artifact) : PyVal :=
  PyDict [("type", PyStr (art_type a)); ("name", PyStr (art_name a));
          ("content", PyStr (art_content a))].

Definition opt_str_val (o : option string) : PyVal :=
  match o with Some s => PyStr s | None => PyNone end.

(** What an f-string shows for an [Optional[str]]. *)
Definition format_opt_str (o : option string) : string :=
  match o with Some s => s | None => "None" end.

Section OrchestratorService.
Context `{!PyBuiltins}.

(** [OrchestratorService._inject_context] *)
Definition _inject_context (prompt : string) (context : Dict) : string :=
  let context_str :=
    str_join nl
      (map (fun '(k, v) => "# " +:+ k +:+ ": " +:+ str_take 200 (py_str v))
           context) in
  prompt +:+ nl +:+ nl +:+ "## Available Context:" +:+ nl +:+ context_str.

(** The body shared by [_execute_code_llama], [_execute_code_gemma] and
    [_execute_t5_gemma], which differ in the model name and in the label of
    the placeholder only. *)
Definition generate_or_placeholder (model_name label prompt : string)
    (parameters : Dict) : M World string :=
  hf <- gets w_hf_manager ;;
  attempt <-
    match hf with
    | Some g =>
        try_except
          (result <- hf_generate g
             {| gen_model_name := model_name;
                gen_prompt := prompt;
                gen_max_tokens := dict_get "max_tokens" (PyInt 512) parameters;
                gen_temperature := dict_get "temperature" (PyFloat (7 # 10)) parameters |} ;;
           ret (Some result))
          (fun _ => ret None)
    | None => ret None
    end ;;
  match attempt with
  | Some result => ret result
  | None =>
      ret ("[" +:+ label +:+ "] Placeholder response to: "
           +:+ str_take 100 prompt +:+ "...")
  end.

Definition _execute_code_llama (prompt : string) (parameters : Dict) : M World string :=
  generate_or_placeholder "CodeLlama-7b" "CodeLlama" prompt parameters.

Definition _execute_code_gemma (prompt : string) (parameters : Dict) : M World string :=
  generate_or_placeholder "CodeGemma-7b" "CodeGemma" prompt parameters.

Definition _execute_t5_gemma (prompt : string) (parameters : Dict) : M World string :=
  generate_or_placeholder "T5-Gemma" "T5Gemma" prompt parameters.

(** [OrchestratorService._execute_step] *)
Definition _execute_step (step_input : StepInput) (execution_context : Dict)
    : M World StepOutput :=
  emit (EvExecuteStep (step_name step_input)) ;;;
  start_time <- now ;;
  try_except
    (let enriched_prompt := _inject_context (prompt step_input) execution_context in
     result <-
       (if model_is (model_type step_input) CODE_LLAMA
        then _execute_code_llama enriched_prompt (parameters step_input)
        else if model_is (model_type step_input) CODE_GEMMA
        then _execute_code_gemma enriched_prompt (parameters step_input)
        else if model_is (model_type step_input) T5_GEMMA
        then _execute_t5_gemma enriched_prompt (parameters step_input)
        else raise (mkExc "ValueError"
                      ("Unknown model type: "
                       +:+ py_format_model (model_type step_input)))) ;;
     let artifacts := _extract_artifacts (step_name step_input) result in
     end_time <- now ;;
     ret {| so_step_name := step_name step_input;
            so_status := SUCCESS;
            so_result := Some result;
            so_error := None;
            so_artifacts := artifacts;
            so_execution_time := end_time - start_time |})
    (fun e =>
       end_time <- now ;;
       ret {| so_step_name := step_name step_input;
              so_status := FAILED;
              so_result := None;
              so_error := Some (exc_str e);
              so_artifacts := [];
              so_execution_time := end_time - start_time |}).

(** [if step_output.result:] *)
Definition truthy_str (o : option string) : bool :=
  match o with
  | Some (String _ _) => true
  | _ => false
  end.

(** [OrchestratorService._build_assembler_prompt] *)
Definition _build_assembler_prompt (step_outputs : list StepOutput) : string :=
  let prompt_lines :=
    [ "# Assembly Task";
      "You are an expert code assembler. Your task is to:";
      "1. Review the following step outputs";
      "2. Combine them into a cohesive, production-ready codebase";
      "3. Follow the 'Lego pattern': each piece should fit perfectly";
      "4. Clean up, optimize, and polish the code";
      "5. Add proper comments and documentation";
      EmptyString;
      "## Step Outputs:" ] in
  let prompt_lines :=
    fold_left
      (fun lines '(i, step_output) =>
         let lines := lines ++ [nl +:+ "### Step " +:+ str_of_nat i +:+ ": "
                                +:+ so_step_name step_output] in
         let lines := lines ++ ["Status: " +:+ StepStatus_value (so_status step_output)] in
         let lines :=
           if truthy_str (so_result step_output)
           then lines ++ ["Result:"; str_take 500 (default EmptyString (so_result step_output))]
           else lines in
         match so_artifacts step_output with
         | [] => lines
         | arts => (lines ++ ["Artifacts:"]) ++ map (fun a => "- " +:+ art_name a) arts
         end)
      (enumerate_from 1 step_outputs) prompt_lines in
  let prompt_lines :=
    prompt_lines ++
    [ EmptyString;
      "## Final Assembly Instructions:";
      "1. Create a cohesive structure";
      "2. Remove duplication";
      "3. Ensure type safety (TypeScript/Python)";
      "4. Add proper error handling";
      "5. Include comprehensive documentation";
      EmptyString;
      "Provide the final, production-ready code in code blocks." ] in
  str_join nl prompt_lines.

(** The dictionary that [_run_assembler] returns; the key ["error"] is
    present on the exception path only. *)
Record AssemblerOutput := mkAssemblerOutput {
  asm_assembled_code : string;
  asm_artifacts : list Artifact;
  asm_error : option string;
}.

(** [OrchestratorService._run_assembler] *)
Definition _run_assembler (run_id project_id : N) (execution_context : Dict)
    (step_outputs : list StepOutput) : M World AssemblerOutput :=
  emit EvRunAssembler ;;;
  let assembler_prompt := _build_assembler_prompt step_outputs in
  try_except
    (hf <- gets w_hf_manager ;;
     assembled_code <-
       match hf with
       | Some g =>
           hf_generate g
             {| gen_model_name := "CodeLlama-7b";
                gen_prompt := assembler_prompt;
                gen_max_tokens := PyInt 2048;
                gen_temperature := PyFloat (3 # 10) |}
       | None => ret ("[Assembled Output]" +:+ nl +:+ nl +:+ assembler_prompt)
       end ;;
     let artifacts := _extract_artifacts "assembler" assembled_code in
     ret {| asm_assembled_code := assembled_code;
            asm_artifacts := artifacts;
            asm_error := None |})
    (fun e =>
       ret {| asm_assembled_code := EmptyString;
              asm_artifacts := [];
              asm_error := Some (exc_str e) |}).

(** [session.exec(select(OrchestrationRun).where(OrchestrationRun.id == run_id)).first()] *)
Definition select_run_first (run_id : N) : M World (option OrchestrationRun) :=
  db_statement ;;;
  gets (fun w => runs (w_db w) !! run_id).

(** [session.add(run); session.commit()] for the row [run_id] of the run
    table *)
Definition commit_run (run_id : N) (run : OrchestrationRun) : M World unit :=
  db_statement ;;;
  modify (fun w =>
    set_db (mkDatabase (projects (w_db w)) (contexts (w_db w))
                       (<[run_id := run]> (runs (w_db w)))
                       (artifacts (w_db w))) w).

(** [session.add(artifact); session.commit()] for the row [id] of the
    artifact table *)
Definition commit_artifact (id : N) (a : GeneratedArtifact) : M World unit :=
  db_statement ;;;
  modify (fun w =>
    set_db (mkDatabase (projects (w_db w)) (contexts (w_db w)) (runs (w_db w))
                       (<[id := a]> (artifacts (w_db w)))) w).

(** [status in ("SUCCESS", "FAILED")] *)
Definition is_terminal (status : string) : bool :=
  String.eqb status "SUCCESS" || String.eqb status "FAILED".

(** [OrchestratorService._update_run] *)
Definition _update_run (run_id : N) (status : string) : M World unit :=
  try_except
    (run <- select_run_first run_id ;;
     match run with
     | Some run =>
         let run := set_run_status status run in
         run <-
           (if is_terminal status
            then t <- now ;; ret (set_run_finished_at t run)
            else ret run) ;;
         commit_run run_id run
     | None => ret tt
     end)
    (fun _ => ret tt).

(** [OrchestratorService._save_artifact]; the dictionaries it receives are
    built by [_extract_artifacts] and carry the three keys, so [.get] never
    falls back to its default.  The keyword [metadata={"type": ...,
    "source": "orchestrator"}] is dropped by the constructor: the column
    of the row is empty, and the type of the artifact is not stored. *)
Definition _save_artifact (run_id project_id : N) (artifact : Artifact) : M World unit :=
  try_except
    (id <- uuid4 ;;
     created_at <- now ;;
     commit_artifact id
       {| ga_project_id := Some project_id;
          ga_run_id := Some run_id;
          ga_name := art_name artifact;
          ga_path := Some ("/artifacts/" +:+ art_name artifact);
          ga_content := Some (art_content artifact);
          ga_metadata := None;
          ga_created_at := created_at |})
    (fun _ => ret tt).

(** The dictionary that [execute_pipeline] builds and returns; the keys
    ["error"], ["assembled_code"] and ["finished_at"] appear when they are
    assigned. *)
Record PipelineResult := mkPipelineResult {
  res_run_id : N;
  res_project_id : N;
  res_status : string;
  res_steps : list StepOutput;
  res_final_artifacts : list Artifact;
  res_started_at : nat;
  res_error : option string;
  res_assembled_code : option string;
  res_finished_at : option nat;
}.

(** The frame of one call of [execute_pipeline]: the service and the local
    variables that the [try] block and its handler share. *)
Record Frame := mkFrame {
  fr_world : World;
  fr_results : PipelineResult;
  fr_context : Dict;
}.

Definition lift {A} (m : M World A) : M Frame A :=
  fun fr => let '(r, w) := m (fr_world fr) in
            (r, mkFrame w (fr_results fr) (fr_context fr)).

Definition set_results (f : PipelineResult -> PipelineResult) : M Frame unit :=
  modify (fun fr => mkFrame (fr_world fr) (f (fr_results fr)) (fr_context fr)).

Definition set_context (f : Dict -> Dict) : M Frame unit :=
  modify (fun fr => mkFrame (fr_world fr) (fr_results fr) (f (fr_context fr))).

Definition with_status (status : string) (r : PipelineResult) : PipelineResult :=
  mkPipelineResult (res_run_id r) (res_project_id r) status (res_steps r)
    (res_final_artifacts r) (res_started_at r) (res_error r)
    (res_assembled_code r) (res_finished_at r).

Definition with_error (e : string) (r : PipelineResult) : PipelineResult :=
  mkPipelineResult (res_run_id r) (res_project_id r) (res_status r) (res_steps r)
    (res_final_artifacts r) (res_started_at r) (Some e)
    (res_assembled_code r) (res_finished_at r).

Definition with_step (o : StepOutput) (r : PipelineResult) : PipelineResult :=
  mkPipelineResult (res_run_id r) (res_project_id r) (res_status r)
    (res_steps r ++ [o])
    (res_final_artifacts r) (res_started_at r) (res_error r)
    (res_assembled_code r) (res_finished_at r).

Definition with_assembly (a : AssemblerOutput) (r : PipelineResult) : PipelineResult :=
  mkPipelineResult (res_run_id r) (res_project_id r) (res_status r) (res_steps r)
    (asm_artifacts a) (res_started_at r) (res_error r)
    (Some (asm_assembled_code a)) (res_finished_at r).

Definition with_finished_at (t : nat) (r : PipelineResult) : PipelineResult :=
  mkPipelineResult (res_run_id r) (res_project_id r) (res_status r) (res_steps r)
    (res_final_artifacts r) (res_started_at r) (res_error r)
    (res_assembled_code r) (Some t).

(** [self.step_history[run_id]] *)
Definition history_of (run_id : N) : M World (list StepOutput) :=
  h <- gets (fun w => w_step_history w !! run_id) ;;
  match h with
  | Some steps => ret steps
  | None => raise (mkExc "KeyError" "run_id")
  end.

(** [self.step_history[run_id].append(step_output)] *)
Definition history_append (run_id : N) (o : StepOutput) : M World unit :=
  steps <- history_of run_id ;;
  modify (fun w => set_step_history (<[run_id := steps ++ [o]]> (w_step_history w)) w).

(** The loop [for i, step_input in enumerate(pipeline.steps)] of
    [execute_pipeline]; the branch that ends without a recursive call is
    the [break]. *)
Fixpoint for_steps (run_id project_id : N) (i : nat) (steps : list StepInput)
    : M Frame unit :=
  match steps with
  | [] => ret tt
  | step_input :: rest =>
      execution_context <- gets fr_context ;;
      step_output <- lift (_execute_step step_input execution_context) ;;
      lift (history_append run_id step_output) ;;;
      set_results (with_step step_output) ;;;
      if StepStatus_eqb (so_status step_output) FAILED
      then
        set_results (with_status "FAILED") ;;;
        set_results (with_error
          ("Pipeline stopped at step '" +:+ step_name step_input +:+ "': "
           +:+ format_opt_str (so_error step_output))) ;;;
        lift (_update_run run_id "FAILED")
      else
        set_context (dict_set ("step_" +:+ str_of_nat i +:+ "_output")
                              (opt_str_val (so_result step_output))) ;;;
        set_context (dict_set ("step_" +:+ str_of_nat i +:+ "_artifacts")
                              (PyList (map artifact_dict (so_artifacts step_output)))) ;;;
        lift (for_each (so_artifacts step_output)
                       (_save_artifact run_id project_id)) ;;;
        for_steps run_id project_id (S i) rest
  end.

(** The [try] block of [execute_pipeline] *)
Definition execute_pipeline_body (pipeline : OrchestrationPipeline) (run_id : N)
    : M Frame unit :=
  lift (_update_run run_id "RUNNING") ;;;
  set_context (fun _ => dict_copy (pl_global_context pipeline)) ;;;
  for_steps run_id (pl_project_id pipeline) 0 (pl_steps pipeline) ;;;
  status <- gets (fun fr => res_status (fr_results fr)) ;;
  if String.eqb status "RUNNING"
  then
    execution_context <- gets fr_context ;;
    step_outputs <- lift (history_of run_id) ;;
    assembler_output <-
      lift (_run_assembler run_id (pl_project_id pipeline)
                           execution_context step_outputs) ;;
    set_results (with_assembly assembler_output) ;;;
    set_results (with_status "SUCCESS") ;;;
    lift (_update_run run_id "SUCCESS")
  else ret tt.

(** [OrchestratorService.execute_pipeline] *)
Definition execute_pipeline (pipeline : OrchestrationPipeline) (run_id : N)
    : M World PipelineResult :=
  modify (fun w => set_step_history (<[run_id := []]> (w_step_history w)) w) ;;;
  started_at <- now ;;
  let results :=
    {| res_run_id := run_id;
       res_project_id := pl_project_id pipeline;
       res_status := "RUNNING";
       res_steps := [];
       res_final_artifacts := [];
       res_started_at := started_at;
       res_error := None;
       res_assembled_code := None;
       res_finished_at := None |} in
  (fun w =>
     let '(r, fr) :=
       try_except
         (execute_pipeline_body pipeline run_id)
         (fun e =>
            set_results (with_status "FAILED") ;;;
            set_results (with_error (exc_str e)) ;;;
            lift (_update_run run_id "FAILED"))
         (mkFrame w results []) in
     match r with
     | Ok _ =>
         let '(t, w') := now (fr_world fr) in
         match t with
         | Ok finished_at => (Ok (with_finished_at finished_at (fr_results fr)), w')
         | Raise e => (Raise e, w')
         end
     | Raise e => (Raise e, fr_world fr)
     end).

(** [OrchestratorService.get_step_history] *)
Definition get_step_history (run_id : N) (w : World) : list StepOutput :=
  default [] (w_step_history w !! run_id).

Record RunSummary := mkRunSummary {
  sum_run_id : N;
  sum_total_steps : nat;
  sum_successful_steps : nat;
  sum_failed_steps : nat;
  sum_total_execution_time : nat;
  sum_steps : list StepOutput;
}.

(** [OrchestratorService.get_run_summary] *)
Definition get_run_summary (run_id : N) (w : World) : RunSummary :=
  let history := get_step_history run_id w in
  let successful_steps :=
    sum_list (map (fun _ => 1)
                  (filter (fun step => StepStatus_eqb (so_status step) SUCCESS = true) history)) in
  let failed_steps :=
    sum_list (map (fun _ => 1)
                  (filter (fun step => StepStatus_eqb (so_status step) FAILED = true) history)) in
  let total_time := sum_list (map so_execution_time history) in
  {| sum_run_id := run_id;
     sum_total_steps := List.length history;
     sum_successful_steps := successful_steps;
     sum_failed_steps := failed_steps;
     sum_total_execution_time := total_time;
     sum_steps := history |}.

End OrchestratorService.

(** ** ProjectService *)

(** [Session.exec] applied to a [select] of one entity returns SQLModel's
    [ScalarResult].  These are the public methods of that class; the bulk
    [delete(synchronize_session=...)] that the service calls on it belongs
    to the legacy [Query] object that [session.query(...)] returns, and a
    result object has no attribute of that name. *)
Definition ScalarResult_methods : list string :=
  ["all"; "close"; "closed"; "fetchall"; "fetchmany"; "first"; "one";
   "one_or_none"; "partitions"; "unique"; "yield_per"].

(** Attribute lookup on a [ScalarResult] *)
Definition ScalarResult_getattr (name : string) : M World unit :=
  if bool_decide (name ∈ ScalarResult_methods)
  then ret tt
  else raise (mkExc "AttributeError"
                ("'ScalarResult' object has no attribute '" +:+ name +:+ "'")).

(** [self.session.exec(select(T).where(...)).delete(synchronize_session=False)]:
    the statement is executed, then the attribute [delete] is looked up on
    the result and called; [remove] is what a bulk delete of the selected
    rows does to the tables (written at once here; the source would commit
    it with the last statement of the method). *)
Definition exec_then_delete (remove : Database -> Database) : M World unit :=
  db_statement ;;;
  ScalarResult_getattr "delete" ;;;
  modify (fun w => set_db (remove (w_db w)) w).

Definition remove_contexts_of_project (project_id : N) (db : Database) : Database :=
  mkDatabase (projects db)
    (filter (fun kv => c_project_id kv.2 ≠ project_id) (contexts db))
    (runs db) (artifacts db).

Definition remove_runs_of_project (project_id : N) (db : Database) : Database :=
  mkDatabase (projects db) (contexts db)
    (filter (fun kv => r_project_id kv.2 ≠ Some project_id) (runs db))
    (artifacts db).

Definition remove_artifacts_of_project (project_id : N) (db : Database) : Database :=
  mkDatabase (projects db) (contexts db) (runs db)
    (filter (fun kv => ga_project_id kv.2 ≠ Some project_id) (artifacts db)).

Definition remove_artifacts_of_run (run_id : N) (db : Database) : Database :=
  mkDatabase (projects db) (contexts db) (runs db)
    (filter (fun kv => ga_run_id kv.2 ≠ Some run_id) (artifacts db)).

(** [session.delete(row); session.commit()] *)
Definition delete_and_commit (remove : Database -> Database) : M World unit :=
  db_statement ;;;
  modify (fun w => set_db (remove (w_db w)) w).

(** [ProjectService.get_project] *)
Definition get_project (project_id : N) : M World (option Project) :=
  db_statement ;;;
  gets (fun w => projects (w_db w) !! project_id).

(** [ProjectService.delete_project] *)
Definition delete_project (project_id : N) : M World bool :=
  project <- get_project project_id ;;
  match project with
  | None => ret false
  | Some _ =>
      exec_then_delete (remove_contexts_of_project project_id) ;;;
      exec_then_delete (remove_runs_of_project project_id) ;;;
      exec_then_delete (remove_artifacts_of_project project_id) ;;;
      delete_and_commit (fun db =>
        mkDatabase (delete project_id (projects db)) (contexts db)
                   (runs db) (artifacts db)) ;;;
      ret true
  end.

(** [ProjectService.list_context_by_project], [list_runs_by_project] and
    [list_artifacts_by_project] before [offset] and [limit] are applied *)
Definition contexts_of_project (project_id : N) (db : Database) : list Context :=
  filter (fun c => c_project_id c = project_id) (map snd (map_to_list (contexts db))).

Definition runs_of_project (project_id : N) (db : Database) : list OrchestrationRun :=
  filter (fun r => r_project_id r = Some project_id) (map snd (map_to_list (runs db))).

Definition artifacts_of_project (project_id : N) (db : Database) : list GeneratedArtifact :=
  filter (fun a => ga_project_id a = Some project_id) (map snd (map_to_list (artifacts db))).

(** [ProjectService.create_run] *)
Definition create_run (project_id : N) (status : string) (steps : option Dict)
    : M World (N * OrchestrationRun) :=
  started_at <-
    (if String.eqb status "RUNNING" then t <- now ;; ret (Some t) else ret None) ;;
  id <- uuid4 ;;
  let run := {| r_project_id := Some project_id;
                r_status := Some status;
                r_steps := steps;
                r_started_at := started_at;
                r_finished_at := None |} in
  commit_run id run ;;;
  db_statement ;;;
  ret (id, run).

(** [ProjectService.get_run] *)
Definition get_run (run_id : N) : M World (option OrchestrationRun) :=
  select_run_first run_id.

(** [ProjectService.update_run_status] *)
Definition update_run_status (run_id : N) (status : string) (finished : bool)
    : M World (option OrchestrationRun) :=
  run <- get_run run_id ;;
  match run with
  | None => ret None
  | Some run =>
      let run := set_run_status status run in
      run <-
        (if finished then t <- now ;; ret (set_run_finished_at t run) else ret run) ;;
      commit_run run_id run ;;;
      db_statement ;;;
      ret (Some run)
  end.

(** [ProjectService.delete_run] *)
Definition delete_run (run_id : N) : M World bool :=
  run <- get_run run_id ;;
  match run with
  | None => ret false
  | Some _ =>
      exec_then_delete (remove_artifacts_of_run run_id) ;;;
      delete_and_commit (fun db =>
        mkDatabase (projects db) (contexts db) (delete run_id (runs db))
                   (artifacts db)) ;;;
      ret true
  end.

(** ** Specification-side notions *)

(** A match of the pattern [opener(.*?)```] in [s]: the text before the
    match, the group and the text after the match. *)
Definition fenced_match (opener s before body rest : string) : Prop :=
  s = before +:+ opener +:+ body +:+ fence +:+ rest.

(** What [re.findall] returns for that pattern: scanning from the left, the
    match that starts first, with the shortest group (the group is lazy),
    then the matches of the text after it; the empty list when nothing
    matches. *)
Inductive Findall (opener : string) : string -> list string -> Prop :=
| Findall_none s :
    (forall before body rest, ~ fenced_match opener s before body rest) ->
    Findall opener s []
| Findall_match s before body rest bodies :
    fenced_match opener s before body rest ->
    (forall b y r, fenced_match opener s b y r ->
                   (String.length before <= String.length b)%nat) ->
    (forall y r, fenced_match opener s before y r ->
                 (String.length body <= String.length y)%nat) ->
    Findall opener rest bodies ->
    Findall opener s (body :: bodies).

(** The artifacts of one kind as the specification words them: the i-th
    block of the kind, counted from 0, becomes
    [{label}_{kindword}_{i}.{ext}] with the trimmed interior. *)
Definition kind_artifacts (label type infix ext : string) (bodies : list string)
    : list Artifact :=
  imap (fun i body =>
          mkArtifact type (label +:+ infix +:+ str_of_nat i +:+ ext) (strip body))
       bodies.

Fixpoint all_space (s : string) : bool :=
  match s with
  | EmptyString => true
  | String c s' => is_space c && all_space s'
  end.

Definition first_char (s : string) : option ascii :=
  match s with EmptyString => None | String c _ => Some c end.

Fixpoint last_char (s : string) : option ascii :=
  match s with
  | EmptyString => None
  | String c EmptyString => Some c
  | String _ s' => last_char s'
  end.

(** [needle in s] *)
Definition contains (needle s : string) : Prop :=
  exists a b, s = a +:+ needle +:+ b.

(** The white space of the Latin-1 range, by code point: TAB to CR, FS to
    US, SPACE, NEL and NBSP. *)
Definition white_space : list nat :=
  [9; 10; 11; 12; 13; 28; 29; 30; 31; 32; 133; 160].

(** [s] consists of white space. *)
Definition blank (s : string) : Prop :=
  forall c, c ∈ list_ascii_of_string s -> nat_of_ascii c ∈ white_space.

(** [c] is [s] trimmed of leading and trailing white space: white space
    before and after it, none at its two ends. *)
Definition trimmed (s c : string) : Prop :=
  exists l r,
    s = l +:+ c +:+ r /\ blank l /\ blank r /\
    (forall x, first_char c = Some x -> nat_of_ascii x ∉ white_space) /\
    (forall x, last_char c = Some x -> nat_of_ascii x ∉ white_space).

(** [num] is the decimal numeral of [i]: it reads as [i] and has no
    leading zero. *)
Definition numeral (i : nat) (num : string) : Prop :=
  NilZero.uint_of_string num = Some (Nat.to_uint i).

(** The artifacts [arts] of one kind for the matches [bodies] of its
    pattern: one artifact per match, in the order of the matches; the one
    of the match number [i], counted from 0, has the type of the kind, the
    name [{label}{infix}{i}{ext}] and the trimmed match as content. *)
Definition kind_listing (label type infix ext : string) (bodies : list string)
    (arts : list Artifact) : Prop :=
  List.length arts = List.length bodies /\
  forall i body, bodies !! i = Some body ->
    exists num content,
      arts !! i = Some (mkArtifact type (label +:+ infix +:+ num +:+ ext) content) /\
      numeral i num /\ trimmed body content.

(** The newline character *)
Definition line_feed : ascii := ascii_of_nat 10.

(** [cut] is [s] cut to its first [n] characters, [s[:n]] in the words of
    the source: the prefix of [s] of length [n], or [s] when it is
    shorter. *)
Definition cut_to (n : nat) (s cut : string) : Prop :=
  exists rest, s = cut +:+ rest /\
               String.length cut = Nat.min n (String.length s).

(** [text] is the placeholder of the handler with the label [label] for
    the prompt [enriched] that the handler receives. *)
Definition placeholder_of (label enriched text : string) : Prop :=
  exists cut,
    cut_to 100 enriched cut /\
    text = "[" +:+ label +:+ "] Placeholder response to: " +:+ cut +:+ "...".

Section InjectorFormat.
Context `{!PyBuiltins}.

(** The line of the context block for one entry of the map. *)
Definition context_line (kv : string * PyVal) (line : string) : Prop :=
  exists shown,
    cut_to 200 (py_str kv.2) shown /\
    line = "# " +:+ kv.1 +:+ ": " +:+ shown.

(** [out] is the prompt with the context block: the prompt, an empty line,
    the header and the lines of the entries in the order of the map,
    joined by newlines. *)
Definition injected (prompt : string) (context : Dict) (out : string) : Prop :=
  exists lines,
    Forall2 context_line context lines /\
    out = prompt +:+ String line_feed (String line_feed
            ("## Available Context:" +:+ String line_feed
               (String.concat (String line_feed EmptyString) lines))).

End InjectorFormat.

(** The computation [m] started in [s] returns normally, with a value and a
    final state that satisfy [Q]. *)
Definition returns {S A} (m : M S A) (s : S) (Q : A -> S -> Prop) : Prop :=
  exists a s', m s = (Ok a, s') /\ Q a s'.

(** The model reference selects one of the three branches of the dispatch
    in [_execute_step]. *)
Definition handled (st : StepInput) : bool :=
  model_is (model_type st) CODE_LLAMA
  || model_is (model_type st) CODE_GEMMA
  || model_is (model_type st) T5_GEMMA.

(** The steps of a list up to and including the first one that no branch
    of the dispatch takes. *)
Fixpoint executed (steps : list StepInput) : list StepInput :=
  match steps with
  | [] => []
  | st :: rest => if handled st then st :: executed rest else [st]
  end.

Definition all_handled (steps : list StepInput) : bool := forallb handled steps.

(** The trace that executing [steps] leaves. *)
Definition step_events (steps : list StepInput) : list Event :=
  map (fun st => EvExecuteStep (step_name st)) steps.

(** The two tags that the executor gives to a result. *)
Definition status_closed (o : StepOutput) : Prop :=
  so_status o = SUCCESS \/ so_status o = FAILED.

(** The database accepts every statement. *)
Definition db_available (w : World) : Prop :=
  forall n, w_db_fault w n = false.

(** No backend is configured, or every call of it raises. *)
Definition backend_down (w : World) : Prop :=
  match w_hf_manager w with
  | None => True
  | Some g => forall n req, exists e, g n req = Raise e
  end.

(** The run row after [status] is written at time [t]. *)
Definition stamped (status : string) (t : nat) (r : OrchestrationRun) : OrchestrationRun :=
  if is_terminal status
  then set_run_finished_at t (set_run_status status r)
  else set_run_status status r.

(** The invariant of the data model: [finished_at] is set exactly on the
    terminal statuses. *)
Definition finished_iff_terminal (r : OrchestrationRun) : Prop :=
  is_Some (r_finished_at r) <->
  (r_status r = Some "SUCCESS" \/ r_status r = Some "FAILED").

Section StepOutcome.
Context `{!PyBuiltins}.

(** The tag of the executor's result for a step, in a given context and
    state of the service. *)
Definition step_status (st : StepInput) (ctx : Dict) (w : World) : option StepStatus :=
  match _execute_step st ctx w with
  | (Ok o, _) => Some (so_status o)
  | (Raise _, _) => None
  end.

Definition step_succeeds (st : StepInput) : Prop :=
  forall ctx w, step_status st ctx w = Some SUCCESS.


End StepOutcome.

(** What [_update_run run_id status] may have done between [w] and [w']:
    nothing outside the row [run_id]; the row is as before (no such row,
    or the database refused a statement) or carries the new status; with
    the database available and the row present the write is made. *)
Definition run_updated (run_id : N) (status : string) (w w' : World) : Prop :=
  (forall j, j <> run_id -> runs (w_db w') !! j = runs (w_db w) !! j) /\
  (runs (w_db w') !! run_id = runs (w_db w) !! run_id \/
   exists r t, runs (w_db w) !! run_id = Some r /\
               runs (w_db w') !! run_id = Some (stamped status t r)) /\
  (db_available w -> forall r, runs (w_db w) !! run_id = Some r ->
     exists t, runs (w_db w') !! run_id = Some (stamped status t r)).

(** What one call of [execute_pipeline] may have done to the row of its
    run, whose statuses are written as RUNNING and then [final]. *)
Definition run_written (run_id : N) (final : string) (w w' : World) : Prop :=
  (forall j, j <> run_id -> runs (w_db w') !! j = runs (w_db w) !! j) /\
  match runs (w_db w) !! run_id with
  | None => runs (w_db w') !! run_id = None
  | Some r =>
      runs (w_db w') !! run_id = Some r \/
      runs (w_db w') !! run_id = Some (set_run_status "RUNNING" r) \/
      exists t, runs (w_db w') !! run_id = Some (stamped final t r)
  end /\
  (db_available w -> forall r, runs (w_db w) !! run_id = Some r ->
     exists t, runs (w_db w') !! run_id = Some (stamped final t r)).

(** A service just constructed, over an empty database, with no backend. *)
Definition idle_world : World :=
  mkWorld (mkDatabase ∅ ∅ ∅ ∅) 0 (fun _ => false) 0%N None 0 ∅ 0 [].

(** What the backend of [w] answers to [req] at its next call; [None]
    when no backend is configured or when the call raises. *)
Definition backend_answer (w : World) (req : GenRequest) : option string :=
  match w_hf_manager w with
  | Some g =>
      match g (w_hf_calls w) req with
      | Ok text => Some text
      | Raise _ => None
      end
  | None => None
  end.

(** The request of the handler that the dispatch selects for a step. *)
Definition handler_model_name (st : StepInput) : string :=
  if model_is (model_type st) CODE_LLAMA then "CodeLlama-7b"
  else if model_is (model_type st) CODE_GEMMA then "CodeGemma-7b"
  else "T5-Gemma".

Definition handler_request (st : StepInput) (enriched_prompt : string) : GenRequest :=
  {| gen_model_name := handler_model_name st;
     gen_prompt := enriched_prompt;
     gen_max_tokens := dict_get "max_tokens" (PyInt 512) (parameters st);
     gen_temperature := dict_get "temperature" (PyFloat (7 # 10)) (parameters st) |}.

Section Outcomes.
Context `{!PyBuiltins}.

(** The placeholder of a handler for the prompt it receives. *)
Definition placeholder (st : StepInput) (enriched_prompt : string) : string :=
  "[" +:+ ModelRef_value (model_type st) +:+ "] Placeholder response to: "
  +:+ str_take 100 enriched_prompt +:+ "...".

(** The text that a handled step produces in the context [ctx], started in
    [w]: the answer of the backend, or the placeholder when there is none. *)
Definition step_text (w : World) (st : StepInput) (ctx : Dict) : string :=
  let enriched_prompt := _inject_context (prompt st) ctx in
  default (placeholder st enriched_prompt)
          (backend_answer w (handler_request st enriched_prompt)).

(** The result of [_execute_step step_input ctx] started in [w]. *)
Definition step_outcome (w : World) (st : StepInput) (ctx : Dict) (o : StepOutput) : Prop :=
  so_step_name o = step_name st /\
  if handled st
  then so_status o = SUCCESS /\ so_error o = None /\
       so_result o = Some (step_text w st ctx) /\
       so_artifacts o = _extract_artifacts (step_name st) (step_text w st ctx)
  else so_status o = FAILED /\ so_result o = None /\
       so_error o = Some ("Unknown model type: " +:+ py_format_model (model_type st)) /\
       so_artifacts o = [].

(** [o] is the result of the step in some context, in a service with the
    backend of [w0]. *)
Definition step_recorded (w0 : World) (st : StepInput) (o : StepOutput) : Prop :=
  exists ctx w, w_hf_manager w = w_hf_manager w0 /\ step_outcome w st ctx o.

(** The request that [_run_assembler] sends to the backend. *)
Definition assembler_request (step_outputs : list StepOutput) : GenRequest :=
  {| gen_model_name := "CodeLlama-7b";
     gen_prompt := _build_assembler_prompt step_outputs;
     gen_max_tokens := PyInt 2048;
     gen_temperature := PyFloat (3 # 10) |}.

(** The result of [_run_assembler] started in [w]. *)
Definition assembler_outcome (w : World) (step_outputs : list StepOutput)
    (a : AssemblerOutput) : Prop :=
  match w_hf_manager w with
  | None =>
      let text := "[Assembled Output]" +:+ nl +:+ nl
                  +:+ _build_assembler_prompt step_outputs in
      a = mkAssemblerOutput text (_extract_artifacts "assembler" text) None
  | Some g =>
      match g (w_hf_calls w) (assembler_request step_outputs) with
      | Ok text => a = mkAssemblerOutput text (_extract_artifacts "assembler" text) None
      | Raise e => a = mkAssemblerOutput EmptyString [] (Some (exc_str e))
      end
  end.

(** What a call of [execute_pipeline] on [steps] for the run [run_id]
    establishes between the state [w] before and the state [w'] after it,
    and about the dictionary [result] it returns. *)
Definition pipeline_post (steps : list StepInput) (run_id : N)
    (w : World) (result : PipelineResult) (w' : World) : Prop :=
  Forall2 (step_recorded w) (executed steps) (res_steps result) /\
  w_step_history w' = <[run_id := res_steps result]> (w_step_history w) /\
  w_hf_manager w' = w_hf_manager w /\
  w_db_fault w' = w_db_fault w /\
  run_written run_id (if all_handled steps then "SUCCESS" else "FAILED") w w' /\
  if all_handled steps
  then res_status result = "SUCCESS" /\
       res_error result = None /\
       w_trace w' = w_trace w ++ step_events steps ++ [EvRunAssembler] /\
       exists a wa,
         w_hf_manager wa = w_hf_manager w /\
         assembler_outcome wa (res_steps result) a /\
         res_final_artifacts result = asm_artifacts a /\
         res_assembled_code result = Some (asm_assembled_code a)
  else res_status result = "FAILED" /\
       w_trace w' = w_trace w ++ step_events (executed steps).

(** The states of a service: it starts with an empty step history
    ([__init__]) and [execute_pipeline] is its only method that writes the
    history. *)
Inductive reachable : World -> Prop :=
| reachable_init w :
    w_step_history w = ∅ -> reachable w
| reachable_execute w pipeline run_id result w' :
    reachable w ->
    execute_pipeline pipeline run_id w = (Ok result, w') ->
    reachable w'
| reachable_other w w' :
    reachable w ->
    w_step_history w' = w_step_history w ->
    reachable w'.

End Outcomes.

(** ** The other methods of ProjectService *)

(** [session.add(row); session.commit()] for a row of the project table and
    of the context table *)
Definition commit_project (id : N) (p : Project) : M World unit :=
  db_statement ;;;
  modify (fun w =>
    set_db (mkDatabase (<[id := p]> (projects (w_db w))) (contexts (w_db w))
                       (runs (w_db w)) (artifacts (w_db w))) w).

Definition commit_context (id : N) (c : Context) : M World unit :=
  db_statement ;;;
  modify (fun w =>
    set_db (mkDatabase (projects (w_db w)) (<[id := c]> (contexts (w_db w)))
                       (runs (w_db w)) (artifacts (w_db w))) w).



(** [ProjectService.create_project]; the defaults of the model are drawn
    in the order of its fields: [updated_at] of the base class, then [id]
    and [created_at].  The keyword [metadata=metadata] is dropped by the
    constructor. *)
Definition create_project (name : string) (description : option string)
    (metadata : option Dict) (owner_id : option N) : M World (N * Project) :=
  updated_at <- now ;;
  id <- uuid4 ;;
  created_at <- now ;;
  let project := mkProject name description None owner_id created_at
                           (Some updated_at) in
  commit_project id project ;;;
  db_statement ;;;
  ret (id, project).



(** [ProjectService.create_context] *)
Definition create_context (project_id : N) (key : string) (value : option PyVal)
    : M World (N * Context) :=
  id <- uuid4 ;;
  updated_at <- now ;;
  let context := mkContext project_id key value (Some updated_at) in
  commit_context id context ;;;
  db_statement ;;;
  ret (id, context).

(** [ProjectService.get_context] *)
Definition get_context (context_id : N) : M World (option Context) :=
  db_statement ;;;
  gets (fun w => contexts (w_db w) !! context_id).



(** [ProjectService.delete_context] *)
Definition delete_context (context_id : N) : M World bool :=
  context <- get_context context_id ;;
  match context with
  | None => ret false
  | Some _ =>
      delete_and_commit (fun db =>
        mkDatabase (projects db) (delete context_id (contexts db))
                   (runs db) (artifacts db)) ;;;
      ret true
  end.


(** [ProjectService.create_artifact]; the keyword [metadata=metadata] is
    dropped by the constructor. *)
Definition create_artifact (project_id : N) (name : string)
    (path content : option string) (metadata : option Dict) (run_id : option N)
    : M World (N * GeneratedArtifact) :=
  id <- uuid4 ;;
  created_at <- now ;;
  let artifact := mkGenerated (Some project_id) run_id name path content
                              None created_at in
  commit_artifact id artifact ;;;
  db_statement ;;;
  ret (id, artifact).

(** [ProjectService.get_artifact] *)
Definition get_artifact (artifact_id : N) : M World (option GeneratedArtifact) :=
  db_statement ;;;
  gets (fun w => artifacts (w_db w) !! artifact_id).




(** [ProjectService.delete_artifact] *)
Definition delete_artifact (artifact_id : N) : M World bool :=
  artifact <- get_artifact artifact_id ;;
  match artifact with
  | None => ret false
  | Some _ =>
      delete_and_commit (fun db =>
        mkDatabase (projects db) (contexts db) (runs db)
                   (delete artifact_id (artifacts db))) ;;;
      ret true
  end.

(** ** The routes of the project service *)

(** The routes [DELETE /projects/{project_id}] and
    [DELETE /projects/runs/{run_id}]: they return nothing, or raise
    [HTTPException(404)] when the service returns [False]. *)
Definition route_delete_project (project_id : N) : M World unit :=
  success <- delete_project project_id ;;
  if success then ret tt
  else raise (mkExc "HTTPException" "404: Project not found").

Definition route_delete_run (run_id : N) : M World unit :=
  success <- delete_run run_id ;;
  if success then ret tt
  else raise (mkExc "HTTPException" "404: Orchestration run not found").

(** The body of [PUT /projects/runs/{run_id}], [OrchestrationRunUpdate]. *)
Record OrchestrationRunUpdate := mkRunUpdate {
  ru_status : option string;
  ru_finished : option bool;
}.

(** [run_update.status or "PENDING"]: the default replaces [None] and the
    empty string. *)
Definition status_or_pending (status : option string) : string :=
  match status with
  | Some (String c s) => String c s
  | _ => "PENDING"
  end.

(** The route [PUT /projects/runs/{run_id}]; [respond] stands for
    [OrchestrationRunRead.model_validate], which may raise. *)
Definition route_update_run {A} (respond : OrchestrationRun -> Res A)
    (run_id : N) (run_update : OrchestrationRunUpdate) : M World A :=
  updated <- update_run_status run_id (status_or_pending (ru_status run_update))
                               (default false (ru_finished run_update)) ;;
  match updated with
  | None => raise (mkExc "HTTPException" "404: Orchestration run not found")
  | Some run =>
      match respond run with
      | Ok response => ret response
      | Raise e => raise e
      end
  end.

(** ** HFModelManager.generate, as the orchestrator calls it *)

(** A named parameter of a signature, with its default when it has one. *)
Record Param := mkParam {
  param_name : string;
  param_default : option PyVal;
}.

(** [d[k]] when the key is there *)
Fixpoint dict_lookup (k : string) (d : Dict) : option PyVal :=
  match d with
  | [] => None
  | (k', v) :: d' => if String.eqb k k' then Some v else dict_lookup k d'
  end.

(** The parameters that a call with the keywords [kwargs] leaves without a
    value. *)
Definition missing_params (params : list Param) (kwargs : Dict) : list string :=
  map param_name
      (filter (fun p => param_default p = None /\ dict_lookup (param_name p) kwargs = None)
              params).

(** ['a'], ['a' and 'b'], ['a', 'b', and 'c'] *)
Fixpoint comma_names (names : list string) : string :=
  match names with
  | [] => EmptyString
  | [z] => "and '" +:+ z +:+ "'"
  | a :: rest => "'" +:+ a +:+ "', " +:+ comma_names rest
  end.

Definition quoted_names (names : list string) : string :=
  match names with
  | [a] => "'" +:+ a +:+ "'"
  | [a; b] => "'" +:+ a +:+ "' and '" +:+ b +:+ "'"
  | _ => comma_names names
  end.

(** The binding of a call that passes keywords only to a signature
    [f(p1, ..., pn, **kw)]: the values of the parameters in their order and
    the keywords that go to [**kw], or the [TypeError] of the interpreter
    for the parameters left without a value. *)
Definition bind_keywords (fname : string) (params : list Param) (kwargs : Dict)
    : Res (list PyVal * Dict) :=
  match missing_params params kwargs with
  | [] =>
      Ok (map (fun p => default (default PyNone (param_default p))
                                (dict_lookup (param_name p) kwargs))
              params,
          filter (fun kv => kv.1 ∉ map param_name params) kwargs)
  | missing =>
      Raise (mkExc "TypeError"
               (fname +:+ "() missing " +:+ str_of_nat (List.length missing)
                +:+ " required positional argument"
                +:+ (if Nat.eqb (List.length missing) 1 then EmptyString else "s")
                +:+ ": " +:+ quoted_names missing))
  end.

(** The signature [generate(self, model_key, prompt, max_new_tokens=128,
    **gen_kwargs)] of [custom/hf_manager.py]. *)
Definition generate_params : list Param :=
  [mkParam "model_key" None; mkParam "prompt" None;
   mkParam "max_new_tokens" (Some (PyInt 128))].

(** [HFModelManager.generate] behind the call of the orchestrator,
    [generate(model_name=..., prompt=..., max_tokens=..., temperature=...)].
    [loaded] are the keys of [self._models]; [infer] stands for the
    tokenizer and the model of the [transformers] library, which may raise
    (the method logs and raises again). *)
Definition HFModelManager_generate (loaded : list string)
    (infer : nat -> string -> string -> PyVal -> Dict -> Res string) : HFManager :=
  fun n req =>
    match bind_keywords "HFModelManager.generate" generate_params
            [("model_name", PyStr (gen_model_name req));
             ("prompt", PyStr (gen_prompt req));
             ("max_tokens", gen_max_tokens req);
             ("temperature", gen_temperature req)] with
    | Raise e => Raise e
    | Ok ([PyStr model_key; PyStr prompt; max_new_tokens], gen_kwargs) =>
        if bool_decide (model_key ∈ loaded)
        then infer n model_key prompt max_new_tokens gen_kwargs
        else Raise (mkExc "KeyError" ("'Model key not found: " +:+ model_key +:+ "'"))
    | Ok _ => Raise (mkExc "TypeError" "generate: model_key and prompt are strings")
    end.

(** ** Data flow of a run *)

(** The context after step [i] returned [o]:
    [execution_context[f"step_{i}_output"] = step_output.result] and
    [execution_context[f"step_{i}_artifacts"] = step_output.artifacts]. *)
Definition output_key (i : nat) : string := "step_" +:+ str_of_nat i +:+ "_output".
Definition artifacts_key (i : nat) : string := "step_" +:+ str_of_nat i +:+ "_artifacts".

Definition next_context (i : nat) (o : StepOutput) (ctx : Dict) : Dict :=
  dict_set (artifacts_key i) (PyList (map artifact_dict (so_artifacts o)))
    (dict_set (output_key i) (opt_str_val (so_result o)) ctx).

(** The first step of a list that no branch of the dispatch takes. *)
Definition failing_step (steps : list StepInput) : option StepInput :=
  List.find (fun st => negb (handled st)) steps.

(** The row that [_save_artifact] builds for an artifact. *)
Definition artifact_row (run_id project_id : N) (a : Artifact) (created_at : nat)
    : GeneratedArtifact :=
  mkGenerated (Some project_id) (Some run_id) (art_name a)
              (Some ("/artifacts/" +:+ art_name a)) (Some (art_content a))
              None created_at.

(** Every row of [new] is a row of [old] or the row of an artifact of one
    of the step results [outs]. *)
Definition rows_from_steps (run_id project_id : N) (outs : list StepOutput)
    (old new : gmap N GeneratedArtifact) : Prop :=
  forall id row, new !! id = Some row ->
    old !! id = Some row \/
    exists o a t, o ∈ outs /\ a ∈ so_artifacts o /\
                  row = artifact_row run_id project_id a t.

Section Flow.
Context `{!PyBuiltins}.

(** How the results [outs] of the executed steps chain: each step runs in
    the context that the results before it have built, from position [i]
    and context [ctx] on; [ctx'] is the context at the end. *)
Fixpoint run_chain (w0 : World) (i : nat) (ctx : Dict) (steps : list StepInput)
    (outs : list StepOutput) (ctx' : Dict) : Prop :=
  match steps, outs with
  | [], [] => ctx' = ctx
  | st :: rest, o :: outs' =>
      (exists w, w_hf_manager w = w_hf_manager w0 /\ step_outcome w st ctx o) /\
      if handled st
      then run_chain w0 (S i) (next_context i o ctx) rest outs' ctx'
      else outs' = [] /\ ctx' = ctx
  | _, _ => False
  end.

(** The error text of a run that stops at the step [st]. *)
Definition stop_message (st : StepInput) : string :=
  "Pipeline stopped at step '" +:+ step_name st +:+ "': "
  +:+ "Unknown model type: " +:+ py_format_model (model_type st).

(** ** The routes of the orchestrator *)

(** The validated body of a request, [StepInputSchema] and
    [PipelineCreateSchema]. *)
Record StepInputSchema := mkStepInputSchema {
  sis_step_name : string;
  sis_model_type : string;
  sis_prompt : string;
  sis_context : option Dict;
  sis_parameters : option Dict;
}.

Record PipelineCreateSchema := mkPipelineCreateSchema {
  pcs_project_id : N;
  pcs_name : string;
  pcs_steps : list StepInputSchema;
  pcs_global_context : option Dict;
  pcs_metadata : option Dict;
}.

(** [ModelType(value)]: the member with that value, or [ValueError]. *)
Definition ModelType_of_value (v : string) : Res ModelType :=
  if String.eqb v "CodeLlama" then Ok CODE_LLAMA
  else if String.eqb v "CodeGemma" then Ok CODE_GEMMA
  else if String.eqb v "T5Gemma" then Ok T5_GEMMA
  else if String.eqb v "Assembler" then Ok ASSEMBLER
  else Raise (mkExc "ValueError" ("'" +:+ v +:+ "' is not a valid ModelType")).

(** [HTTPException(status_code=..., detail=...)] *)
Definition http_exception (status : nat) (detail : string) : PyExc :=
  mkExc "HTTPException" (str_of_nat status +:+ ": " +:+ detail).

(** [Depends(get_orchestrator_service)]: every request gets its own
    [OrchestratorService(session)], without a backend and with an empty
    history. *)
Definition new_orchestrator_service : M World unit :=
  modify (fun w =>
    mkWorld (w_db w) (w_db_ops w) (w_db_fault w) (w_next_uuid w) None
            (w_hf_calls w) ∅ (w_clock w) (w_trace w)).

(** The list comprehension that builds the [StepInput]s of a request *)
Fixpoint convert_steps (steps : list StepInputSchema) : M World (list StepInput) :=
  match steps with
  | [] => ret []
  | s :: rest =>
      model_type <-
        (match ModelType_of_value (sis_model_type s) with
         | Ok m => ret m
         | Raise e => raise e
         end) ;;
      converted <- convert_steps rest ;;
      ret (mkStepInput (sis_step_name s) (Member model_type) (sis_prompt s)
                       (default [] (sis_context s))
                       (default [] (sis_parameters s)) :: converted)
  end.

(** [{s.step_name: s.model_type for s in pipeline.steps}] *)
Definition steps_map (steps : list StepInputSchema) : Dict :=
  fold_left (fun d s => dict_set (sis_step_name s) (PyStr (sis_model_type s)) d)
            steps [].

(** The route [POST /orchestrator/projects/{project_id}/execute].
    [respond] stands for the constructor of the response,
    [PipelineExecutionSchema(...)] applied to the entries of the dictionary
    of the service: it validates them and may raise, inside the [try]. *)
Definition route_execute_pipeline {A} (respond : PipelineResult -> Res A)
    (project_id : N) (pipeline : PipelineCreateSchema) : M World A :=
  new_orchestrator_service ;;;
  project <- get_project project_id ;;
  match project with
  | None => raise (http_exception 404 "Project not found")
  | Some _ =>
      id <- uuid4 ;;
      commit_run id (mkRun (Some project_id) (Some "PENDING")
                           (Some (steps_map (pcs_steps pipeline))) None None) ;;;
      db_statement ;;;
      steps <- convert_steps (pcs_steps pipeline) ;;
      let orchestration_pipeline :=
        mkPipeline project_id (pcs_name pipeline) steps
                   (default [] (pcs_global_context pipeline))
                   (default [] (pcs_metadata pipeline)) in
      try_except
        (result <- execute_pipeline orchestration_pipeline id ;;
         match respond result with
         | Ok response => ret response
         | Raise e => raise e
         end)
        (fun e => raise (http_exception 500
                           ("Pipeline execution failed: " +:+ exc_str e)))
  end.

(** The state in which the route calls the service: the service of the
    request, over the tables with the row of the new run. *)
Definition route_world (project_id : N) (pipeline : PipelineCreateSchema)
    (w : World) : World :=
  mkWorld
    (mkDatabase (projects (w_db w)) (contexts (w_db w))
       (<[w_next_uuid w := mkRun (Some project_id) (Some "PENDING")
                             (Some (steps_map (pcs_steps pipeline))) None None]>
          (runs (w_db w)))
       (artifacts (w_db w)))
    (S (S (S (w_db_ops w)))) (w_db_fault w) (N.succ (w_next_uuid w)) None
    (w_hf_calls w) ∅ (w_clock w) (w_trace w).

(** The route [GET /orchestrator/runs/{run_id}]; it returns the summary of
    the service, from which the response is filled. *)
Definition route_get_run_summary (run_id : N) : M World RunSummary :=
  new_orchestrator_service ;;;
  run <- select_run_first run_id ;;
  match run with
  | None => raise (http_exception 404 "Orchestration run not found")
  | Some _ => gets (get_run_summary run_id)
  end.

End Flow.

(** Every character of [s] satisfies [P]. *)
Fixpoint str_forallb (P : ascii -> bool) (s : string) : bool :=
  match s with
  | EmptyString => true
  | String c s' => P c && str_forallb P s'
  end.

(** [c] is one of the characters 0 to 9. *)
Definition is_digit (c : ascii) : bool :=
  let n := nat_of_ascii c in (48 <=? n) && (n <=? 57).


(** The database refuses every statement. *)
Definition db_down (w : World) : Prop :=
  forall n, w_db_fault w n = true.

(** The computation [m] draws no identifier. *)
Definition keeps_ids {A} (m : M World A) : Prop :=
  forall w, w_next_uuid (m w).2 = w_next_uuid w.

Section FlowPost.
Context `{!PyBuiltins}.

(** [context_after i ctx outs]: the context after the results [outs] of the
    steps at positions [i], [i + 1], ... were folded into [ctx]. *)
Fixpoint context_after (i : nat) (ctx : Dict) (outs : list StepOutput) : Dict :=
  match outs with
  | [] => ctx
  | o :: outs' => context_after (S i) (next_context i o ctx) outs'
  end.

(** What a call of [execute_pipeline] does with the context, with the
    tables other than the run table and with the keys of its dictionary
    that report a failure. *)
Definition pipeline_flow (pipeline : OrchestrationPipeline) (run_id : N)
    (w : World) (result : PipelineResult) (w' : World) : Prop :=
  (exists ctx', run_chain w 0 (pl_global_context pipeline) (pl_steps pipeline)
                          (res_steps result) ctx') /\
  rows_from_steps run_id (pl_project_id pipeline) (res_steps result)
                  (artifacts (w_db w)) (artifacts (w_db w')) /\
  projects (w_db w') = projects (w_db w) /\
  contexts (w_db w') = contexts (w_db w) /\
  match failing_step (pl_steps pipeline) with
  | Some st =>
      res_error result = Some (stop_message st) /\
      res_final_artifacts result = [] /\
      res_assembled_code result = None
  | None => res_error result = None
  end.

End FlowPost.

(** ** Inputs used in the examples *)

(** A rendering of the built-ins: values show as a fixed text, a model
    reference shows as its value. *)
Definition demo_builtins : PyBuiltins :=
  {| py_str := fun _ => "<value>"; py_format_model := ModelRef_value |}.

Definition demo_run : OrchestrationRun :=
  mkRun (Some 1%N) (Some "PENDING") None None None.

(** A service with no backend over a database that holds project 1 with
    one context, the pending run 7 and one artifact of that run. *)
Definition demo_db : Database :=
  mkDatabase
    {[ 1%N := mkProject "demo" None None None 0 None ]}
    {[ 10%N := mkContext 1%N "framework" (Some (PyStr "react")) None ]}
    {[ 7%N := demo_run ]}
    {[ 30%N := mkGenerated (Some 1%N) (Some 7%N) "a.jsx" None None None 0 ]}.

Definition demo_world : World :=
  mkWorld demo_db 0 (fun _ => false) 100%N None 0 ∅ 0 [].

(** A backend that raises at every call. *)
Definition failing_backend : HFManager :=
  fun _ _ => Raise (mkExc "RuntimeError" "backend unavailable").

Definition demo_world_failing_backend : World :=
  mkWorld demo_db 0 (fun _ => false) 100%N (Some failing_backend) 0 ∅ 0 [].

(** A model that answers every prompt. *)
Definition demo_infer : nat -> string -> string -> PyVal -> Dict -> Res string :=
  fun _ _ _ _ _ => Ok "generated".

(** A manager with the model loaded under the name the handlers use, whose
    model would answer every prompt. *)
Definition demo_hf_manager : HFManager :=
  HFModelManager_generate ["CodeLlama-7b"] demo_infer.

Definition demo_world_hf_manager : World :=
  mkWorld demo_db 0 (fun _ => false) 100%N (Some demo_hf_manager) 0 ∅ 0 [].

Definition demo_project : Project := mkProject "demo" None None None 0 None.

(** A text with one fenced block of the kind jsx. *)
Definition demo_fenced_text : string := "```jsx x ```".

(** Two requests for the route: one names two models of the enumeration,
    the other a model that is none of its values. *)
Definition demo_request : PipelineCreateSchema :=
  mkPipelineCreateSchema 1%N "demo"
    [mkStepInputSchema "a" "CodeLlama" "Generate a button component" None None;
     mkStepInputSchema "b" "T5Gemma" "Transform the code structure" None None]
    None None.

Definition demo_request_invalid : PipelineCreateSchema :=
  mkPipelineCreateSchema 1%N "demo"
    [mkStepInputSchema "a" "CodeLlama" "Generate a button component" None None;
     mkStepInputSchema "bad" "NotARealModel" "This should fail" None None]
    None None.

(** Responses that are built in every case. *)
Definition demo_respond (result : PipelineResult) : Res PipelineResult := Ok result.
Definition demo_respond_run (run : OrchestrationRun) : Res OrchestrationRun := Ok run.


(** The service of [demo_world] while the database refuses every
    statement. *)
Definition demo_world_db_down : World :=
  mkWorld demo_db 0 (fun _ => true) 100%N None 0 ∅ 0 [].

Definition step_a : StepInput :=
  mkStepInput "a" (Member CODE_LLAMA) "Generate a button component..." [] [].

Definition step_b : StepInput :=
  mkStepInput "b" (Member T5_GEMMA) "Transform the code structure" [] [].

(** A step whose prompt has 130 characters. *)
Definition step_long : StepInput :=
  mkStepInput "long" (Member CODE_LLAMA)
    ("Generate a button component with a label, an icon, "
     +:+ "a disabled state and a loading state; add unit te"
     +:+ "sts and a story for each state")
    [] [].

(** A step whose prompt holds a fenced block, which the placeholder of
    its handler repeats. *)
Definition step_fenced : StepInput :=
  mkStepInput "fenced" (Member CODE_LLAMA) demo_fenced_text [] [].

(** A step for the member of the enumeration that no handler takes. *)
Definition step_assembler : StepInput :=
  mkStepInput "assemble" (Member ASSEMBLER) "Assemble the components" [] [].

Definition step_bad : StepInput :=
  mkStepInput "bad" (Plain "NotARealModel") "This should fail" [] [].

Definition good_pipeline : OrchestrationPipeline :=
  mkPipeline 1%N "good" [step_a; step_b] [] [].

Definition long_pipeline : OrchestrationPipeline :=
  mkPipeline 1%N "long" [step_long; step_b] [] [].

Definition fenced_pipeline : OrchestrationPipeline :=
  mkPipeline 1%N "fenced" [step_fenced; step_b] [] [].

Definition assembler_pipeline : OrchestrationPipeline :=
  mkPipeline 1%N "assemble" [step_assembler] [] [].

Definition bad_pipeline : OrchestrationPipeline :=
  mkPipeline 1%N "bad" [step_a; step_bad; step_b] [] [].

(** * Properties *)

(** ** Strings *)

(** Splits the conjunctions of the goal and nothing else. *)
Ltac conjs := repeat match goal with |- _ /\ _ => split end.

(** stdpp keeps [String.append] from unfolding under [simpl]; these are its
    two defining equations. *)
Lemma str_app_nil_l (b : string) : EmptyString +:+ b = b.
Proof. reflexivity. Qed.

Lemma str_app_cons (x : ascii) (a b : string) :
  String x a +:+ b = String x (a +:+ b).
Proof. reflexivity. Qed.

Lemma str_app_assoc (a b c : string) : (a +:+ b) +:+ c = a +:+ b +:+ c.
Proof.
  induction a as [|x a IH]; [reflexivity |].
  rewrite !str_app_cons. now rewrite IH.
Qed.

Lemma str_app_nil_r (a : string) : a +:+ EmptyString = a.
Proof.
  induction a as [|x a IH]; [reflexivity |].
  rewrite str_app_cons. now rewrite IH.
Qed.

Lemma str_app_length (a b : string) :
  String.length (a +:+ b) = String.length a + String.length b.
Proof.
  induction a as [|x a IH]; [reflexivity |].
  rewrite str_app_cons. simpl. now rewrite IH.
Qed.

Lemma str_length_0 (a : string) : String.length a = 0 -> a = EmptyString.
Proof. destruct a; simpl; [reflexivity | discriminate]. Qed.

(** Two ways of cutting the same text: the shorter prefix is a prefix of the
    longer one. *)
Lemma str_app_cut (p1 t1 p2 t2 : string) :
  p1 +:+ t1 = p2 +:+ t2 ->
  (String.length p1 <= String.length p2)%nat ->
  exists m, p2 = p1 +:+ m /\ t1 = m +:+ t2.
Proof.
  revert p2; induction p1 as [|c p1 IH]; intros p2 Heq Hlen.
  - exists p2. split; [reflexivity | exact Heq].
  - destruct p2 as [|d p2]; simpl in Hlen; [lia |].
    rewrite !str_app_cons in Heq. injection Heq as -> Heq.
    destruct (IH p2 Heq) as (m & -> & ->); [lia |].
    exists m. split; reflexivity.
Qed.

Lemma str_app_same_length (p1 t1 p2 t2 : string) :
  p1 +:+ t1 = p2 +:+ t2 ->
  String.length p1 = String.length p2 ->
  p1 = p2 /\ t1 = t2.
Proof.
  intros Heq Hlen.
  destruct (str_app_cut p1 t1 p2 t2 Heq) as (m & -> & ->); [lia |].
  rewrite str_app_length in Hlen.
  assert (m = EmptyString) as -> by (apply str_length_0; lia).
  now rewrite str_app_nil_r.
Qed.

Lemma strip_prefix_Some (p s r : string) :
  strip_prefix p s = Some r <-> s = p +:+ r.
Proof.
  revert s; induction p as [|a p IH]; intros s; simpl.
  - split; [now intros [= ->] | now intros ->].
  - destruct s as [|b s].
    + split; discriminate.
    + rewrite str_app_cons.
      destruct (Ascii.eqb_spec a b) as [-> | Hne].
      * rewrite IH. split; [now intros -> | now intros [= ->]].
      * split; [discriminate | intros [= -> _]; now destruct Hne].
Qed.

Lemma strip_prefix_None (p s : string) :
  strip_prefix p s = None -> forall r, s <> p +:+ r.
Proof.
  intros Hnone r Heq. apply strip_prefix_Some in Heq. congruence.
Qed.

(** [split_at_first] finds an occurrence, and no occurrence starts before it. *)
Lemma split_at_first_Some (needle s before rest : string) :
  split_at_first needle s = Some (before, rest) ->
  s = before +:+ needle +:+ rest /\
  forall b r, s = b +:+ needle +:+ r ->
              (String.length before <= String.length b)%nat.
Proof.
  revert before; induction s as [|c s IH]; intros before; simpl.
  - destruct (strip_prefix needle EmptyString) as [r0|] eqn:Hp; [| discriminate].
    intros [= <- <-]. apply strip_prefix_Some in Hp.
    split; [exact Hp | intros; simpl; lia].
  - destruct (strip_prefix needle (String c s)) as [r0|] eqn:Hp.
    + intros [= <- <-]. apply strip_prefix_Some in Hp.
      split; [exact Hp | intros; simpl; lia].
    + destruct (split_at_first needle s) as [[b0 r0]|] eqn:Hs; [| discriminate].
      intros [= <- <-]. destruct (IH b0 eq_refl) as [-> Hmin].
      split; [reflexivity |].
      intros b r Heq. destruct b as [|d b].
      * exfalso. exact (strip_prefix_None _ _ Hp r Heq).
      * rewrite !str_app_cons in Heq. injection Heq as _ Heq.
        simpl. specialize (Hmin b r Heq). lia.
Qed.

Lemma split_at_first_None (needle s : string) :
  split_at_first needle s = None ->
  forall b r, s <> b +:+ needle +:+ r.
Proof.
  induction s as [|c s IH]; simpl.
  - destruct (strip_prefix needle EmptyString) eqn:Hp; [discriminate |].
    intros _ b r Heq. destruct b; [| discriminate].
    exact (strip_prefix_None _ _ Hp r Heq).
  - destruct (strip_prefix needle (String c s)) eqn:Hp; [discriminate |].
    destruct (split_at_first needle s) as [[b0 r0]|] eqn:Hs; [discriminate |].
    intros _ b r Heq. destruct b as [|d b].
    + exact (strip_prefix_None _ _ Hp r Heq).
    + rewrite !str_app_cons in Heq. injection Heq as _ Heq.
      exact (IH eq_refl b r Heq).
Qed.

Lemma str_app_inv_head (a x y : string) : a +:+ x = a +:+ y -> x = y.
Proof.
  intros Heq. now destruct (str_app_same_length a x a y Heq eq_refl).
Qed.

(** ** Trimming *)

Lemma lstrip_spec (s : string) :
  exists l, s = l +:+ lstrip s /\ all_space l = true /\
            forall c, first_char (lstrip s) = Some c -> is_space c = false.
Proof.
  induction s as [|c s (l & Heq & Hl & Hfirst)]; simpl.
  - exists EmptyString. repeat split. discriminate.
  - destruct (is_space c) eqn:Hc.
    + exists (String c l). rewrite str_app_cons, <- Heq. simpl.
      rewrite Hc, Hl. repeat split. exact Hfirst.
    + exists EmptyString. repeat split. simpl. now intros c' [= <-].
Qed.

Lemma rstrip_spec (s : string) :
  exists r, s = rstrip s +:+ r /\ all_space r = true /\
            (forall c, last_char (rstrip s) = Some c -> is_space c = false) /\
            first_char (rstrip s) = (if all_space s then None else first_char s).
Proof.
  induction s as [|c s (r & Heq & Hr & Hlast & Hfirst)]; simpl.
  - exists EmptyString. repeat split. discriminate.
  - destruct (rstrip s) as [|d t] eqn:Ht.
    + rewrite str_app_nil_l in Heq. subst r.
      assert (all_space s = true) as Hs by exact Hr.
      rewrite Hs, andb_true_r.
      destruct (is_space c) eqn:Hc.
      * exists (String c s). repeat split; simpl; [now rewrite Hc | discriminate].
      * exists s. repeat split; [exact Hs |]. simpl. now intros c' [= <-].
    + exists r. rewrite str_app_cons, <- Heq. repeat split; [exact Hr | | ].
      * exact Hlast.
      * simpl. destruct (all_space s) eqn:Hs; [discriminate |].
        now rewrite andb_false_r.
Qed.

(** [strip] removes a run of whitespace at each end and nothing else, and
    what is left neither starts nor ends with whitespace. *)
Lemma strip_spec (s : string) :
  exists l r, s = l +:+ strip s +:+ r /\
              all_space l = true /\ all_space r = true /\
              (forall c, first_char (strip s) = Some c -> is_space c = false) /\
              (forall c, last_char (strip s) = Some c -> is_space c = false).
Proof.
  unfold strip.
  destruct (lstrip_spec s) as (l & Hl & Hsl & Hfirst).
  destruct (rstrip_spec (lstrip s)) as (r & Hr & Hsr & Hlast & Hf).
  exists l, r. repeat split; try assumption.
  - now rewrite <- Hr.
  - intros c Hc. rewrite Hf in Hc.
    destruct (all_space (lstrip s)); [discriminate | now apply Hfirst].
Qed.

(** ** The search of the extractor implements [re.findall] *)

Lemma fence_length : String.length fence = 3.
Proof. reflexivity. Qed.

Lemma findall_fenced_spec (opener : string) (fuel : nat) (s : string) :
  (String.length s < fuel)%nat ->
  Findall opener s (findall_fenced fuel opener s).
Proof.
  revert s; induction fuel as [|fuel IH]; intros s Hfuel; [lia |].
  simpl.
  destruct (split_at_first opener s) as [[before after_open]|] eqn:Hopen.
  - apply split_at_first_Some in Hopen as [Hs Hleft].
    destruct (split_at_first fence after_open) as [[body rest]|] eqn:Hclose.
    + apply split_at_first_Some in Hclose as [Hafter Hlazy].
      apply Findall_match with (before := before) (rest := rest).
      * unfold fenced_match. now rewrite Hs, Hafter.
      * intros b y r Hm. apply (Hleft b (y +:+ fence +:+ r)). exact Hm.
      * intros y r Hm. unfold fenced_match in Hm. rewrite Hs in Hm.
        apply str_app_inv_head, str_app_inv_head in Hm.
        exact (Hlazy y r Hm).
      * apply IH.
        assert (String.length s =
                String.length before + (String.length opener +
                  (String.length body + (3 + String.length rest)))) as Hlen.
        { rewrite Hs, Hafter. now rewrite !str_app_length, fence_length. }
        lia.
    + apply Findall_none. intros b y r Hm. unfold fenced_match in Hm.
      pose proof (Hleft b (y +:+ fence +:+ r) Hm) as Hle.
      rewrite Hs in Hm.
      destruct (str_app_cut _ _ _ _ Hm Hle) as (m & _ & Hcut).
      rewrite <- !str_app_assoc in Hcut.
      rewrite (str_app_assoc _ fence r) in Hcut.
      destruct (str_app_cut opener after_open ((m +:+ opener) +:+ y)
                  (fence +:+ r) Hcut) as (m2 & _ & Hafter).
      { rewrite !str_app_length. lia. }
      exact (split_at_first_None _ _ Hclose m2 r Hafter).
  - apply Findall_none. intros b y r Hm.
    exact (split_at_first_None _ _ Hopen b (y +:+ fence +:+ r) Hm).
Qed.

Lemma re_findall_fenced_spec (lang result : string) :
  Findall (fence +:+ lang) result (re_findall_fenced lang result).
Proof. apply findall_fenced_spec. lia. Qed.

(** The relation determines the list: [re.findall] has one answer. *)
Lemma Findall_functional (opener s : string) (l1 l2 : list string) :
  Findall opener s l1 -> Findall opener s l2 -> l1 = l2.
Proof.
  intros H1; revert l2.
  induction H1 as [s Hnone | s before body rest bodies Hm Hleft Hlazy _ IH];
    intros l2 H2; inversion H2 as [? Hnone' | ? before' body' rest' bodies' Hm' Hleft' Hlazy' Hrest']; subst.
  - reflexivity.
  - now destruct (Hnone _ _ _ Hm').
  - now destruct (Hnone' _ _ _ Hm).
  - assert (String.length before = String.length before') as Hb.
    { pose proof (Hleft _ _ _ Hm'). pose proof (Hleft' _ _ _ Hm). lia. }
    unfold fenced_match in Hm, Hm'.
    pose proof Hm' as Heq. rewrite Hm in Heq.
    apply str_app_same_length in Heq as [<- Heq]; [| exact Hb].
    apply str_app_inv_head in Heq.
    assert (String.length body = String.length body') as Hy.
    { pose proof (Hlazy body' rest' Hm'). pose proof (Hlazy' body rest Hm). lia. }
    apply str_app_same_length in Heq as [<- Heq]; [| exact Hy].
    apply str_app_inv_head in Heq. subst rest'.
    f_equal. now apply IH.
Qed.

(** ** The four loops of the extractor *)

Lemma append_blocks_from (label type infix ext : string) (blocks : list string) :
  forall (i : nat) (acc : list Artifact),
    fold_left
      (fun acc '(i, block) =>
         acc ++ [ {| art_type := type;
                     art_name := label +:+ infix +:+ str_of_nat i +:+ ext;
                     art_content := strip block |} ])
      (enumerate_from i blocks) acc
    = acc ++ imap (fun j body =>
                     mkArtifact type
                       (label +:+ infix +:+ str_of_nat (i + j) +:+ ext)
                       (strip body)) blocks.
Proof.
  induction blocks as [|b blocks IH]; intros i acc; simpl.
  - now rewrite app_nil_r.
  - rewrite IH, <- app_assoc. f_equal. simpl. f_equal.
    + now rewrite Nat.add_0_r.
    + apply imap_ext. intros j x _. unfold compose.
      replace (i + S j) with (S i + j) by lia. reflexivity.
Qed.

Lemma append_blocks_spec (label type infix ext : string)
    (blocks : list string) (acc : list Artifact) :
  append_blocks label type infix ext blocks acc
  = acc ++ kind_artifacts label type infix ext blocks.
Proof.
  unfold append_blocks, enumerate, kind_artifacts.
  now rewrite append_blocks_from.
Qed.

Lemma kind_artifacts_length (label type infix ext : string) (bodies : list string) :
  List.length (kind_artifacts label type infix ext bodies) = List.length bodies.
Proof. unfold kind_artifacts. apply length_imap. Qed.

Lemma kind_artifacts_lookup (label type infix ext : string)
    (bodies : list string) (i : nat) (body : string) :
  bodies !! i = Some body ->
  kind_artifacts label type infix ext bodies !! i
  = Some (mkArtifact type (label +:+ infix +:+ str_of_nat i +:+ ext) (strip body)).
Proof.
  intros Hi. unfold kind_artifacts. rewrite list_lookup_imap, Hi. reflexivity.
Qed.

(** ** Rules for computations that return *)

Lemma returns_ret {S A} (a : A) (s : S) (Q : A -> S -> Prop) :
  Q a s -> returns (ret a) s Q.
Proof. intros HQ. now exists a, s. Qed.

Lemma returns_bind {S A B} (m : M S A) (k : A -> M S B) (s : S)
    (Q : B -> S -> Prop) :
  returns m s (fun a s' => returns (k a) s' Q) -> returns (bind m k) s Q.
Proof.
  intros (a & s' & Hm & b & s'' & Hk & HQ).
  exists b, s''. unfold bind. now rewrite Hm.
Qed.

Lemma returns_mono {S A} (m : M S A) (s : S) (Q Q' : A -> S -> Prop) :
  returns m s Q -> (forall a s', Q a s' -> Q' a s') -> returns m s Q'.
Proof. intros (a & s' & Hm & HQ) Himp. exists a, s'. auto. Qed.

Lemma returns_gets {S A} (f : S -> A) (s : S) (Q : A -> S -> Prop) :
  Q (f s) s -> returns (gets f) s Q.
Proof. intros HQ. now exists (f s), s. Qed.

Lemma returns_modify {S} (f : S -> S) (s : S) (Q : unit -> S -> Prop) :
  Q tt (f s) -> returns (modify f) s Q.
Proof. intros HQ. now exists tt, (f s). Qed.

Lemma returns_try {S A} (m : M S A) (h : PyExc -> M S A) (s : S)
    (Q : A -> S -> Prop) :
  returns m s Q -> returns (try_except m h) s Q.
Proof.
  intros (a & s' & Hm & HQ). exists a, s'. unfold try_except. now rewrite Hm.
Qed.

Lemma returns_lift {A} (m : M World A) (fr : Frame) (Q : A -> Frame -> Prop) :
  returns m (fr_world fr)
          (fun a w => Q a (mkFrame w (fr_results fr) (fr_context fr))) ->
  returns (lift m) fr Q.
Proof.
  intros (a & w & Hm & HQ). eexists a, _. unfold lift. rewrite Hm. eauto.
Qed.

Lemma returns_now (w : World) (Q : nat -> World -> Prop) :
  (forall w', w_db w' = w_db w -> w_db_ops w' = w_db_ops w ->
              w_db_fault w' = w_db_fault w ->
              w_hf_manager w' = w_hf_manager w -> w_hf_calls w' = w_hf_calls w ->
              w_step_history w' = w_step_history w ->
              w_trace w' = w_trace w -> Q (w_clock w) w') ->
  returns now w Q.
Proof. intros HQ. eexists _, _. split; [reflexivity |]. now apply HQ. Qed.

Lemma returns_emit (e : Event) (w : World) (Q : unit -> World -> Prop) :
  (forall w', w_db w' = w_db w -> w_db_ops w' = w_db_ops w ->
              w_db_fault w' = w_db_fault w ->
              w_hf_manager w' = w_hf_manager w -> w_hf_calls w' = w_hf_calls w ->
              w_step_history w' = w_step_history w ->
              w_trace w' = w_trace w ++ [e] -> Q tt w') ->
  returns (emit e) w Q.
Proof. intros HQ. eexists _, _. split; [reflexivity |]. now apply HQ. Qed.

(** ** Writes of the orchestrator to the run table *)

Lemma _update_run_returns (run_id : N) (status : string) (w : World) :
  returns (_update_run run_id status) w (fun _ w' =>
    w_hf_manager w' = w_hf_manager w /\ w_db_fault w' = w_db_fault w /\
    w_step_history w' = w_step_history w /\ w_trace w' = w_trace w /\
    run_updated run_id status w w').
Proof.
  unfold returns, _update_run, select_run_first, commit_run, run_updated,
    db_available.
  unfold try_except, bind, db_statement, gets, modify, ret, now.
  cbv beta. destruct (w_db_fault w (w_db_ops w)) eqn:Hf1; cbn.
  { eexists _, _. split; [reflexivity |]. cbn. repeat split; auto.
    intros Hav. rewrite Hav in Hf1. discriminate. }
  destruct (runs (w_db w) !! run_id) as [r|] eqn:Hr; cbn.
  2: { eexists _, _. split; [reflexivity |]. cbn. repeat split; auto.
       intros _ r Hr'. congruence. }
  destruct (is_terminal status) eqn:Hterm; cbn.
  - destruct (w_db_fault w (S (w_db_ops w))) eqn:Hf2; cbn.
    + eexists _, _. split; [reflexivity |]. cbn. rewrite Hr. repeat split; auto.
      intros Hav. rewrite Hav in Hf2. discriminate.
    + eexists _, _. split; [reflexivity |]. cbn. repeat split; auto.
      * intros j Hj. rewrite lookup_insert_ne; [reflexivity | congruence].
      * right. exists r, (w_clock w). rewrite lookup_insert_eq.
        unfold stamped. rewrite Hterm. auto.
      * intros _ r' [= <-]. exists (w_clock w). rewrite lookup_insert_eq.
        unfold stamped. now rewrite Hterm.
  - destruct (w_db_fault w (S (w_db_ops w))) eqn:Hf2; cbn.
    + eexists _, _. split; [reflexivity |]. cbn. rewrite Hr. repeat split; auto.
      intros Hav. rewrite Hav in Hf2. discriminate.
    + eexists _, _. split; [reflexivity |]. cbn. repeat split; auto.
      * intros j Hj. rewrite lookup_insert_ne; [reflexivity | congruence].
      * right. exists r, 0. rewrite lookup_insert_eq.
        unfold stamped. rewrite Hterm. auto.
      * intros _ r' [= <-]. exists 0. rewrite lookup_insert_eq.
        unfold stamped. now rewrite Hterm.
Qed.

Lemma _save_artifact_returns (run_id project_id : N) (a : Artifact) (w : World) :
  returns (_save_artifact run_id project_id a) w (fun _ w' =>
    w_hf_manager w' = w_hf_manager w /\ w_db_fault w' = w_db_fault w /\
    w_step_history w' = w_step_history w /\ w_trace w' = w_trace w /\
    runs (w_db w') = runs (w_db w)).
Proof.
  unfold returns, _save_artifact, commit_artifact.
  unfold try_except, bind, db_statement, modify, ret, uuid4, now.
  cbn. destruct (w_db_fault w (w_db_ops w)) eqn:Hf; cbn;
    eexists _, _; (split; [reflexivity |]); cbn; auto.
Qed.

Lemma save_artifacts_returns (run_id project_id : N) (arts : list Artifact) (w : World) :
  returns (for_each arts (_save_artifact run_id project_id)) w (fun _ w' =>
    w_hf_manager w' = w_hf_manager w /\ w_db_fault w' = w_db_fault w /\
    w_step_history w' = w_step_history w /\ w_trace w' = w_trace w /\
    runs (w_db w') = runs (w_db w)).
Proof.
  revert w; induction arts as [|a arts IH]; intros w; simpl.
  - apply returns_ret. auto.
  - apply returns_bind.
    eapply returns_mono; [apply _save_artifact_returns |].
    intros _ w1 (Hhf & Hfa & Hh & Ht & Hr). cbn beta.
    eapply returns_mono; [apply IH |].
    intros _ w2 (Hhf2 & Hfa2 & Hh2 & Ht2 & Hr2). cbn beta.
    repeat split; congruence.
Qed.

Lemma returns_try_raise {S A} (m : M S A) (h : PyExc -> M S A) (s s' : S)
    (e : PyExc) (Q : A -> S -> Prop) :
  m s = (Raise e, s') -> returns (h e) s' Q -> returns (try_except m h) s Q.
Proof.
  intros Hm (a & s'' & Hh & HQ). exists a, s''.
  unfold try_except. now rewrite Hm.
Qed.

(** ** The step executor *)

Section StepExecutor.
Context `{!PyBuiltins}.

Lemma backend_answer_eq (w w' : World) (req : GenRequest) :
  w_hf_manager w' = w_hf_manager w -> w_hf_calls w' = w_hf_calls w ->
  backend_answer w' req = backend_answer w req.
Proof. unfold backend_answer. now intros -> ->. Qed.

Lemma backend_down_no_answer (w w' : World) (req : GenRequest) :
  w_hf_manager w' = w_hf_manager w -> backend_down w ->
  backend_answer w' req = None.
Proof.
  unfold backend_answer, backend_down. intros ->.
  destruct (w_hf_manager w) as [g|]; [| reflexivity].
  intros Hdown. destruct (Hdown (w_hf_calls w') req) as [e ->]. reflexivity.
Qed.

(** A handler answers with the text of the backend or with its
    placeholder, and raises in no case. *)
Lemma generate_or_placeholder_returns (model_name label prompt : string)
    (params : Dict) (w : World) :
  returns (generate_or_placeholder model_name label prompt params) w
    (fun text w' =>
       w_db w' = w_db w /\ w_db_fault w' = w_db_fault w /\
       w_hf_manager w' = w_hf_manager w /\
       w_step_history w' = w_step_history w /\ w_trace w' = w_trace w /\
       text = default ("[" +:+ label +:+ "] Placeholder response to: "
                       +:+ str_take 100 prompt +:+ "...")
                (backend_answer w
                   {| gen_model_name := model_name;
                      gen_prompt := prompt;
                      gen_max_tokens := dict_get "max_tokens" (PyInt 512) params;
                      gen_temperature :=
                        dict_get "temperature" (PyFloat (7 # 10)) params |})).
Proof.
  unfold returns, generate_or_placeholder, backend_answer.
  unfold try_except, bind, gets, ret, hf_generate. cbv beta.
  destruct (w_hf_manager w) as [g|] eqn:Hhf.
  - match goal with |- context [g (w_hf_calls w) ?r] =>
      destruct (g (w_hf_calls w) r) as [text|e] eqn:Hg end;
      eexists _, _; (split; [reflexivity |]); cbn; repeat split; auto.
  - eexists _, _. split; [reflexivity |]. repeat split; auto.
Qed.

Lemma model_is_value (r : ModelRef) (m : ModelType) :
  model_is r m = true -> ModelRef_value r = ModelType_value m.
Proof. unfold model_is. apply String.eqb_eq. Qed.

(** The dispatch of [_execute_step] on a reference that a branch takes. *)
Lemma dispatch_returns (st : StepInput) (enriched : string) (w : World) :
  handled st = true ->
  returns
    (if model_is (model_type st) CODE_LLAMA
     then _execute_code_llama enriched (parameters st)
     else if model_is (model_type st) CODE_GEMMA
     then _execute_code_gemma enriched (parameters st)
     else if model_is (model_type st) T5_GEMMA
     then _execute_t5_gemma enriched (parameters st)
     else raise (mkExc "ValueError"
                   ("Unknown model type: " +:+ py_format_model (model_type st))))
    w
    (fun text w' =>
       w_db w' = w_db w /\ w_db_fault w' = w_db_fault w /\
       w_hf_manager w' = w_hf_manager w /\
       w_step_history w' = w_step_history w /\ w_trace w' = w_trace w /\
       text = default (placeholder st enriched)
                (backend_answer w (handler_request st enriched))).
Proof.
  unfold handled, placeholder, handler_request, handler_model_name. intros Hh.
  destruct (model_is (model_type st) CODE_LLAMA) eqn:H1.
  { rewrite (model_is_value _ _ H1). apply generate_or_placeholder_returns. }
  destruct (model_is (model_type st) CODE_GEMMA) eqn:H2.
  { rewrite (model_is_value _ _ H2). apply generate_or_placeholder_returns. }
  destruct (model_is (model_type st) T5_GEMMA) eqn:H3; [| discriminate].
  rewrite (model_is_value _ _ H3). apply generate_or_placeholder_returns.
Qed.

Lemma dispatch_raises (st : StepInput) (enriched : string) (w : World) :
  handled st = false ->
  (if model_is (model_type st) CODE_LLAMA
   then _execute_code_llama enriched (parameters st)
   else if model_is (model_type st) CODE_GEMMA
   then _execute_code_gemma enriched (parameters st)
   else if model_is (model_type st) T5_GEMMA
   then _execute_t5_gemma enriched (parameters st)
   else raise (mkExc "ValueError"
                 ("Unknown model type: " +:+ py_format_model (model_type st))))
    w
  = (Raise (mkExc "ValueError"
              ("Unknown model type: " +:+ py_format_model (model_type st))), w).
Proof.
  unfold handled. intros Hh.
  destruct (model_is (model_type st) CODE_LLAMA); [discriminate |].
  destruct (model_is (model_type st) CODE_GEMMA); [discriminate |].
  destruct (model_is (model_type st) T5_GEMMA); [discriminate |].
  reflexivity.
Qed.

(** [_execute_step] always returns a result; it leaves the database and the
    history alone and records itself in the trace. *)
Lemma _execute_step_returns (st : StepInput) (ctx : Dict) (w : World) :
  returns (_execute_step st ctx) w (fun o w' =>
    w_db w' = w_db w /\ w_db_fault w' = w_db_fault w /\
    w_hf_manager w' = w_hf_manager w /\
    w_step_history w' = w_step_history w /\
    w_trace w' = w_trace w ++ [EvExecuteStep (step_name st)] /\
    step_outcome w st ctx o).
Proof.
  unfold _execute_step.
  apply returns_bind, returns_emit. intros w1 Hdb1 _ Hfa1 Hhf1 Hc1 Hh1 Ht1.
  apply returns_bind, returns_now. intros w2 Hdb2 _ Hfa2 Hhf2 Hc2 Hh2 Ht2.
  destruct (handled st) eqn:Hhandled.
  - apply returns_try, returns_bind.
    eapply returns_mono; [apply dispatch_returns, Hhandled |].
    intros text w3 (Hdb3 & Hfa3 & Hhf3 & Hh3 & Ht3 & Htext). cbn beta.
    apply returns_bind, returns_now. intros w4 Hdb4 _ Hfa4 Hhf4 Hc4 Hh4 Ht4.
    apply returns_ret. unfold step_outcome, step_text. rewrite Hhandled.
    rewrite <- (backend_answer_eq w w2) by congruence. rewrite <- Htext. cbn.
    repeat split; congruence.
  - eapply returns_try_raise.
    + unfold bind. rewrite dispatch_raises by exact Hhandled. reflexivity.
    + apply returns_bind, returns_now. intros w4 Hdb4 _ Hfa4 Hhf4 Hc4 Hh4 Ht4.
      apply returns_ret. unfold step_outcome. rewrite Hhandled. cbn.
      repeat split; congruence.
Qed.

Lemma step_status_handled (st : StepInput) (ctx : Dict) (w : World) :
  step_status st ctx w = Some (if handled st then SUCCESS else FAILED).
Proof.
  unfold step_status.
  destruct (_execute_step_returns st ctx w) as (o & w' & -> & Hpost).
  destruct Hpost as (_ & _ & _ & _ & _ & _ & Hout).
  destruct (handled st); now destruct Hout as [-> _].
Qed.

Lemma step_succeeds_handled (st : StepInput) :
  step_succeeds st <-> handled st = true.
Proof.
  split.
  - intros Hs. specialize (Hs [] idle_world).
    rewrite step_status_handled in Hs. now destruct (handled st).
  - intros Hh ctx w. now rewrite step_status_handled, Hh.
Qed.


(** [_run_assembler] always returns; a failure of the backend ends in the
    dictionary with the empty text, no artifact and the error. *)
Lemma _run_assembler_returns (run_id project_id : N) (ctx : Dict)
    (outs : list StepOutput) (w : World) :
  returns (_run_assembler run_id project_id ctx outs) w (fun a w' =>
    w_db w' = w_db w /\ w_db_fault w' = w_db_fault w /\
    w_hf_manager w' = w_hf_manager w /\
    w_step_history w' = w_step_history w /\
    w_trace w' = w_trace w ++ [EvRunAssembler] /\
    assembler_outcome w outs a).
Proof.
  unfold _run_assembler.
  apply returns_bind, returns_emit. intros w1 Hdb1 _ Hfa1 Hhf1 Hc1 Hh1 Ht1.
  unfold assembler_outcome, assembler_request. rewrite <- Hhf1, <- Hc1.
  unfold returns, try_except, bind, gets, ret, hf_generate. cbv beta.
  destruct (w_hf_manager w1) as [g|] eqn:Hhf.
  - match goal with |- context [g (w_hf_calls w1) ?r] =>
      destruct (g (w_hf_calls w1) r) as [text|e] eqn:Hg end;
      eexists _, _; (split; [reflexivity |]);
      cbn -[_extract_artifacts _build_assembler_prompt]; repeat split; auto.
  - eexists _, _. split; [reflexivity |]. repeat split; auto.
Qed.

End StepExecutor.

(** ** The loop over the steps *)

Section Pipeline.
Context `{!PyBuiltins}.

Lemma history_append_returns (run_id : N) (o : StepOutput) (w : World)
    (h : list StepOutput) :
  w_step_history w !! run_id = Some h ->
  returns (history_append run_id o) w (fun _ w' =>
    w_db w' = w_db w /\ w_db_fault w' = w_db_fault w /\
    w_hf_manager w' = w_hf_manager w /\ w_trace w' = w_trace w /\
    w_step_history w' = <[run_id := h ++ [o]]> (w_step_history w)).
Proof.
  intros Hh. unfold returns, history_append, history_of.
  unfold bind, gets, modify, ret. cbv beta. rewrite Hh.
  eexists _, _. split; [reflexivity |]. cbn. auto.
Qed.

Lemma run_updated_from (w0 w w' : World) (run_id : N) (status : string) :
  runs (w_db w) = runs (w_db w0) -> w_db_fault w = w_db_fault w0 ->
  run_updated run_id status w w' -> run_updated run_id status w0 w'.
Proof.
  unfold run_updated, db_available. intros -> ->. auto.
Qed.

Lemma step_recorded_from (w0 w : World) (st : StepInput) (o : StepOutput) :
  w_hf_manager w = w_hf_manager w0 -> step_recorded w st o -> step_recorded w0 st o.
Proof.
  intros Hhf (ctx & w1 & Hw1 & Hout). exists ctx, w1. split; congruence.
Qed.

Lemma step_outcome_status (w : World) (st : StepInput) (ctx : Dict) (o : StepOutput) :
  step_outcome w st ctx o ->
  so_status o = if handled st then SUCCESS else FAILED.
Proof.
  intros [_ Hout]. destruct (handled st); now destruct Hout as [-> _].
Qed.

Lemma for_steps_returns (run_id project_id : N) (steps : list StepInput) :
  forall (i : nat) (fr : Frame) (h : list StepOutput),
    w_step_history (fr_world fr) !! run_id = Some h ->
    returns (for_steps run_id project_id i steps) fr (fun _ fr' =>
      exists outs,
        Forall2 (step_recorded (fr_world fr)) (executed steps) outs /\
        res_steps (fr_results fr') = res_steps (fr_results fr) ++ outs /\
        w_step_history (fr_world fr')
        = <[run_id := h ++ outs]> (w_step_history (fr_world fr)) /\
        w_trace (fr_world fr')
        = w_trace (fr_world fr) ++ step_events (executed steps) /\
        w_hf_manager (fr_world fr') = w_hf_manager (fr_world fr) /\
        w_db_fault (fr_world fr') = w_db_fault (fr_world fr) /\
        if all_handled steps
        then res_status (fr_results fr') = res_status (fr_results fr) /\
             res_error (fr_results fr') = res_error (fr_results fr) /\
             runs (w_db (fr_world fr')) = runs (w_db (fr_world fr))
        else res_status (fr_results fr') = "FAILED" /\
             run_updated run_id "FAILED" (fr_world fr) (fr_world fr')).
Proof.
  induction steps as [|st rest IH]; intros i fr h Hh.
  - apply returns_ret. exists []. cbn.
    rewrite !app_nil_r. repeat split; auto.
    now rewrite insert_id.
  - cbn [for_steps].
    apply returns_bind, returns_gets.
    apply returns_bind, returns_lift.
    eapply returns_mono; [apply _execute_step_returns |].
    intros o w1 (Hdb1 & Hfa1 & Hhf1 & Hh1 & Ht1 & Hout). cbn beta.
    apply returns_bind, returns_lift. cbn [fr_world fr_results fr_context].
    eapply returns_mono;
      [apply (history_append_returns run_id o w1 h); now rewrite Hh1 |].
    intros _ w2 (Hdb2 & Hfa2 & Hhf2 & Ht2 & Hh2). cbn beta.
    apply returns_bind, returns_modify. cbn [fr_world fr_results fr_context].
    pose proof (step_outcome_status _ _ _ _ Hout) as Hstatus.
    assert (step_recorded (fr_world fr) st o) as Hrec.
    { exists (fr_context fr), (fr_world fr). split; [reflexivity | exact Hout]. }
    cbn [executed all_handled forallb].
    destruct (handled st) eqn:Hhandled; rewrite Hstatus;
      cbn [StepStatus_eqb StepStatus_value String.eqb Ascii.eqb Bool.eqb].
    + (* the step succeeded: the loop goes on *)
      apply returns_bind, returns_modify. cbn [fr_world fr_results fr_context].
      apply returns_bind, returns_modify. cbn [fr_world fr_results fr_context].
      apply returns_bind, returns_lift. cbn [fr_world fr_results fr_context].
      eapply returns_mono; [apply save_artifacts_returns |].
      intros _ w3 (Hhf3 & Hfa3 & Hh3 & Ht3 & Hr3). cbn beta.
      eapply returns_mono.
      { apply (IH (S i) _ (h ++ [o])). cbn [fr_world].
        rewrite Hh3, Hh2. apply lookup_insert_eq. }
      intros _ fr' (outs & Hrecs & Hsteps & Hhist & Htrace & Hhf & Hfa & Hcase).
      cbn [fr_world fr_results fr_context res_steps with_step] in *.
      exists (o :: outs). conjs.
      * constructor; [exact Hrec |].
        eapply Forall2_impl; [exact Hrecs |].
        intros st' o'. apply step_recorded_from. congruence.
      * rewrite Hsteps, <- app_assoc. reflexivity.
      * rewrite Hhist, Hh3, Hh2, Hh1, insert_insert_eq, <- app_assoc. reflexivity.
      * rewrite Htrace, Ht3, Ht2, Ht1, <- app_assoc. reflexivity.
      * congruence.
      * congruence.
      * cbn [andb]. unfold all_handled in Hcase.
        destruct (forallb handled rest).
        -- destruct Hcase as (Hs & He & Hr). repeat split; try assumption.
           rewrite Hr, Hr3. congruence.
        -- destruct Hcase as (Hs & Hr). split; [exact Hs |].
           eapply run_updated_from; [| | exact Hr]; cbn; congruence.
    + (* the step failed: break *)
      apply returns_bind, returns_modify. cbn [fr_world fr_results fr_context].
      apply returns_bind, returns_modify. cbn [fr_world fr_results fr_context].
      apply returns_lift. cbn [fr_world fr_results fr_context].
      eapply returns_mono; [apply _update_run_returns |].
      intros _ w3 (Hhf3 & Hfa3 & Hh3 & Ht3 & Hr3).
      cbn [fr_world fr_results fr_context res_steps res_status with_step
           with_status with_error].
      exists [o]. conjs.
      * constructor; [exact Hrec | constructor].
      * reflexivity.
      * rewrite Hh3, Hh2, Hh1. reflexivity.
      * rewrite Ht3, Ht2, Ht1. reflexivity.
      * congruence.
      * congruence.
      * cbn [andb]. split; [reflexivity |].
        eapply run_updated_from; [| | exact Hr3]; congruence.
Qed.

Lemma stamped_running (t : nat) (r : OrchestrationRun) :
  stamped "RUNNING" t r = set_run_status "RUNNING" r.
Proof. reflexivity. Qed.

Lemma stamped_after_running (final : string) (t : nat) (r : OrchestrationRun) :
  stamped final t (set_run_status "RUNNING" r) = stamped final t r.
Proof. unfold stamped. now destruct (is_terminal final). Qed.

(** RUNNING, then the final status: the two writes of one call. *)
Lemma run_written_compose (w w1 w2 : World) (run_id : N) (final : string) :
  run_updated run_id "RUNNING" w w1 ->
  w_db_fault w1 = w_db_fault w ->
  run_updated run_id final w1 w2 ->
  run_written run_id final w w2.
Proof.
  intros (Hother1 & Hrow1 & Hav1) Hfa (Hother2 & Hrow2 & Hav2).
  unfold run_written. conjs.
  - intros j Hj. now rewrite Hother2, Hother1.
  - destruct (runs (w_db w) !! run_id) as [r|] eqn:Hr.
    + destruct Hrow1 as [Heq1 | (r1 & t1 & [= <-] & Hr1)];
        destruct Hrow2 as [Heq2 | (r2 & t2 & Hr2 & Hr2')].
      * left. congruence.
      * right. right. exists t2. rewrite Hr2'. f_equal. congruence.
      * right. left. rewrite Heq2, Hr1. now rewrite stamped_running.
      * right. right. exists t2. rewrite Hr2'. f_equal.
        rewrite Hr1, stamped_running in Hr2. injection Hr2 as <-.
        apply stamped_after_running.
    + destruct Hrow1 as [Heq1 | (r1 & t1 & Hr1 & _)]; [| discriminate].
      destruct Hrow2 as [Heq2 | (r2 & t2 & Hr2 & _)]; congruence.
  - intros Hav r Hr.
    destruct (Hav1 Hav r Hr) as [t1 Hr1].
    assert (db_available w1) as Hav'.
    { unfold db_available in *. now rewrite Hfa. }
    destruct (Hav2 Hav' _ Hr1) as [t2 Hr2].
    exists t2. rewrite Hr2, stamped_running, stamped_after_running. reflexivity.
Qed.

(** The [try] block of [execute_pipeline] returns: nothing in it raises. *)
Lemma execute_pipeline_body_returns (pipeline : OrchestrationPipeline)
    (run_id : N) (fr : Frame) :
  w_step_history (fr_world fr) !! run_id = Some [] ->
  res_status (fr_results fr) = "RUNNING" ->
  res_steps (fr_results fr) = [] ->
  res_error (fr_results fr) = None ->
  returns (execute_pipeline_body pipeline run_id) fr (fun _ fr' =>
    pipeline_post (pl_steps pipeline) run_id
      (fr_world fr) (fr_results fr') (fr_world fr')).
Proof.
  intros Hh Hstatus Hsteps Herror. unfold execute_pipeline_body.
  apply returns_bind, returns_lift.
  eapply returns_mono; [apply _update_run_returns |].
  intros _ w1 (Hhf1 & Hfa1 & Hh1 & Ht1 & Hr1). cbn beta.
  apply returns_bind, returns_modify.
  apply returns_bind.
  eapply returns_mono.
  { apply (for_steps_returns run_id _ _ 0 _ []). cbn [fr_world].
    now rewrite Hh1. }
  intros _ fr2 (outs & Hrecs & Hsteps2 & Hhist2 & Htrace2 & Hhf2 & Hfa2 & Hcase).
  cbn [fr_world fr_results fr_context] in *. cbn beta.
  rewrite Hsteps in Hsteps2. cbn [app] in Hsteps2, Hhist2.
  apply returns_bind, returns_gets.
  assert (Forall2 (step_recorded (fr_world fr)) (executed (pl_steps pipeline))
            (res_steps (fr_results fr2))) as Hrecs'.
  { rewrite Hsteps2. eapply Forall2_impl; [exact Hrecs |].
    intros st o. now apply step_recorded_from. }
  assert (w_step_history (fr_world fr2)
          = <[run_id := res_steps (fr_results fr2)]> (w_step_history (fr_world fr)))
    as Hhist'.
  { now rewrite Hhist2, Hsteps2, Hh1. }
  destruct (all_handled (pl_steps pipeline)) eqn:Hall.
  - destruct Hcase as (Hs & He & Hr2). rewrite Hs, Hstatus.
    cbn [String.eqb Ascii.eqb Bool.eqb].
    apply returns_bind, returns_gets.
    apply returns_bind, returns_lift.
    unfold history_of. apply returns_bind, returns_gets.
    rewrite Hhist2, lookup_insert_eq.
    apply returns_ret.
    apply returns_bind, returns_lift.
    eapply returns_mono; [apply _run_assembler_returns |].
    intros a w3 (Hdb3 & Hfa3 & Hhf3 & Hh3 & Ht3 & Hasm). cbn beta.
    apply returns_bind, returns_modify.
    apply returns_bind, returns_modify.
    apply returns_lift.
    eapply returns_mono; [apply _update_run_returns |].
    intros _ w4 (Hhf4 & Hfa4 & Hh4 & Ht4 & Hr4).
    cbn [fr_world fr_results fr_context res_steps res_status res_error
         res_final_artifacts res_assembled_code with_assembly with_status] in *.
    unfold pipeline_post. rewrite Hall.
    cbn [res_steps res_status res_error res_final_artifacts res_assembled_code].
    assert (executed (pl_steps pipeline) = pl_steps pipeline) as Hexec.
    { clear -Hall. unfold all_handled in Hall.
      induction (pl_steps pipeline) as [|st rest IH]; [reflexivity |].
      cbn in *. apply andb_true_iff in Hall as [-> Hrest].
      now rewrite IH. }
    conjs.
    + exact Hrecs'.
    + now rewrite Hh4, Hh3.
    + congruence.
    + congruence.
    + apply (run_written_compose _ w1); [exact Hr1 | exact Hfa1 |].
      eapply run_updated_from; [| | exact Hr4]; congruence.
    + reflexivity.
    + cbn [res_error with_status with_assembly]. congruence.
    + rewrite Ht4, Ht3, Htrace2, Ht1, Hexec, <- app_assoc. reflexivity.
    + exists a, (fr_world fr2). conjs.
      * congruence.
      * cbn [res_steps with_status with_assembly]. now rewrite Hsteps2.
      * reflexivity.
      * reflexivity.
  - destruct Hcase as (Hs & Hr2). rewrite Hs.
    cbn [String.eqb Ascii.eqb Bool.eqb].
    apply returns_ret.
    unfold pipeline_post. rewrite Hall.
    conjs.
    + exact Hrecs'.
    + exact Hhist'.
    + congruence.
    + congruence.
    + apply (run_written_compose _ w1); [exact Hr1 | exact Hfa1 | exact Hr2].
    + exact Hs.
    + now rewrite Htrace2, Ht1.
Qed.

(** [execute_pipeline] returns its dictionary, whatever the steps, the
    backend and the database do. *)
Lemma execute_pipeline_returns (pipeline : OrchestrationPipeline)
    (run_id : N) (w : World) :
  returns (execute_pipeline pipeline run_id) w
          (pipeline_post (pl_steps pipeline) run_id w).
Proof.
  unfold execute_pipeline.
  apply returns_bind, returns_modify.
  apply returns_bind, returns_now.
  intros w1 Hdb1 Hops1 Hfa1 Hhf1 Hc1 Hh1 Ht1.
  cbn [w_db w_db_ops w_db_fault w_hf_manager w_hf_calls w_step_history
       w_trace set_step_history] in *.
  unfold returns at 1. cbv beta.
  match goal with |- context [try_except _ _ ?f] =>
    destruct (execute_pipeline_body_returns pipeline run_id f)
      as ([] & fr' & Hbody & Hpost)
  end.
  { cbn [fr_world]. rewrite Hh1. apply lookup_insert_eq. }
  { reflexivity. }
  { reflexivity. }
  { reflexivity. }
  unfold try_except at 1. rewrite Hbody.
  eexists _, _. split; [reflexivity |].
  cbn [fr_world] in Hpost.
  destruct Hpost as (Hrecs & Hhist & Hhf & Hfa & Hwritten & Hcase).
  unfold pipeline_post.
  cbn [res_steps res_status res_error res_final_artifacts res_assembled_code
       with_finished_at w_db w_db_fault w_hf_manager w_step_history w_trace].
  conjs.
  - eapply Forall2_impl; [exact Hrecs |].
    intros st o. now apply step_recorded_from.
  - rewrite Hhist, Hh1. apply insert_insert_eq.
  - congruence.
  - congruence.
  - destruct Hwritten as (Hother & Hrow & Hav). unfold run_written, db_available.
    rewrite <- Hdb1, <- Hfa1. auto.
  - destruct (all_handled (pl_steps pipeline)).
    + destruct Hcase as (Hs & He & Htr & a & wa & Hwa & Hasm & Hfin & Hcode).
      conjs; try assumption; [congruence |].
      exists a, wa. conjs; try assumption. congruence.
    + destruct Hcase as (Hs & Htr). split; [exact Hs | congruence].
Qed.

End Pipeline.

(** ** The artifact extractor *)

Example extract_scenario :
  _extract_artifacts "x"
    ("```jsx" +:+ nl +:+ "export default function App(){}" +:+ nl +:+ "```" +:+ nl
     +:+ "```css" +:+ nl +:+ ".app{color:red;}" +:+ nl +:+ "```")
  = [ mkArtifact "jsx" "x_component_0.jsx" "export default function App(){}";
      mkArtifact "css" "x_styles_0.css" ".app{color:red;}" ].
Proof. vm_compute. reflexivity. Qed.

Example extract_two_of_a_kind :
  _extract_artifacts "s" "a ```python  one ``` b ```tsx two``` c ```python three```"
  = [ mkArtifact "tsx" "s_component_0.tsx" "two";
      mkArtifact "python" "s_script_0.py" "one";
      mkArtifact "python" "s_script_1.py" "three" ].
Proof. vm_compute. reflexivity. Qed.

Example extract_unclosed : _extract_artifacts "s" "```jsx never closed" = [].
Proof. vm_compute. reflexivity. Qed.

(** *** The trimmed content and the numbering *)

Lemma is_space_white (c : ascii) :
  is_space c = true <-> nat_of_ascii c ∈ white_space.
Proof.
  unfold is_space, white_space. cbv zeta.
  rewrite !elem_of_cons, elem_of_nil.
  rewrite !orb_true_iff, !andb_true_iff, !Nat.leb_le, !Nat.eqb_eq. lia.
Qed.

Lemma not_space_white (c : ascii) :
  is_space c = false <-> nat_of_ascii c ∉ white_space.
Proof.
  rewrite <- is_space_white. destruct (is_space c); split; congruence.
Qed.

Lemma all_space_blank (s : string) : all_space s = true <-> blank s.
Proof.
  unfold blank. induction s as [|c s IH]; cbn.
  - split; [intros _ c Hc; now apply elem_of_nil in Hc | reflexivity].
  - rewrite andb_true_iff, IH, is_space_white. split.
    + intros [Hc Hs] x [-> | Hx]%elem_of_cons; auto.
    + intros Hall. split.
      * apply Hall. left.
      * intros x Hx. apply Hall. now right.
Qed.

(** [s.strip()] is [s] trimmed. *)
Lemma strip_trimmed (s : string) : trimmed s (strip s).
Proof.
  destruct (strip_spec s) as (l & r & Heq & Hl & Hr & Hfirst & Hlast).
  exists l, r. conjs.
  - exact Heq.
  - now apply all_space_blank.
  - now apply all_space_blank.
  - intros x Hx. apply not_space_white. now apply Hfirst.
  - intros x Hx. apply not_space_white. now apply Hlast.
Qed.

Lemma to_uint_nonnil (n : nat) : Nat.to_uint n <> Decimal.Nil.
Proof.
  rewrite <- (DecimalNat.Unsigned.of_to n) at 1.
  rewrite DecimalNat.Unsigned.to_of. apply DecimalFacts.unorm_nonnil.
Qed.

(** [str(i)] is the decimal numeral of [i]. *)
Lemma str_of_nat_numeral (i : nat) : numeral i (str_of_nat i).
Proof. apply NilZero.usu, to_uint_nonnil. Qed.

Lemma kind_artifacts_listing (label type infix ext : string) (bodies : list string) :
  kind_listing label type infix ext bodies
               (kind_artifacts label type infix ext bodies).
Proof.
  split; [apply kind_artifacts_length |].
  intros i body Hi. exists (str_of_nat i), (strip body). conjs.
  - now apply kind_artifacts_lookup.
  - apply str_of_nat_numeral.
  - apply strip_trimmed.
Qed.

(** C3. For every label and text, the extractor returns, kind after kind in
    the order jsx, tsx, css, python, one artifact per match of the fence
    pattern of the kind: the matches are those [re.findall] reports
    (leftmost first, lazy group); the artifact of the i-th match of a kind,
    counted from 0, is named [{label}_{kindword}_{i}.{ext}], with the
    decimal numeral of [i], and its content is the interior of the fence
    with the white space before and after it taken off; the number of
    artifacts is the number of matches, and a text in which no pattern
    matches gives the empty list. *)
Theorem extract_artifacts_spec (label text : string) :
  exists (jsx tsx css py : list string)
         (jsx_artifacts tsx_artifacts css_artifacts py_artifacts : list Artifact),
    Findall "```jsx" text jsx /\
    Findall "```tsx" text tsx /\
    Findall "```css" text css /\
    Findall "```python" text py /\
    _extract_artifacts label text
    = jsx_artifacts ++ tsx_artifacts ++ css_artifacts ++ py_artifacts /\
    kind_listing label "jsx" "_component_" ".jsx" jsx jsx_artifacts /\
    kind_listing label "tsx" "_component_" ".tsx" tsx tsx_artifacts /\
    kind_listing label "css" "_styles_" ".css" css css_artifacts /\
    kind_listing label "python" "_script_" ".py" py py_artifacts /\
    List.length (_extract_artifacts label text)
    = List.length jsx + List.length tsx + List.length css + List.length py /\
    ((forall opener before body rest,
        opener ∈ ["```jsx"; "```tsx"; "```css"; "```python"] ->
        ~ fenced_match opener text before body rest) ->
     _extract_artifacts label text = []).
Proof.
  exists (re_findall_fenced "jsx" text), (re_findall_fenced "tsx" text),
         (re_findall_fenced "css" text), (re_findall_fenced "python" text).
  exists (kind_artifacts label "jsx" "_component_" ".jsx" (re_findall_fenced "jsx" text)),
         (kind_artifacts label "tsx" "_component_" ".tsx" (re_findall_fenced "tsx" text)),
         (kind_artifacts label "css" "_styles_" ".css" (re_findall_fenced "css" text)),
         (kind_artifacts label "python" "_script_" ".py" (re_findall_fenced "python" text)).
  assert (_extract_artifacts label text
          = kind_artifacts label "jsx" "_component_" ".jsx" (re_findall_fenced "jsx" text)
            ++ kind_artifacts label "tsx" "_component_" ".tsx" (re_findall_fenced "tsx" text)
            ++ kind_artifacts label "css" "_styles_" ".css" (re_findall_fenced "css" text)
            ++ kind_artifacts label "python" "_script_" ".py" (re_findall_fenced "python" text))
    as Heq.
  { unfold _extract_artifacts. rewrite !append_blocks_spec.
    rewrite app_nil_l, <- !app_assoc. reflexivity. }
  pose proof (re_findall_fenced_spec "jsx" text) as Hjsx.
  pose proof (re_findall_fenced_spec "tsx" text) as Htsx.
  pose proof (re_findall_fenced_spec "css" text) as Hcss.
  pose proof (re_findall_fenced_spec "python" text) as Hpy.
  change (fence +:+ "jsx") with "```jsx" in Hjsx.
  change (fence +:+ "tsx") with "```tsx" in Htsx.
  change (fence +:+ "css") with "```css" in Hcss.
  change (fence +:+ "python") with "```python" in Hpy.
  conjs; try assumption; try apply kind_artifacts_listing.
  - rewrite Heq, !length_app, !kind_artifacts_length. lia.
  - intros Hnone. rewrite Heq.
    assert (forall opener bodies,
              opener ∈ ["```jsx"; "```tsx"; "```css"; "```python"] ->
              Findall opener text bodies -> bodies = []) as Hempty.
    { intros opener bodies Hin Hfind.
      destruct Hfind as [s _ | s before body rest bodies Hm _ _ _]; [reflexivity |].
      destruct (Hnone opener before body rest Hin Hm). }
    rewrite (Hempty "```jsx" _ ltac:(set_solver) Hjsx),
            (Hempty "```tsx" _ ltac:(set_solver) Htsx),
            (Hempty "```css" _ ltac:(set_solver) Hcss),
            (Hempty "```python" _ ltac:(set_solver) Hpy).
    reflexivity.
Qed.

(** ** The context injector *)

Lemma str_take_length (n : nat) (s : string) :
  (String.length (str_take n s) <= n)%nat.
Proof.
  revert s; induction n as [|n IH]; intros [|c s]; simpl; try lia.
  specialize (IH s). lia.
Qed.

Lemma str_take_prefix (n : nat) (s : string) :
  exists rest, s = str_take n s +:+ rest.
Proof.
  revert s; induction n as [|n IH]; intros [|c s]; simpl.
  - now exists EmptyString.
  - now exists (String c s).
  - now exists EmptyString.
  - destruct (IH s) as [rest Hrest]. exists rest.
    rewrite str_app_cons. now rewrite <- Hrest.
Qed.

Lemma str_take_all (n : nat) (s : string) :
  (String.length s <= n)%nat -> str_take n s = s.
Proof.
  revert s; induction n as [|n IH]; intros [|c s]; simpl; intros Hlen;
    try reflexivity; try lia.
  rewrite IH; [reflexivity | lia].
Qed.

(** Taking a prefix of a concatenation starts with the prefix of its
    first part. *)
Lemma str_take_app (n : nat) (a b : string) :
  str_take n (a +:+ b) = str_take n a +:+ str_take (n - String.length a) b.
Proof.
  revert a; induction n as [|n IH]; intros [|c a].
  - destruct b; reflexivity.
  - reflexivity.
  - reflexivity.
  - rewrite str_app_cons. simpl. rewrite str_app_cons. now rewrite IH.
Qed.

Lemma str_take_length_min (n : nat) (s : string) :
  String.length (str_take n s) = Nat.min n (String.length s).
Proof.
  revert s; induction n as [|n IH]; intros [|c s]; simpl; try reflexivity.
  now rewrite IH.
Qed.

(** [s[:n]] is [s] cut to its first [n] characters. *)
Lemma str_take_cut (n : nat) (s : string) : cut_to n s (str_take n s).
Proof.
  destruct (str_take_prefix n s) as [rest Hrest].
  exists rest. split; [exact Hrest | apply str_take_length_min].
Qed.

Lemma cut_to_functional (n : nat) (s c1 c2 : string) :
  cut_to n s c1 -> cut_to n s c2 -> c1 = c2.
Proof.
  intros (r1 & H1 & L1) (r2 & H2 & L2).
  rewrite H1 in H2 at 1.
  apply str_app_same_length in H2 as [Heq _]; [exact Heq | congruence].
Qed.

(** The join of the source is the [concat] of the library. *)
Lemma str_join_concat (sep : string) (parts : list string) :
  str_join sep parts = String.concat sep parts.
Proof.
  induction parts as [|p parts IH]; [reflexivity |].
  destruct parts as [|q parts]; [reflexivity |].
  change (str_join sep (p :: q :: parts))
    with (p +:+ sep +:+ str_join sep (q :: parts)).
  rewrite IH. reflexivity.
Qed.

Section Injector.
Context `{!PyBuiltins}.

Lemma context_lines_functional (context : Dict) (lines1 lines2 : list string) :
  Forall2 context_line context lines1 ->
  Forall2 context_line context lines2 ->
  lines1 = lines2.
Proof.
  intros H1; revert lines2.
  induction H1 as [|kv l1 context lines1 (s1 & Hc1 & ->) _ IH];
    intros lines2 H2; inversion H2 as [|? l2 ? lines2' (s2 & Hc2 & ->) Hrest];
    subst; [reflexivity |].
  rewrite (cut_to_functional _ _ _ _ Hc1 Hc2). f_equal. now apply IH.
Qed.

Lemma _inject_context_injected (prompt : string) (context : Dict) :
  injected prompt context (_inject_context prompt context).
Proof.
  exists (map (fun '(k, v) => "# " +:+ k +:+ ": " +:+ str_take 200 (py_str v))
              context).
  split.
  - induction context as [|[k v] context IH]; cbn [map]; constructor;
      [| exact IH].
    exists (str_take 200 (py_str v)). split; [apply str_take_cut | reflexivity].
  - unfold _inject_context. cbv zeta. rewrite str_join_concat.
    unfold nl, line_feed. rewrite ?str_app_cons, ?str_app_nil_l.
    reflexivity.
Qed.

(** C9. For every prompt and context map, the injector returns the prompt
    followed by an empty line, the header [## Available Context:] and one
    line [# key: value] per entry of the map, in the order of the map,
    joined by newlines, where the value is the string conversion of the
    entry cut to its first 200 characters.  This fixes the output byte for
    byte: every text of this form for the same prompt and map is the text
    the injector returns, which depends on nothing else. *)
Theorem inject_context_deterministic (prompt : string) (context : Dict) :
  injected prompt context (_inject_context prompt context) /\
  (forall out, injected prompt context out ->
               out = _inject_context prompt context).
Proof.
  split; [apply _inject_context_injected |].
  intros out (lines & Hlines & ->).
  destruct (_inject_context_injected prompt context) as (lines' & Hlines' & ->).
  now rewrite (context_lines_functional _ _ _ Hlines Hlines').
Qed.

End Injector.

Example inject_context_empty `{!PyBuiltins} :
  _inject_context "Generate code" []
  = "Generate code" +:+ nl +:+ nl +:+ "## Available Context:" +:+ nl.
Proof. reflexivity. Qed.

(** ** The run controller *)

Section Controller.
Context `{!PyBuiltins}.

Lemma all_handled_executed (steps : list StepInput) :
  all_handled steps = true -> executed steps = steps.
Proof.
  unfold all_handled. induction steps as [|st rest IH]; [reflexivity |].
  cbn. intros [-> Hrest]%andb_true_iff. now rewrite IH.
Qed.

Lemma Forall_succeeds_all_handled (steps : list StepInput) :
  Forall step_succeeds steps -> all_handled steps = true.
Proof.
  unfold all_handled. induction 1 as [|st rest Hst _ IH]; [reflexivity |].
  cbn. apply step_succeeds_handled in Hst. now rewrite Hst, IH.
Qed.


Lemma handled_values (st : StepInput) :
  handled st = true <->
  ModelRef_value (model_type st) ∈ ["CodeLlama"; "CodeGemma"; "T5Gemma"].
Proof.
  unfold handled, model_is. cbn [ModelType_value].
  rewrite !orb_true_iff, !String.eqb_eq, !elem_of_cons, elem_of_nil.
  tauto.
Qed.

Lemma step_events_no_assembler (steps : list StepInput) :
  EvRunAssembler ∉ step_events steps.
Proof.
  unfold step_events. intros (st & Hst & _)%list_elem_of_fmap. discriminate.
Qed.


(** C2. When every step succeeds, [execute_pipeline] returns the status
    SUCCESS and as many step results as there are steps; the trace of the
    call is the steps in order and then the assembler, once: the
    dictionary carries what the assembler returned, whatever that is. *)
Theorem execute_pipeline_all_success
    (pipeline : OrchestrationPipeline) (run_id : N) (w : World) :
  Forall step_succeeds (pl_steps pipeline) ->
  exists result w',
    execute_pipeline pipeline run_id w = (Ok result, w') /\
    res_status result = "SUCCESS" /\
    List.length (res_steps result) = List.length (pl_steps pipeline) /\
    w_trace w' = w_trace w ++ step_events (pl_steps pipeline) ++ [EvRunAssembler] /\
    (EvRunAssembler ∉ step_events (pl_steps pipeline)) /\
    exists a wa,
      w_hf_manager wa = w_hf_manager w /\
      assembler_outcome wa (res_steps result) a /\
      res_final_artifacts result = asm_artifacts a /\
      res_assembled_code result = Some (asm_assembled_code a).
Proof.
  intros Hall%Forall_succeeds_all_handled.
  destruct (execute_pipeline_returns pipeline run_id w)
    as (result & w' & Hrun & Hrecs & _ & _ & _ & _ & Hcase).
  rewrite Hall in Hcase. destruct Hcase as (Hstatus & _ & Htrace & Hasm).
  exists result, w'. conjs; try assumption.
  - rewrite <- (Forall2_length _ _ _ Hrecs). now rewrite all_handled_executed.
  - apply step_events_no_assembler.
Qed.

Lemma unhandled_not_all (steps : list StepInput) (st : StepInput) :
  st ∈ steps -> handled st = false -> all_handled steps = false.
Proof.
  unfold all_handled. intros Hin Hst.
  destruct (forallb handled steps) eqn:Hall; [| reflexivity].
  rewrite forallb_forall in Hall.
  rewrite (Hall st) in Hst; [discriminate | now apply list_elem_of_In].
Qed.

Lemma contains_unknown_model (suffix : string) :
  contains "Unknown model type" ("Unknown model type: " +:+ suffix).
Proof. exists EmptyString, (": " +:+ suffix). reflexivity. Qed.

(** C4. A step whose model reference is none of CodeLlama, CodeGemma and
    T5Gemma gets from the executor a result tagged FAILED, with an error
    message that contains [Unknown model type], no result text and no
    artifact; a run that contains such a step ends with the status
    FAILED. *)
Theorem unknown_model_type_fails (st : StepInput) :
  ModelRef_value (model_type st) ∉ ["CodeLlama"; "CodeGemma"; "T5Gemma"] ->
  (forall ctx w, exists o w',
     _execute_step st ctx w = (Ok o, w') /\
     so_status o = FAILED /\
     (exists msg, so_error o = Some msg /\ contains "Unknown model type" msg) /\
     so_result o = None /\
     so_artifacts o = []) /\
  (forall pipeline run_id w,
     st ∈ pl_steps pipeline ->
     exists result w',
       execute_pipeline pipeline run_id w = (Ok result, w') /\
       res_status result = "FAILED").
Proof.
  intros Hvalue.
  assert (handled st = false) as Hst.
  { destruct (handled st) eqn:Hh; [| reflexivity].
    now apply handled_values in Hh. }
  split.
  - intros ctx w.
    destruct (_execute_step_returns st ctx w)
      as (o & w' & Hrun & _ & _ & _ & _ & _ & _ & Hout).
    rewrite Hst in Hout. destruct Hout as (Hstatus & Hres & Herr & Harts).
    exists o, w'. conjs; try assumption.
    eexists. split; [exact Herr | apply contains_unknown_model].
  - intros pipeline run_id w Hin.
    destruct (execute_pipeline_returns pipeline run_id w)
      as (result & w' & Hrun & _ & _ & _ & _ & _ & Hcase).
    rewrite (unhandled_not_all _ _ Hin Hst) in Hcase.
    exists result, w'. split; [exact Hrun | apply Hcase].
Qed.

(** C5. With a backend that raises on the request of the assembler,
    [_run_assembler] returns the empty text, no artifact and the error
    message; a run whose steps all succeed still ends with the status
    SUCCESS, with the empty assembled text, no final artifact and no error
    in its dictionary. *)
Theorem assembler_failure_keeps_success
    (pipeline : OrchestrationPipeline) (run_id : N) (w : World) (g : HFManager) :
  w_hf_manager w = Some g ->
  (forall n prompt, exists e,
     g n (mkGenRequest "CodeLlama-7b" prompt (PyInt 2048) (PyFloat (3 # 10)))
     = Raise e) ->
  Forall step_succeeds (pl_steps pipeline) ->
  (forall rid pid ctx outs w1,
     w_hf_manager w1 = Some g ->
     exists msg w2,
       _run_assembler rid pid ctx outs w1
       = (Ok (mkAssemblerOutput EmptyString [] (Some msg)), w2)) /\
  exists result w',
    execute_pipeline pipeline run_id w = (Ok result, w') /\
    res_status result = "SUCCESS" /\
    res_assembled_code result = Some EmptyString /\
    res_final_artifacts result = [] /\
    res_error result = None.
Proof.
  intros Hhf Hraises Hall%Forall_succeeds_all_handled.
  assert (forall w1 outs a,
            w_hf_manager w1 = Some g -> assembler_outcome w1 outs a ->
            exists msg, a = mkAssemblerOutput EmptyString [] (Some msg)) as Hasm.
  { intros w1 outs a Hw1 Ha. unfold assembler_outcome, assembler_request in Ha.
    rewrite Hw1 in Ha.
    destruct (Hraises (w_hf_calls w1) (_build_assembler_prompt outs)) as [e He].
    rewrite He in Ha. eauto. }
  split.
  - intros rid pid ctx outs w1 Hw1.
    destruct (_run_assembler_returns rid pid ctx outs w1)
      as (a & w2 & Hrun & _ & _ & _ & _ & _ & Ha).
    destruct (Hasm _ _ _ Hw1 Ha) as [msg ->]. eauto.
  - destruct (execute_pipeline_returns pipeline run_id w)
      as (result & w' & Hrun & _ & _ & _ & _ & _ & Hcase).
    rewrite Hall in Hcase.
    destruct Hcase as (Hstatus & Herr & _ & a & wa & Hwa & Ha & Hfin & Hcode).
    destruct (Hasm wa (res_steps result) a) as [msg ->];
      [congruence | exact Ha |].
    exists result, w'. conjs; assumption.
Qed.

Lemma placeholder_shape (st : StepInput) (ctx : Dict) :
  exists tail,
    placeholder st (_inject_context (prompt st) ctx)
    = "[" +:+ ModelRef_value (model_type st) +:+ "] Placeholder response to: "
      +:+ str_take 100 (prompt st) +:+ tail.
Proof.
  unfold placeholder, _inject_context. rewrite str_take_app.
  eexists. rewrite str_app_assoc. reflexivity.
Qed.

Lemma placeholder_contains (st : StepInput) (enriched : string) :
  contains "Placeholder response to:" (placeholder st enriched).
Proof.
  exists ("[" +:+ ModelRef_value (model_type st) +:+ "] "),
         (" " +:+ str_take 100 enriched +:+ "...").
  unfold placeholder. rewrite !str_app_assoc. reflexivity.
Qed.

(** The placeholder that a handler builds is the placeholder of its
    label for the prompt it receives. *)
Lemma placeholder_is_placeholder_of (st : StepInput) (enriched : string) :
  placeholder_of (ModelRef_value (model_type st)) enriched (placeholder st enriched).
Proof.
  exists (str_take 100 enriched). split; [apply str_take_cut | reflexivity].
Qed.

(** It starts with the prompt of the step cut to 100 characters. *)
Lemma placeholder_cuts_prompt (st : StepInput) (ctx : Dict) :
  exists cut tail,
    cut_to 100 (prompt st) cut /\
    placeholder st (_inject_context (prompt st) ctx)
    = "[" +:+ ModelRef_value (model_type st) +:+ "] Placeholder response to: "
      +:+ cut +:+ tail.
Proof.
  destruct (placeholder_shape st ctx) as [tail Htail].
  exists (str_take 100 (prompt st)), tail. split; [apply str_take_cut | exact Htail].
Qed.

(** C8, as amended. A step that one of the three handlers takes, executed
    with no backend or with a backend whose call raises, gets a result
    tagged SUCCESS and no error; its text is the placeholder of the
    handler: the label in brackets, the words [Placeholder response to:],
    the prompt that the handler receives (the prompt of the step with its
    context block) cut to its first 100 characters, and three dots; so the
    text has the prompt of the step cut to 100 characters after the words.
    A run of such steps with the backend down ends with the status SUCCESS
    and the result of every step is such a placeholder. *)
Theorem backend_failure_gives_placeholder :
  (forall st ctx w,
     ModelRef_value (model_type st) ∈ ["CodeLlama"; "CodeGemma"; "T5Gemma"] ->
     backend_answer w (handler_request st (_inject_context (prompt st) ctx)) = None ->
     exists o w' text,
       _execute_step st ctx w = (Ok o, w') /\
       so_status o = SUCCESS /\
       so_error o = None /\
       so_result o = Some text /\
       placeholder_of (ModelRef_value (model_type st))
                      (_inject_context (prompt st) ctx) text /\
       (exists cut tail,
          cut_to 100 (prompt st) cut /\
          text = "[" +:+ ModelRef_value (model_type st)
                 +:+ "] Placeholder response to: " +:+ cut +:+ tail) /\
       contains "Placeholder response to:" text) /\
  (forall pipeline run_id w,
     Forall (fun st => ModelRef_value (model_type st)
                       ∈ ["CodeLlama"; "CodeGemma"; "T5Gemma"])
            (pl_steps pipeline) ->
     backend_down w ->
     exists result w',
       execute_pipeline pipeline run_id w = (Ok result, w') /\
       res_status result = "SUCCESS" /\
       Forall2 (fun st o =>
                  so_status o = SUCCESS /\
                  exists ctx text,
                    so_result o = Some text /\
                    placeholder_of (ModelRef_value (model_type st))
                                   (_inject_context (prompt st) ctx) text /\
                    contains "Placeholder response to:" text)
               (pl_steps pipeline) (res_steps result)).
Proof.
  split.
  - intros st ctx w Hvalue%handled_values Hdown.
    destruct (_execute_step_returns st ctx w)
      as (o & w' & Hrun & _ & _ & _ & _ & _ & _ & Hout).
    rewrite Hvalue in Hout. destruct Hout as (Hstatus & Herr & Hres & _).
    unfold step_text in Hres. rewrite Hdown in Hres. cbn in Hres.
    exists o, w', (placeholder st (_inject_context (prompt st) ctx)).
    conjs; try assumption.
    + apply placeholder_is_placeholder_of.
    + apply placeholder_cuts_prompt.
    + apply placeholder_contains.
  - intros pipeline run_id w Hvalues Hdown.
    assert (Forall (fun st => handled st = true) (pl_steps pipeline)) as Hhandled.
    { eapply Forall_impl; [exact Hvalues |]. intros st. apply handled_values. }
    assert (all_handled (pl_steps pipeline) = true) as Hall.
    { unfold all_handled. apply forallb_forall. intros st Hin.
      rewrite Forall_forall in Hhandled. apply Hhandled.
      now apply list_elem_of_In. }
    destruct (execute_pipeline_returns pipeline run_id w)
      as (result & w' & Hrun & Hrecs & _ & _ & _ & _ & Hcase).
    rewrite Hall in Hcase. rewrite (all_handled_executed _ Hall) in Hrecs.
    exists result, w'. conjs.
    + exact Hrun.
    + apply Hcase.
    + clear -Hrecs Hhandled Hdown.
      induction Hrecs as [|st o steps outs Hrec _ IH]; constructor.
      * destruct Hrec as (ctx & w1 & Hw1 & _ & Hout).
        apply Forall_cons in Hhandled as [Hst _]. rewrite Hst in Hout.
        destruct Hout as (Hstatus & _ & Hres & _).
        split; [exact Hstatus |].
        exists ctx, (placeholder st (_inject_context (prompt st) ctx)). conjs.
        -- rewrite Hres. unfold step_text.
           now rewrite (backend_down_no_answer w w1 _ Hw1 Hdown).
        -- apply placeholder_is_placeholder_of.
        -- apply placeholder_contains.
      * apply IH. now apply Forall_cons in Hhandled as [_ Hrest].
Qed.

(** ** The history of a service and its summaries *)

Lemma step_recorded_closed (w : World) (st : StepInput) (o : StepOutput) :
  step_recorded w st o -> status_closed o.
Proof.
  intros (ctx & w1 & _ & Hout). apply step_outcome_status in Hout.
  unfold status_closed. rewrite Hout. destruct (handled st); auto.
Qed.

Lemma reachable_history_closed (w : World) :
  reachable w ->
  forall run_id h, w_step_history w !! run_id = Some h -> Forall status_closed h.
Proof.
  induction 1 as [w Hinit | w pipeline rid result w' _ IH Hrun | w w' _ IH Hsame];
    intros run_id h Hh.
  - rewrite Hinit, lookup_empty in Hh. discriminate.
  - destruct (execute_pipeline_returns pipeline rid w)
      as (result0 & w0 & Hrun0 & Hrecs & Hhist & _).
    rewrite Hrun in Hrun0. injection Hrun0 as <- <-.
    rewrite Hhist in Hh.
    destruct (decide (rid = run_id)) as [-> | Hne].
    + rewrite lookup_insert_eq in Hh. injection Hh as <-.
      clear -Hrecs. induction Hrecs as [|st o steps outs Hrec _ IH'];
        constructor; [exact (step_recorded_closed _ _ _ Hrec) | exact IH'].
    + rewrite lookup_insert_ne in Hh by exact Hne. eauto.
  - rewrite Hsame in Hh. eauto.
Qed.

Lemma count_closed (h : list StepOutput) :
  Forall status_closed h ->
  sum_list (map (fun _ => 1)
              (filter (fun step => StepStatus_eqb (so_status step) SUCCESS = true) h))
  + sum_list (map (fun _ => 1)
                (filter (fun step => StepStatus_eqb (so_status step) FAILED = true) h))
  = List.length h.
Proof.
  induction 1 as [|o h Ho _ IH]; [reflexivity |].
  destruct Ho as [Ho | Ho].
  - rewrite filter_cons_True by now rewrite Ho.
    rewrite filter_cons_False by (rewrite Ho; discriminate).
    cbn. lia.
  - rewrite filter_cons_False by (rewrite Ho; discriminate).
    rewrite filter_cons_True by now rewrite Ho.
    cbn. lia.
Qed.

(** C10. The executor tags every result SUCCESS or FAILED; hence, in every
    state a service reaches, the summary of a run counts as many successful
    plus failed steps as it counts steps, every step it lists carries one of
    the two tags, and the summary of a run without history is the zeroed
    one. *)
Theorem run_summary_counts (w : World) (run_id : N) :
  reachable w ->
  (forall st ctx w0, exists o w1,
     _execute_step st ctx w0 = (Ok o, w1) /\
     (so_status o = SUCCESS \/ so_status o = FAILED)) /\
  sum_successful_steps (get_run_summary run_id w)
  + sum_failed_steps (get_run_summary run_id w)
  = sum_total_steps (get_run_summary run_id w) /\
  Forall (fun o => so_status o = SUCCESS \/ so_status o = FAILED)
         (sum_steps (get_run_summary run_id w)) /\
  (w_step_history w !! run_id = None ->
   get_run_summary run_id w = mkRunSummary run_id 0 0 0 0 []).
Proof.
  intros Hreach.
  assert (Forall status_closed (get_step_history run_id w)) as Hclosed.
  { unfold get_step_history.
    destruct (w_step_history w !! run_id) as [h|] eqn:Hh; cbn.
    - exact (reachable_history_closed w Hreach run_id h Hh).
    - constructor. }
  conjs.
  - intros st ctx w0.
    destruct (_execute_step_returns st ctx w0)
      as (o & w1 & Hrun & _ & _ & _ & _ & _ & Hout).
    exists o, w1. split; [exact Hrun |].
    apply step_outcome_status in Hout. rewrite Hout. destruct (handled st); auto.
  - unfold get_run_summary. cbn. now apply count_closed.
  - exact Hclosed.
  - intros Hnone. unfold get_run_summary, get_step_history. now rewrite Hnone.
Qed.

End Controller.

(** ** Finish times of runs *)

Lemma finished_iff_terminal_running (r : OrchestrationRun) :
  r_finished_at r = None -> finished_iff_terminal (set_run_status "RUNNING" r).
Proof.
  intros Hnone. unfold finished_iff_terminal. cbn. rewrite Hnone.
  split; [intros [x Hx]; discriminate | intros [Hs | Hs]; discriminate].
Qed.

Lemma finished_iff_terminal_stamped (final : string) (t : nat) (r : OrchestrationRun) :
  is_terminal final = true -> finished_iff_terminal (stamped final t r).
Proof.
  intros Hterm. unfold finished_iff_terminal, stamped. rewrite Hterm. cbn.
  split; [intros _ | eauto].
  unfold is_terminal in Hterm. apply orb_true_iff in Hterm.
  destruct Hterm as [->%String.eqb_eq | ->%String.eqb_eq]; auto.
Qed.

(** [ProjectService.update_run_status] with the database available, on a
    run that exists: the status is the one given and the finish time is set
    when the flag says so, else left as it is. *)
Lemma update_run_status_returns (run_id : N) (status : string) (finished : bool)
    (w : World) (r : OrchestrationRun) :
  db_available w ->
  runs (w_db w) !! run_id = Some r ->
  exists w',
    update_run_status run_id status finished w
    = (Ok (Some (if finished
                 then set_run_finished_at (w_clock w) (set_run_status status r)
                 else set_run_status status r)), w') /\
    runs (w_db w') !! run_id
    = Some (if finished
            then set_run_finished_at (w_clock w) (set_run_status status r)
            else set_run_status status r).
Proof.
  intros Hav Hr.
  unfold update_run_status, get_run, select_run_first, commit_run.
  unfold bind, db_statement, gets, modify, ret, now. cbv beta.
  rewrite Hav. cbn. rewrite Hr.
  destruct finished; repeat (cbn; rewrite ?Hav);
    (eexists; split; [reflexivity | cbn; apply lookup_insert_eq]).
Qed.

(** C6 as worded fails on [ProjectService.update_run_status]: the
    pending run 7 of the example database, updated to SUCCESS with the flag
    [finished] left at its default, is terminal without a finish time. *)
Lemma update_run_status_terminal_without_finish_time :
  runs (w_db demo_world) !! 7%N = Some demo_run /\
  finished_iff_terminal demo_run /\
  exists r' w',
    update_run_status 7 "SUCCESS" false demo_world = (Ok (Some r'), w') /\
    runs (w_db w') !! 7%N = Some r' /\
    r_status r' = Some "SUCCESS" /\
    r_finished_at r' = None /\
    ~ finished_iff_terminal r'.
Proof.
  assert (runs (w_db demo_world) !! 7%N = Some demo_run) as Hrun.
  { cbn. apply lookup_singleton_eq. }
  conjs.
  - exact Hrun.
  - unfold finished_iff_terminal. cbn.
    split; [intros [x Hx]; discriminate | intros [Hs | Hs]; discriminate].
  - destruct (update_run_status_returns 7 "SUCCESS" false demo_world demo_run)
      as (w' & Hret & Hrow); [intros n; reflexivity | exact Hrun |].
    eexists _, w'. conjs; [exact Hret | exact Hrow | reflexivity | reflexivity |].
    unfold finished_iff_terminal. cbn. intros [_ Hset].
    destruct Hset as [x Hx]; [now left | discriminate].
Qed.

Section FinishTimes.
Context `{!PyBuiltins}.

(** C6, amended. One call of [execute_pipeline] keeps the invariant of the
    run table when the run it drives starts without a finish time: after
    the call every run has a finish time exactly when its status is SUCCESS
    or FAILED, and with the database available the run of the call carries
    the returned terminal status and a finish time.
    [ProjectService.update_run_status] writes the status it is given and
    sets the finish time exactly when its flag [finished] is true. *)
Theorem execute_pipeline_keeps_finish_times
    (pipeline : OrchestrationPipeline) (run_id : N) (w : World) :
  (forall j r, runs (w_db w) !! j = Some r -> finished_iff_terminal r) ->
  (forall r, runs (w_db w) !! run_id = Some r -> r_finished_at r = None) ->
  (exists result w',
     execute_pipeline pipeline run_id w = (Ok result, w') /\
     (forall j r, runs (w_db w') !! j = Some r -> finished_iff_terminal r) /\
     (db_available w ->
      forall r, runs (w_db w) !! run_id = Some r ->
        exists r', runs (w_db w') !! run_id = Some r' /\
                   r_status r' = Some (res_status result) /\
                   is_Some (r_finished_at r') /\
                   is_terminal (res_status result) = true)) /\
  (forall status finished r,
     db_available w ->
     runs (w_db w) !! run_id = Some r ->
     exists r' w',
       update_run_status run_id status finished w = (Ok (Some r'), w') /\
       runs (w_db w') !! run_id = Some r' /\
       r_status r' = Some status /\
       (is_Some (r_finished_at r') <-> finished = true)).
Proof.
  intros Hinv Hfresh. split.
  - destruct (execute_pipeline_returns pipeline run_id w)
      as (result & w' & Hrun & _ & _ & _ & _ & Hwritten & Hcase).
    set (final := if all_handled (pl_steps pipeline) then "SUCCESS" else "FAILED")
      in Hwritten.
    assert (is_terminal final = true) as Hterm.
    { unfold final. now destruct (all_handled (pl_steps pipeline)). }
    assert (res_status result = final) as Hstatus.
    { unfold final. destruct (all_handled (pl_steps pipeline)); apply Hcase. }
    destruct Hwritten as (Hother & Hrow & Hav).
    exists result, w'. conjs.
    + exact Hrun.
    + intros j r Hr. destruct (decide (j = run_id)) as [-> | Hne].
      * destruct (runs (w_db w) !! run_id) as [r0|] eqn:Hr0; [| congruence].
        destruct Hrow as [Hrow | [Hrow | [t Hrow]]];
          rewrite Hrow in Hr; injection Hr as <-.
        -- now apply (Hinv run_id).
        -- apply finished_iff_terminal_running. now apply Hfresh.
        -- now apply finished_iff_terminal_stamped.
      * rewrite Hother in Hr by exact Hne. now apply (Hinv j).
    + intros Havail r Hr. destruct (Hav Havail r Hr) as [t Hr'].
      eexists. split; [exact Hr' |]. rewrite Hstatus.
      unfold stamped. rewrite Hterm. cbn. eauto.
  - intros status finished r Havail Hr.
    destruct (update_run_status_returns run_id status finished w r Havail Hr)
      as (w' & Hret & Hrow).
    eexists _, w'. conjs; [exact Hret | exact Hrow | |].
    + now destruct finished.
    + destruct finished; cbn.
      * split; eauto.
      * rewrite (Hfresh r Hr). split; [intros [x Hx] |]; discriminate.
Qed.

End FinishTimes.

(** ** Deletion in the project service *)

Lemma ScalarResult_has_no_delete (w : World) :
  ScalarResult_getattr "delete" w
  = (Raise (mkExc "AttributeError"
                  "'ScalarResult' object has no attribute 'delete'"), w).
Proof. reflexivity. Qed.

Lemma exec_then_delete_raises (remove : Database -> Database) (w : World) :
  w_db_fault w (w_db_ops w) = false ->
  exists w',
    exec_then_delete remove w
    = (Raise (mkExc "AttributeError"
                    "'ScalarResult' object has no attribute 'delete'"), w') /\
    w_db w' = w_db w.
Proof.
  intros Hok. unfold exec_then_delete, bind, db_statement. rewrite Hok.
  rewrite ScalarResult_has_no_delete. eexists. split; reflexivity.
Qed.

(** For a project that exists, [delete_project] stops at its first cascade
    statement: no row is removed and no value is returned. *)
Lemma delete_project_existing (project_id : N) (w : World) (p : Project) :
  db_available w ->
  projects (w_db w) !! project_id = Some p ->
  exists w',
    delete_project project_id w
    = (Raise (mkExc "AttributeError"
                    "'ScalarResult' object has no attribute 'delete'"), w') /\
    w_db w' = w_db w.
Proof.
  intros Hav Hp. unfold delete_project, get_project.
  unfold bind at 1 2. unfold db_statement, gets. rewrite Hav. cbn. rewrite Hp.
  unfold bind at 1.
  match goal with |- context [exec_then_delete ?f ?w0] =>
    destruct (exec_then_delete_raises f w0) as (w' & -> & Hdb); [apply Hav |]
  end.
  exists w'. split; [reflexivity | exact Hdb].
Qed.

(** For an id that no project has, [delete_project] returns [False] and
    leaves the tables alone. *)
Lemma delete_project_missing (project_id : N) (w : World) :
  db_available w ->
  projects (w_db w) !! project_id = None ->
  exists w', delete_project project_id w = (Ok false, w') /\ w_db w' = w_db w.
Proof.
  intros Hav Hp. unfold delete_project, get_project.
  unfold bind, db_statement, gets, ret. rewrite Hav. cbn. rewrite Hp.
  eexists. split; reflexivity.
Qed.

Lemma delete_run_existing (run_id : N) (w : World) (r : OrchestrationRun) :
  db_available w ->
  runs (w_db w) !! run_id = Some r ->
  exists w',
    delete_run run_id w
    = (Raise (mkExc "AttributeError"
                    "'ScalarResult' object has no attribute 'delete'"), w') /\
    w_db w' = w_db w.
Proof.
  intros Hav Hr. unfold delete_run, get_run, select_run_first.
  unfold bind at 1 2. unfold db_statement, gets. rewrite Hav. cbn. rewrite Hr.
  unfold bind at 1.
  match goal with |- context [exec_then_delete ?f ?w0] =>
    destruct (exec_then_delete_raises f w0) as (w' & -> & Hdb); [apply Hav |]
  end.
  exists w'. split; [reflexivity | exact Hdb].
Qed.

(** C7, on the code. Deleting project 1 of the example database, which
    has one context, one run and one artifact, raises [AttributeError] at
    the first cascade statement: the project and its three dependants are
    still there, and [True] is not returned; deleting run 7 stops in the
    same way and leaves the run and its artifact. *)
Theorem delete_project_raises_and_deletes_nothing :
  (exists e w',
     delete_project 1 demo_world = (Raise e, w') /\
     exc_class e = "AttributeError" /\
     w_db w' = demo_db /\
     projects (w_db w') !! 1%N <> None /\
     contexts_of_project 1 (w_db w') <> [] /\
     runs_of_project 1 (w_db w') <> [] /\
     artifacts_of_project 1 (w_db w') <> []) /\
  (exists e w',
     delete_run 7 demo_world = (Raise e, w') /\
     exc_class e = "AttributeError" /\
     w_db w' = demo_db /\
     runs (w_db w') !! 7%N <> None).
Proof.
  split.
  - destruct (delete_project_existing 1 demo_world
                (mkProject "demo" None None None 0 None))
      as (w' & Hret & Hdb).
    { intros n. reflexivity. }
    { cbn. apply lookup_singleton_eq. }
    eexists _, w'. split; [exact Hret |]. rewrite Hdb.
    conjs; try reflexivity.
    + cbn. now rewrite lookup_singleton_eq.
    + unfold contexts_of_project. cbn. rewrite map_to_list_singleton. discriminate.
    + unfold runs_of_project. cbn. rewrite map_to_list_singleton. discriminate.
    + unfold artifacts_of_project. cbn. rewrite map_to_list_singleton. discriminate.
  - destruct (delete_run_existing 7 demo_world demo_run) as (w' & Hret & Hdb).
    { intros n. reflexivity. }
    { cbn. apply lookup_singleton_eq. }
    eexists _, w'. split; [exact Hret |]. rewrite Hdb.
    conjs; try reflexivity.
    cbn. now rewrite lookup_singleton_eq.
Qed.

Lemma filter_none {A} (P : A -> Prop) `{!forall x, Decision (P x)} (l : list A) :
  (forall x, x ∈ l -> ~ P x) -> filter P l = [].
Proof.
  induction l as [|x l IH]; intros Hl; [reflexivity |].
  rewrite filter_cons_False by (apply Hl; left).
  apply IH. intros y Hy. apply Hl. now right.
Qed.

Lemma values_of_filtered {A} (keep : A -> Prop) `{!forall x, Decision (keep x)}
    (m : gmap N A) (v : A) :
  v ∈ map snd (map_to_list (filter (fun kv => keep kv.2) m)) -> keep v.
Proof.
  intros ([k v'] & -> & Hin)%list_elem_of_fmap.
  apply elem_of_map_to_list in Hin.
  now apply map_lookup_filter_Some in Hin as [_ Hkeep].
Qed.

(** What the three cascade statements of [delete_project] select is the
    set of dependants of the project: a bulk delete of these rows leaves
    the three queries by project empty. *)
Lemma cascade_statements_cover_dependants (project_id : N) (db : Database) :
  let db' := remove_artifacts_of_project project_id
               (remove_runs_of_project project_id
                  (remove_contexts_of_project project_id db)) in
  contexts_of_project project_id db' = [] /\
  runs_of_project project_id db' = [] /\
  artifacts_of_project project_id db' = [].
Proof.
  unfold contexts_of_project, runs_of_project, artifacts_of_project.
  cbn. conjs.
  - apply filter_none. intros c Hc.
    exact (values_of_filtered (fun c => c_project_id c <> project_id) _ _ Hc).
  - apply filter_none. intros r Hr.
    exact (values_of_filtered (fun r => r_project_id r <> Some project_id) _ _ Hr).
  - apply filter_none. intros a Ha.
    exact (values_of_filtered (fun a => ga_project_id a <> Some project_id) _ _ Ha).
Qed.

(** ** The theorems at the example inputs *)

Lemma step_a_succeeds : @step_succeeds demo_builtins step_a.
Proof. apply step_succeeds_handled. reflexivity. Qed.

Lemma step_b_succeeds : @step_succeeds demo_builtins step_b.
Proof. apply step_succeeds_handled. reflexivity. Qed.


Lemma demo_db_available : db_available demo_world.
Proof. intros n. reflexivity. Qed.

Lemma demo_run_lookup : runs (w_db demo_world) !! 7%N = Some demo_run.
Proof. cbn. apply lookup_singleton_eq. Qed.

Lemma demo_runs_only (j : N) (r : OrchestrationRun) :
  runs (w_db demo_world) !! j = Some r -> j = 7%N /\ r = demo_run.
Proof. cbn. intros [-> ->]%lookup_singleton_Some. split; reflexivity. Qed.

(** The scenario of the specification with the unknown model: one step
    result, tagged FAILED, and the error names the unknown model type. *)
Example unknown_model_scenario :
  exists w',
    @_execute_step demo_builtins step_bad [] demo_world
    = (Ok (mkStepOutput "bad" FAILED None
             (Some "Unknown model type: NotARealModel") [] 1), w').
Proof. eexists. reflexivity. Qed.

(** The scenario of the specification with the placeholder. *)
Example placeholder_scenario :
  exists w',
    @_execute_step demo_builtins step_a [] demo_world
    = (Ok (mkStepOutput "a" SUCCESS
             (Some ("[CodeLlama] Placeholder response to: Generate a button component..."
                    +:+ nl +:+ nl +:+ "## Available Context:" +:+ nl +:+ "..."))
             None [] 1), w').
Proof. eexists. reflexivity. Qed.



Lemma execute_pipeline_all_success_witness :
  Forall (@step_succeeds demo_builtins) (pl_steps good_pipeline) /\
  exists result w',
    @execute_pipeline demo_builtins good_pipeline 7 demo_world = (Ok result, w') /\
    res_status result = "SUCCESS" /\
    List.length (res_steps result) = List.length (pl_steps good_pipeline) /\
    w_trace w' = w_trace demo_world ++ step_events (pl_steps good_pipeline)
                 ++ [EvRunAssembler] /\
    (EvRunAssembler ∉ step_events (pl_steps good_pipeline)) /\
    exists a wa,
      w_hf_manager wa = w_hf_manager demo_world /\
      assembler_outcome wa (res_steps result) a /\
      res_final_artifacts result = asm_artifacts a /\
      res_assembled_code result = Some (asm_assembled_code a).
Proof.
  assert (Forall (@step_succeeds demo_builtins) (pl_steps good_pipeline)) as H1.
  { repeat constructor; [exact step_a_succeeds | exact step_b_succeeds]. }
  exact (conj H1
    (@execute_pipeline_all_success demo_builtins good_pipeline 7 demo_world H1)).
Defined.

Lemma step_bad_value :
  ModelRef_value (model_type step_bad) ∉ ["CodeLlama"; "CodeGemma"; "T5Gemma"].
Proof.
  intros Hin. apply (proj2 (handled_values step_bad)) in Hin. discriminate Hin.
Qed.

Lemma unknown_model_type_fails_witness :
  (ModelRef_value (model_type step_bad) ∉ ["CodeLlama"; "CodeGemma"; "T5Gemma"]) /\
  (forall ctx w, exists o w',
     @_execute_step demo_builtins step_bad ctx w = (Ok o, w') /\
     so_status o = FAILED /\
     (exists msg, so_error o = Some msg /\ contains "Unknown model type" msg) /\
     so_result o = None /\
     so_artifacts o = []) /\
  (forall pipeline run_id w,
     step_bad ∈ pl_steps pipeline ->
     exists result w',
       @execute_pipeline demo_builtins pipeline run_id w = (Ok result, w') /\
       res_status result = "FAILED").
Proof.
  exact (conj step_bad_value
    (@unknown_model_type_fails demo_builtins step_bad step_bad_value)).
Defined.

Lemma assembler_failure_keeps_success_witness :
  w_hf_manager demo_world_failing_backend = Some failing_backend /\
  (forall n prompt, exists e,
     failing_backend n
       (mkGenRequest "CodeLlama-7b" prompt (PyInt 2048) (PyFloat (3 # 10)))
     = Raise e) /\
  Forall (@step_succeeds demo_builtins) (pl_steps good_pipeline) /\
  (forall rid pid ctx outs w1,
     w_hf_manager w1 = Some failing_backend ->
     exists msg w2,
       _run_assembler rid pid ctx outs w1
       = (Ok (mkAssemblerOutput EmptyString [] (Some msg)), w2)) /\
  exists result w',
    @execute_pipeline demo_builtins good_pipeline 7 demo_world_failing_backend
    = (Ok result, w') /\
    res_status result = "SUCCESS" /\
    res_assembled_code result = Some EmptyString /\
    res_final_artifacts result = [] /\
    res_error result = None.
Proof.
  assert (forall n prompt, exists e,
            failing_backend n
              (mkGenRequest "CodeLlama-7b" prompt (PyInt 2048) (PyFloat (3 # 10)))
            = Raise e) as H2.
  { intros n prompt. eexists. reflexivity. }
  assert (Forall (@step_succeeds demo_builtins) (pl_steps good_pipeline)) as H3.
  { repeat constructor; [exact step_a_succeeds | exact step_b_succeeds]. }
  exact (conj eq_refl (conj H2 (conj H3
    (@assembler_failure_keeps_success demo_builtins good_pipeline 7
       demo_world_failing_backend failing_backend eq_refl H2 H3)))).
Defined.

Lemma execute_pipeline_keeps_finish_times_witness :
  (forall j r, runs (w_db demo_world) !! j = Some r -> finished_iff_terminal r) /\
  (forall r, runs (w_db demo_world) !! 7%N = Some r -> r_finished_at r = None) /\
  (exists result w',
     @execute_pipeline demo_builtins bad_pipeline 7 demo_world = (Ok result, w') /\
     (forall j r, runs (w_db w') !! j = Some r -> finished_iff_terminal r) /\
     (db_available demo_world ->
      forall r, runs (w_db demo_world) !! 7%N = Some r ->
        exists r', runs (w_db w') !! 7%N = Some r' /\
                   r_status r' = Some (res_status result) /\
                   is_Some (r_finished_at r') /\
                   is_terminal (res_status result) = true)) /\
  (forall status finished r,
     db_available demo_world ->
     runs (w_db demo_world) !! 7%N = Some r ->
     exists r' w',
       update_run_status 7 status finished demo_world = (Ok (Some r'), w') /\
       runs (w_db w') !! 7%N = Some r' /\
       r_status r' = Some status /\
       (is_Some (r_finished_at r') <-> finished = true)).
Proof.
  assert (forall j r, runs (w_db demo_world) !! j = Some r ->
                      finished_iff_terminal r) as H1.
  { intros j r [_ ->]%demo_runs_only. unfold finished_iff_terminal. cbn.
    split; [intros [x Hx]; discriminate | intros [Hs | Hs]; discriminate]. }
  assert (forall r, runs (w_db demo_world) !! 7%N = Some r ->
                    r_finished_at r = None) as H2.
  { intros r [_ ->]%demo_runs_only. reflexivity. }
  exact (conj H1 (conj H2
    (@execute_pipeline_keeps_finish_times demo_builtins bad_pipeline 7
       demo_world H1 H2))).
Defined.

(** C8 as worded fails on a step that no handler takes: with no backend
    configured, a step for the member ASSEMBLER of the enumeration gets a
    result tagged FAILED that has an error and no text, and a run of this
    step ends with the status FAILED. *)
Lemma step_without_backend_fails :
  w_hf_manager demo_world = None /\
  (exists o w',
     @_execute_step demo_builtins step_assembler [] demo_world = (Ok o, w') /\
     so_status o = FAILED /\
     so_result o = None /\
     is_Some (so_error o)) /\
  exists result w',
    @execute_pipeline demo_builtins assembler_pipeline 7 demo_world
    = (Ok result, w') /\
    res_status result = "FAILED".
Proof.
  conjs.
  - reflexivity.
  - eexists _, _. split; [reflexivity |]. conjs; try reflexivity. now eexists.
  - destruct (@execute_pipeline_returns demo_builtins assembler_pipeline
                7%N demo_world)
      as (result & w' & Hrun & _ & _ & _ & _ & _ & Hcase).
    change (all_handled (pl_steps assembler_pipeline)) with false in Hcase.
    exists result, w'. split; [exact Hrun | apply Hcase].
Qed.

Lemma backend_failure_gives_placeholder_witness :
  (ModelRef_value (model_type step_long) ∈ ["CodeLlama"; "CodeGemma"; "T5Gemma"] /\
   backend_answer demo_world_failing_backend
     (handler_request step_long
        (@_inject_context demo_builtins (prompt step_long) []))
   = None /\
   exists o w' text,
     @_execute_step demo_builtins step_long [] demo_world_failing_backend
     = (Ok o, w') /\
     so_status o = SUCCESS /\
     so_error o = None /\
     so_result o = Some text /\
     placeholder_of (ModelRef_value (model_type step_long))
                    (@_inject_context demo_builtins (prompt step_long) []) text /\
     (exists cut tail,
        cut_to 100 (prompt step_long) cut /\
        text = "[" +:+ ModelRef_value (model_type step_long)
               +:+ "] Placeholder response to: " +:+ cut +:+ tail) /\
     contains "Placeholder response to:" text) /\
  (Forall (fun st => ModelRef_value (model_type st)
                     ∈ ["CodeLlama"; "CodeGemma"; "T5Gemma"])
          (pl_steps long_pipeline) /\
   backend_down demo_world /\
   exists result w',
     @execute_pipeline demo_builtins long_pipeline 7 demo_world = (Ok result, w') /\
     res_status result = "SUCCESS" /\
     Forall2 (fun st o =>
                so_status o = SUCCESS /\
                exists ctx text,
                  so_result o = Some text /\
                  placeholder_of (ModelRef_value (model_type st))
                                 (@_inject_context demo_builtins (prompt st) ctx)
                                 text /\
                  contains "Placeholder response to:" text)
             (pl_steps long_pipeline) (res_steps result)).
Proof.
  assert (ModelRef_value (model_type step_long)
          ∈ ["CodeLlama"; "CodeGemma"; "T5Gemma"]) as Ha.
  { apply (proj1 (handled_values step_long)). reflexivity. }
  assert (ModelRef_value (model_type step_b)
          ∈ ["CodeLlama"; "CodeGemma"; "T5Gemma"]) as Hb.
  { apply (proj1 (handled_values step_b)). reflexivity. }
  assert (backend_answer demo_world_failing_backend
            (handler_request step_long
               (@_inject_context demo_builtins (prompt step_long) []))
          = None) as Hnow by reflexivity.
  assert (Forall (fun st => ModelRef_value (model_type st)
                            ∈ ["CodeLlama"; "CodeGemma"; "T5Gemma"])
                 (pl_steps long_pipeline)) as Hall.
  { repeat constructor; assumption. }
  split.
  - exact (conj Ha (conj Hnow
      (proj1 (@backend_failure_gives_placeholder demo_builtins)
         step_long [] demo_world_failing_backend Ha Hnow))).
  - exact (conj Hall (conj I
      (proj2 (@backend_failure_gives_placeholder demo_builtins)
         long_pipeline 7%N demo_world Hall I))).
Defined.

(** The placeholder of the step [long]: of its prompt of 130 characters the
    first 100 are kept. *)
Example long_prompt_is_cut :
  String.length (prompt step_long) = 130 /\
  exists w',
    @_execute_step demo_builtins step_long [] demo_world
    = (Ok (mkStepOutput "long" SUCCESS
             (Some ("[CodeLlama] Placeholder response to: "
                    +:+ "Generate a button component with a label, an icon, "
                    +:+ "a disabled state and a loading state; add unit te"
                    +:+ "..."))
             None [] 1), w').
Proof. split; [reflexivity | eexists; reflexivity]. Qed.

Lemma run_summary_counts_witness :
  @reachable demo_builtins
    (@execute_pipeline demo_builtins bad_pipeline 7 demo_world).2 /\
  let w := (@execute_pipeline demo_builtins bad_pipeline 7 demo_world).2 in
  (forall st ctx w0, exists o w1,
     @_execute_step demo_builtins st ctx w0 = (Ok o, w1) /\
     (so_status o = SUCCESS \/ so_status o = FAILED)) /\
  sum_successful_steps (get_run_summary 7 w) + sum_failed_steps (get_run_summary 7 w)
  = sum_total_steps (get_run_summary 7 w) /\
  Forall (fun o => so_status o = SUCCESS \/ so_status o = FAILED)
         (sum_steps (get_run_summary 7 w)) /\
  (w_step_history w !! 7%N = None ->
   get_run_summary 7 w = mkRunSummary 7 0 0 0 0 []).
Proof.
  assert (@reachable demo_builtins
            (@execute_pipeline demo_builtins bad_pipeline 7 demo_world).2) as H1.
  { destruct (@execute_pipeline_returns demo_builtins bad_pipeline 7 demo_world)
      as (result & w' & Hrun & _).
    rewrite Hrun. apply (reachable_execute demo_world bad_pipeline 7 result w').
    - apply reachable_init. reflexivity.
    - exact Hrun. }
  exact (conj H1 (@run_summary_counts demo_builtins _ 7%N H1)).
Defined.

(** The summary of the run of [bad_pipeline]: two steps, one of each tag. *)
Example run_summary_example :
  let w := (@execute_pipeline demo_builtins bad_pipeline 7 demo_world).2 in
  sum_total_steps (get_run_summary 7 w) = 2 /\
  sum_successful_steps (get_run_summary 7 w) = 1 /\
  sum_failed_steps (get_run_summary 7 w) = 1.
Proof. vm_compute. auto. Qed.

(** * Further properties of the services *)

(** ** What the writes of the orchestrator leave alone *)

Lemma _update_run_keeps_tables (run_id : N) (status : string) (w : World) :
  returns (_update_run run_id status) w (fun _ w' =>
    projects (w_db w') = projects (w_db w) /\
    contexts (w_db w') = contexts (w_db w) /\
    artifacts (w_db w') = artifacts (w_db w) /\
    (runs (w_db w) !! run_id = None -> w_db w' = w_db w)).
Proof.
  unfold returns, _update_run, select_run_first, commit_run.
  unfold try_except, bind, db_statement, gets, modify, ret, now.
  cbv beta. destruct (w_db_fault w (w_db_ops w)); cbn.
  { eexists _, _. split; [reflexivity |]. cbn. auto. }
  destruct (runs (w_db w) !! run_id) as [r|] eqn:Hr; cbn.
  2: { eexists _, _. split; [reflexivity |]. cbn. auto. }
  destruct (is_terminal status); cbn;
    destruct (w_db_fault w (S (w_db_ops w))); cbn;
    eexists _, _; (split; [reflexivity |]); cbn; conjs; auto; discriminate.
Qed.

(** [_save_artifact] raises in no case; it writes at most one row, the row
    of the artifact under the next identifier, and writes it when the
    database accepts the statement. *)
Lemma _save_artifact_row (run_id project_id : N) (a : Artifact) (w : World) :
  returns (_save_artifact run_id project_id a) w (fun _ w' =>
    w_hf_manager w' = w_hf_manager w /\ w_db_fault w' = w_db_fault w /\
    w_step_history w' = w_step_history w /\ w_trace w' = w_trace w /\
    projects (w_db w') = projects (w_db w) /\
    contexts (w_db w') = contexts (w_db w) /\
    runs (w_db w') = runs (w_db w) /\
    (if w_db_fault w (w_db_ops w)
     then artifacts (w_db w') = artifacts (w_db w)
     else artifacts (w_db w')
          = <[w_next_uuid w := artifact_row run_id project_id a (w_clock w)]>
              (artifacts (w_db w)))).
Proof.
  unfold returns, _save_artifact, commit_artifact.
  unfold try_except, bind, db_statement, modify, ret, uuid4, now.
  cbn. destruct (w_db_fault w (w_db_ops w)) eqn:Hf; cbn;
    eexists _, _; (split; [reflexivity |]); cbn; conjs; auto.
Qed.

Lemma save_artifacts_rows (run_id project_id : N) (arts : list Artifact) (w : World) :
  returns (for_each arts (_save_artifact run_id project_id)) w (fun _ w' =>
    w_hf_manager w' = w_hf_manager w /\ w_db_fault w' = w_db_fault w /\
    w_step_history w' = w_step_history w /\ w_trace w' = w_trace w /\
    projects (w_db w') = projects (w_db w) /\
    contexts (w_db w') = contexts (w_db w) /\
    runs (w_db w') = runs (w_db w) /\
    forall id row, artifacts (w_db w') !! id = Some row ->
      artifacts (w_db w) !! id = Some row \/
      exists a t, a ∈ arts /\ row = artifact_row run_id project_id a t).
Proof.
  revert w; induction arts as [|a arts IH]; intros w; simpl.
  - apply returns_ret. conjs; auto.
  - apply returns_bind.
    eapply returns_mono; [apply _save_artifact_row |].
    intros _ w1 (Hhf & Hfa & Hh & Ht & Hp & Hc & Hr & Hrow). cbn beta.
    eapply returns_mono; [apply IH |].
    intros _ w2 (Hhf2 & Hfa2 & Hh2 & Ht2 & Hp2 & Hc2 & Hr2 & Hrows). cbn beta.
    conjs; try congruence.
    intros id row Hid. destruct (Hrows id row Hid) as [Hold | (a' & t & Ha' & ->)].
    + destruct (w_db_fault w (w_db_ops w)).
      * left. now rewrite <- Hrow.
      * rewrite Hrow in Hold.
        destruct (decide (w_next_uuid w = id)) as [<- | Hne].
        -- rewrite lookup_insert_eq in Hold. injection Hold as <-.
           right. exists a, (w_clock w). split; [left | reflexivity].
        -- rewrite lookup_insert_ne in Hold by exact Hne. now left.
    + right. exists a', t. split; [now right | reflexivity].
Qed.

Lemma rows_from_steps_refl (run_id project_id : N) (outs : list StepOutput)
    (m : gmap N GeneratedArtifact) :
  rows_from_steps run_id project_id outs m m.
Proof. intros id row Hrow. now left. Qed.

Lemma rows_from_steps_app (run_id project_id : N) (outs1 outs2 : list StepOutput)
    (m1 m2 m3 : gmap N GeneratedArtifact) :
  rows_from_steps run_id project_id outs1 m1 m2 ->
  rows_from_steps run_id project_id outs2 m2 m3 ->
  rows_from_steps run_id project_id (outs1 ++ outs2) m1 m3.
Proof.
  intros H12 H23 id row Hrow.
  destruct (H23 id row Hrow) as [Hmid | (o & a & t & Ho & Ha & ->)].
  - destruct (H12 id row Hmid) as [Hold | (o & a & t & Ho & Ha & ->)];
      [now left |].
    right. exists o, a, t. rewrite elem_of_app. auto.
  - right. exists o, a, t. rewrite elem_of_app. auto.
Qed.

(** ** The data flow of the loop *)

Section FlowProofs.
Context `{!PyBuiltins}.

Lemma run_chain_from (w0 w1 : World) (steps : list StepInput) :
  w_hf_manager w1 = w_hf_manager w0 ->
  forall i ctx outs ctx',
    run_chain w1 i ctx steps outs ctx' -> run_chain w0 i ctx steps outs ctx'.
Proof.
  intros Hhf. induction steps as [|st rest IH]; intros i ctx [|o outs] ctx';
    cbn; try tauto.
  intros [(w & Hw & Hout) Hrest]. split.
  - exists w. split; [congruence | exact Hout].
  - destruct (handled st); [now apply IH | exact Hrest].
Qed.

Lemma for_steps_flow (run_id project_id : N) (steps : list StepInput) :
  forall (i : nat) (fr : Frame) (h : list StepOutput),
    w_step_history (fr_world fr) !! run_id = Some h ->
    returns (for_steps run_id project_id i steps) fr (fun _ fr' =>
      exists outs,
        run_chain (fr_world fr) i (fr_context fr) steps outs (fr_context fr') /\
        res_steps (fr_results fr') = res_steps (fr_results fr) ++ outs /\
        rows_from_steps run_id project_id outs
          (artifacts (w_db (fr_world fr))) (artifacts (w_db (fr_world fr'))) /\
        projects (w_db (fr_world fr')) = projects (w_db (fr_world fr)) /\
        contexts (w_db (fr_world fr')) = contexts (w_db (fr_world fr)) /\
        res_final_artifacts (fr_results fr') = res_final_artifacts (fr_results fr) /\
        res_assembled_code (fr_results fr') = res_assembled_code (fr_results fr) /\
        match failing_step steps with
        | Some st => res_error (fr_results fr') = Some (stop_message st)
        | None => res_error (fr_results fr') = res_error (fr_results fr)
        end).
Proof.
  induction steps as [|st rest IH]; intros i fr h Hh.
  - apply returns_ret. exists []. cbn. rewrite app_nil_r.
    conjs; auto. apply rows_from_steps_refl.
  - cbn [for_steps].
    apply returns_bind, returns_gets.
    apply returns_bind, returns_lift.
    eapply returns_mono; [apply _execute_step_returns |].
    intros o w1 (Hdb1 & Hfa1 & Hhf1 & Hh1 & Ht1 & Hout). cbn beta.
    apply returns_bind, returns_lift. cbn [fr_world fr_results fr_context].
    eapply returns_mono;
      [apply (history_append_returns run_id o w1 h); now rewrite Hh1 |].
    intros _ w2 (Hdb2 & Hfa2 & Hhf2 & Ht2 & Hh2). cbn beta.
    apply returns_bind, returns_modify. cbn [fr_world fr_results fr_context].
    pose proof (step_outcome_status _ _ _ _ Hout) as Hstatus.
    assert (exists w, w_hf_manager w = w_hf_manager (fr_world fr) /\
                      step_outcome w st (fr_context fr) o) as Hrec.
    { exists (fr_world fr). split; [reflexivity | exact Hout]. }
    unfold failing_step. cbn [List.find run_chain].
    destruct (handled st) eqn:Hhandled; rewrite Hstatus;
      cbn [StepStatus_eqb StepStatus_value String.eqb Ascii.eqb Bool.eqb negb].
    + apply returns_bind, returns_modify. cbn [fr_world fr_results fr_context].
      apply returns_bind, returns_modify. cbn [fr_world fr_results fr_context].
      apply returns_bind, returns_lift. cbn [fr_world fr_results fr_context].
      eapply returns_mono; [apply save_artifacts_rows |].
      intros _ w3 (Hhf3 & Hfa3 & Hh3 & Ht3 & Hp3 & Hc3 & Hr3 & Hrows3). cbn beta.
      eapply returns_mono.
      { apply (IH (S i) _ (h ++ [o])). cbn [fr_world].
        rewrite Hh3, Hh2. apply lookup_insert_eq. }
      intros _ fr' (outs & Hchain & Hsteps & Hrows & Hp & Hc & Hfin & Hcode & Herr).
      cbn [fr_world fr_results fr_context res_steps res_error
           res_final_artifacts res_assembled_code with_step] in *.
      exists (o :: outs). cbn [run_chain]. rewrite ?Hhandled. conjs.
      * exact Hrec.
      * apply (run_chain_from _ w3); [congruence | exact Hchain].
      * rewrite Hsteps, <- app_assoc. reflexivity.
      * apply (rows_from_steps_app _ _ [o] outs _ (artifacts (w_db w3)));
          [| exact Hrows].
        intros id row Hrow.
        destruct (Hrows3 id row Hrow) as [Hold | (a & t & Ha & ->)].
        -- left. now rewrite <- Hdb1, <- Hdb2.
        -- right. exists o, a, t. conjs; [left | exact Ha | reflexivity].
      * rewrite Hp, Hp3. congruence.
      * rewrite Hc, Hc3. congruence.
      * exact Hfin.
      * exact Hcode.
      * fold (failing_step rest). destruct (failing_step rest); exact Herr.
    + apply returns_bind, returns_modify. cbn [fr_world fr_results fr_context].
      apply returns_bind, returns_modify. cbn [fr_world fr_results fr_context].
      apply returns_lift. cbn [fr_world fr_results fr_context].
      eapply returns_mono; [apply _update_run_keeps_tables |].
      intros _ w3 (Hp3 & Hc3 & Ha3 & _).
      cbn [fr_world fr_results fr_context res_steps res_status res_error
           res_final_artifacts res_assembled_code with_step with_status with_error].
      destruct Hout as (_ & Hout). rewrite Hhandled in Hout.
      destruct Hout as (_ & _ & Herror & _).
      exists [o]. cbn [run_chain]. rewrite ?Hhandled. conjs.
      * exact Hrec.
      * reflexivity.
      * reflexivity.
      * reflexivity.
      * intros id row Hrow. left. rewrite Ha3 in Hrow. congruence.
      * congruence.
      * congruence.
      * reflexivity.
      * reflexivity.
      * unfold stop_message. rewrite Herror. reflexivity.
Qed.

End FlowProofs.

Lemma returns_and {S A} (m : M S A) (s : S) (P Q : A -> S -> Prop) :
  returns m s P -> returns m s Q -> returns m s (fun a s' => P a s' /\ Q a s').
Proof.
  intros (a & s' & Hm & HP) (a' & s'' & Hm' & HQ).
  rewrite Hm in Hm'. injection Hm' as <- <-.
  exists a, s'. auto.
Qed.

Lemma failing_step_None (steps : list StepInput) :
  failing_step steps = None <-> all_handled steps = true.
Proof.
  unfold failing_step, all_handled.
  induction steps as [|st rest IH]; cbn; [tauto |].
  destruct (handled st); cbn; [exact IH | split; discriminate].
Qed.

Lemma failing_step_Some (steps : list StepInput) (st : StepInput) :
  failing_step steps = Some st ->
  handled st = false /\ last (executed steps) = Some st /\
  all_handled steps = false.
Proof.
  unfold failing_step, all_handled.
  induction steps as [|s rest IH]; cbn; [discriminate |].
  destruct (handled s) eqn:Hs; cbn.
  - intros Hfind. destruct (IH Hfind) as (Hst & Hlast & Hall). conjs; auto.
    destruct (executed rest); [discriminate | exact Hlast].
  - intros [= <-]. auto.
Qed.

Section PipelineFlow.
Context `{!PyBuiltins}.

Lemma execute_pipeline_body_flow (pipeline : OrchestrationPipeline)
    (run_id : N) (fr : Frame) :
  w_step_history (fr_world fr) !! run_id = Some [] ->
  res_status (fr_results fr) = "RUNNING" ->
  res_steps (fr_results fr) = [] ->
  res_error (fr_results fr) = None ->
  res_final_artifacts (fr_results fr) = [] ->
  res_assembled_code (fr_results fr) = None ->
  returns (execute_pipeline_body pipeline run_id) fr (fun _ fr' =>
    pipeline_flow pipeline run_id (fr_world fr) (fr_results fr') (fr_world fr')).
Proof.
  intros Hh Hstatus Hsteps Herror Hfinal Hcode. unfold execute_pipeline_body.
  apply returns_bind, returns_lift.
  eapply returns_mono;
    [apply returns_and; [apply _update_run_returns | apply _update_run_keeps_tables] |].
  intros _ w1 ((Hhf1 & Hfa1 & Hh1 & Ht1 & Hr1) & Hp1 & Hc1 & Ha1 & _). cbn beta.
  apply returns_bind, returns_modify.
  apply returns_bind.
  eapply returns_mono.
  { apply returns_and.
    - apply (for_steps_returns run_id (pl_project_id pipeline) (pl_steps pipeline) 0 _ []).
      cbn [fr_world]. now rewrite Hh1.
    - apply (for_steps_flow run_id (pl_project_id pipeline) (pl_steps pipeline) 0 _ []).
      cbn [fr_world]. now rewrite Hh1. }
  intros _ fr2
    ((outs & _ & Hsteps2 & Hhist2 & _ & Hhf2 & _ & Hcase) &
     (outs' & Hchain & Hsteps2' & Hrows & Hp2 & Hc2 & Hfin2 & Hcode2 & Herr2)).
  cbn [fr_world fr_results fr_context] in *. cbn beta.
  rewrite Hsteps in Hsteps2'. cbn [app] in Hsteps2'.
  apply returns_bind, returns_gets.
  assert (run_chain (fr_world fr) 0 (pl_global_context pipeline)
            (pl_steps pipeline) (res_steps (fr_results fr2)) (fr_context fr2))
    as Hchain'.
  { rewrite Hsteps2'. apply (run_chain_from _ w1); [exact Hhf1 | exact Hchain]. }
  assert (rows_from_steps run_id (pl_project_id pipeline) (res_steps (fr_results fr2))
            (artifacts (w_db (fr_world fr))) (artifacts (w_db (fr_world fr2))))
    as Hrows'.
  { rewrite Hsteps2', <- Ha1. exact Hrows. }
  destruct (all_handled (pl_steps pipeline)) eqn:Hall.
  - destruct Hcase as (Hs & He & Hr2). rewrite Hs, Hstatus.
    cbn [String.eqb Ascii.eqb Bool.eqb].
    apply failing_step_None in Hall. rewrite Hall in Herr2.
    apply returns_bind, returns_gets.
    apply returns_bind, returns_lift.
    unfold history_of. apply returns_bind, returns_gets.
    rewrite Hhist2, lookup_insert_eq.
    apply returns_ret.
    apply returns_bind, returns_lift.
    eapply returns_mono; [apply _run_assembler_returns |].
    intros a w3 (Hdb3 & Hfa3 & Hhf3 & Hh3 & Ht3 & Hasm). cbn beta.
    apply returns_bind, returns_modify.
    apply returns_bind, returns_modify.
    apply returns_lift.
    eapply returns_mono; [apply _update_run_keeps_tables |].
    intros _ w4 (Hp4 & Hc4 & Ha4 & _).
    cbn [fr_world fr_results fr_context res_steps res_status res_error
         res_final_artifacts res_assembled_code with_assembly with_status] in *.
    unfold pipeline_flow. rewrite Hall.
    cbn [res_steps res_status res_error res_final_artifacts res_assembled_code
         with_assembly with_status].
    conjs.
    + exists (fr_context fr2). exact Hchain'.
    + rewrite Ha4, Hdb3. exact Hrows'.
    + rewrite Hp4, Hdb3. congruence.
    + rewrite Hc4, Hdb3. congruence.
    + congruence.
  - destruct Hcase as (Hs & Hr2). rewrite Hs.
    cbn [String.eqb Ascii.eqb Bool.eqb].
    apply returns_ret.
    unfold pipeline_flow.
    destruct (failing_step (pl_steps pipeline)) as [st|] eqn:Hfail.
    2: { apply failing_step_None in Hfail. congruence. }
    conjs.
    + exists (fr_context fr2). exact Hchain'.
    + exact Hrows'.
    + congruence.
    + congruence.
    + exact Herr2.
    + congruence.
    + congruence.
Qed.

Lemma execute_pipeline_flow (pipeline : OrchestrationPipeline)
    (run_id : N) (w : World) :
  returns (execute_pipeline pipeline run_id) w (pipeline_flow pipeline run_id w).
Proof.
  unfold execute_pipeline.
  apply returns_bind, returns_modify.
  apply returns_bind, returns_now.
  intros w1 Hdb1 Hops1 Hfa1 Hhf1 Hc1 Hh1 Ht1.
  cbn [w_db w_db_ops w_db_fault w_hf_manager w_hf_calls w_step_history
       w_trace set_step_history] in *.
  unfold returns at 1. cbv beta.
  match goal with |- context [try_except _ _ ?f] =>
    destruct (execute_pipeline_body_flow pipeline run_id f)
      as ([] & fr' & Hbody & Hpost)
  end.
  { cbn [fr_world]. rewrite Hh1. apply lookup_insert_eq. }
  all: try reflexivity.
  unfold try_except at 1. rewrite Hbody.
  eexists _, _. split; [reflexivity |].
  cbn [fr_world] in Hpost.
  destruct Hpost as ((ctx' & Hchain) & Hrows & Hp & Hc & Hcase).
  unfold pipeline_flow.
  cbn [res_steps res_status res_error res_final_artifacts res_assembled_code
       with_finished_at w_db w_db_fault w_hf_manager w_step_history w_trace].
  conjs.
  - exists ctx'. apply (run_chain_from _ w1); [exact Hhf1 | exact Hchain].
  - now rewrite <- Hdb1.
  - now rewrite <- Hdb1.
  - now rewrite <- Hdb1.
  - exact Hcase.
Qed.

End PipelineFlow.

(** ** Decimal numerals and the names built from them *)

Lemma str_of_nat_inj (i j : nat) : str_of_nat i = str_of_nat j -> i = j.
Proof.
  unfold str_of_nat. intros Heq.
  apply DecimalNat.Unsigned.to_uint_inj.
  pose proof (NilZero.usu _ (to_uint_nonnil i)) as Hi.
  pose proof (NilZero.usu _ (to_uint_nonnil j)) as Hj.
  rewrite Heq in Hi. congruence.
Qed.

Lemma string_of_uint_digits (d : Decimal.uint) :
  str_forallb is_digit (NilEmpty.string_of_uint d) = true.
Proof. induction d; cbn [NilEmpty.string_of_uint str_forallb]; auto. Qed.

Lemma str_of_nat_digits (n : nat) : str_forallb is_digit (str_of_nat n) = true.
Proof.
  unfold str_of_nat, NilZero.string_of_uint.
  destruct (Nat.to_uint n) eqn:Hn; try (rewrite <- Hn; apply string_of_uint_digits).
  reflexivity.
Qed.

(** Two texts that a character [c] follows are equal when [c] occurs in
    neither. *)
Lemma str_app_sep (c : ascii) (a b x y : string) :
  str_forallb (fun d => negb (Ascii.eqb d c)) a = true ->
  str_forallb (fun d => negb (Ascii.eqb d c)) b = true ->
  a +:+ String c x = b +:+ String c y -> a = b /\ x = y.
Proof.
  revert b; induction a as [|d a IH]; intros [|e b]; cbn [str_forallb];
    rewrite ?str_app_nil_l, ?str_app_cons.
  - intros _ _ [= ->]. auto.
  - intros _ [He _]%andb_true_iff [= <- _]. rewrite Ascii.eqb_refl in He. discriminate.
  - intros [Hd _]%andb_true_iff _ [= -> _]. rewrite Ascii.eqb_refl in Hd. discriminate.
  - intros [_ Ha]%andb_true_iff [_ Hb]%andb_true_iff [= -> Heq].
    destruct (IH b Ha Hb Heq) as [-> ->]. auto.
Qed.

Lemma str_forallb_impl (P Q : ascii -> bool) (s : string) :
  (forall c, P c = true -> Q c = true) ->
  str_forallb P s = true -> str_forallb Q s = true.
Proof.
  intros HPQ. induction s as [|c s IH]; cbn; [reflexivity |].
  intros [Hc Hs]%andb_true_iff. rewrite (HPQ c Hc), (IH Hs). reflexivity.
Qed.

Lemma digit_not (c : ascii) :
  is_digit c = false -> forall d, is_digit d = true -> negb (Ascii.eqb d c) = true.
Proof.
  intros Hc d Hd. destruct (Ascii.eqb_spec d c) as [-> |]; [congruence | reflexivity].
Qed.

(** A numeral followed by a character that is no digit determines the
    number and the rest. *)
Lemma str_of_nat_sep (c : ascii) (i j : nat) (x y : string) :
  is_digit c = false ->
  str_of_nat i +:+ String c x = str_of_nat j +:+ String c y -> i = j /\ x = y.
Proof.
  intros Hc Heq.
  apply str_app_sep in Heq as [Hij ->].
  - split; [now apply str_of_nat_inj | reflexivity].
  - eapply str_forallb_impl; [apply (digit_not c Hc) | apply str_of_nat_digits].
  - eapply str_forallb_impl; [apply (digit_not c Hc) | apply str_of_nat_digits].
Qed.

(** ** What a run reports and what it leaves alone *)

Lemma count_executed (steps : list StepInput) (outs : list StepOutput) :
  Forall2 (fun st o => so_status o = if handled st then SUCCESS else FAILED)
          (executed steps) outs ->
  sum_list (map (fun _ => 1)
              (filter (fun step => StepStatus_eqb (so_status step) FAILED = true) outs))
  = (if all_handled steps then 0 else 1).
Proof.
  unfold all_handled.
  revert outs; induction steps as [|st rest IH]; intros outs Hrecs; cbn in *.
  - inversion Hrecs. reflexivity.
  - destruct (handled st) eqn:Hst; cbn.
    + inversion Hrecs as [|? o ? outs' Ho Hrest]; subst.
      rewrite Hst in Ho.
      rewrite filter_cons_False by (rewrite Ho; discriminate).
      now apply IH.
    + inversion Hrecs as [|? o ? outs' Ho Hrest]; subst.
      inversion Hrest; subst. rewrite Hst in Ho.
      rewrite filter_cons_True by now rewrite Ho.
      reflexivity.
Qed.

Section RunReports.
Context `{!PyBuiltins}.

Lemma recorded_status (w : World) (steps : list StepInput) (outs : list StepOutput) :
  Forall2 (step_recorded w) steps outs ->
  Forall2 (fun st o => so_status o = if handled st then SUCCESS else FAILED)
          steps outs.
Proof.
  intros Hrecs. eapply Forall2_impl; [exact Hrecs |].
  intros st o (ctx & w1 & _ & Hout). now apply step_outcome_status in Hout.
Qed.

(** X1. When some step of the pipeline has a model that no branch of the
    dispatch takes, [execute_pipeline] returns the status FAILED, the error
    text that names the first such step and its model, no final artifact
    and no assembled code; the last step result it returns is the FAILED
    result of that step. *)
Theorem execute_pipeline_reports_failing_step
    (pipeline : OrchestrationPipeline) (run_id : N) (w : World) (st : StepInput) :
  failing_step (pl_steps pipeline) = Some st ->
  exists result w' o,
    execute_pipeline pipeline run_id w = (Ok result, w') /\
    res_status result = "FAILED" /\
    res_error result = Some (stop_message st) /\
    res_final_artifacts result = [] /\
    res_assembled_code result = None /\
    last (res_steps result) = Some o /\
    so_step_name o = step_name st /\
    so_status o = FAILED /\
    so_result o = None /\
    so_error o = Some ("Unknown model type: " +:+ py_format_model (model_type st)) /\
    so_artifacts o = [].
Proof.
  intros Hfail.
  destruct (returns_and _ _ _ _ (execute_pipeline_returns pipeline run_id w)
                                (execute_pipeline_flow pipeline run_id w))
    as (result & w' & Hrun & (Hrecs & _ & _ & _ & _ & Hcase) & (_ & _ & _ & _ & Hflow)).
  rewrite Hfail in Hflow. destruct Hflow as (Herr & Hfin & Hcode).
  destruct (failing_step_Some _ _ Hfail) as (Hst & Hlast & Hall).
  rewrite Hall in Hcase. destruct Hcase as [Hstatus _].
  apply Forall2_last in Hrecs. rewrite Hlast in Hrecs.
  inversion Hrecs as [? o (ctx & w1 & _ & Hname & Hout) |]; subst.
  rewrite Hst in Hout. destruct Hout as (Hs & Hr & He & Ha).
  exists result, w', o. conjs; auto.
Qed.

(** X2. After [execute_pipeline] returned, the summary of its run lists the
    step results of the returned dictionary, whatever the history of the run
    was before; it counts the steps executed, one failed step when the
    pipeline has a step that the dispatch does not take and none otherwise,
    and it counts no failed step exactly when the returned status is
    SUCCESS. *)
Theorem summary_after_execute_pipeline
    (pipeline : OrchestrationPipeline) (run_id : N) (w : World) :
  exists result w',
    execute_pipeline pipeline run_id w = (Ok result, w') /\
    let s := get_run_summary run_id w' in
    sum_steps s = res_steps result /\
    sum_total_steps s = List.length (executed (pl_steps pipeline)) /\
    sum_failed_steps s = (if all_handled (pl_steps pipeline) then 0 else 1) /\
    sum_successful_steps s = sum_total_steps s - sum_failed_steps s /\
    (sum_failed_steps s = 0 <-> res_status result = "SUCCESS").
Proof.
  destruct (execute_pipeline_returns pipeline run_id w)
    as (result & w' & Hrun & Hrecs & Hhist & _ & _ & _ & Hcase).
  exists result, w'. split; [exact Hrun |].
  assert (get_step_history run_id w' = res_steps result) as Hget.
  { unfold get_step_history. now rewrite Hhist, lookup_insert_eq. }
  pose proof (recorded_status _ _ _ Hrecs) as Hst.
  pose proof (count_executed _ _ Hst) as Hfailed.
  assert (Forall status_closed (res_steps result)) as Hclosed.
  { clear -Hst. induction Hst as [|st o ? ? Ho _ IH]; constructor; [| exact IH].
    unfold status_closed. rewrite Ho. destruct (handled st); auto. }
  pose proof (count_closed _ Hclosed) as Hsum.
  cbn zeta. unfold get_run_summary.
  cbn [sum_steps sum_total_steps sum_failed_steps sum_successful_steps].
  rewrite Hget. conjs.
  - reflexivity.
  - symmetry. exact (Forall2_length _ _ _ Hrecs).
  - exact Hfailed.
  - lia.
  - rewrite Hfailed. destruct (all_handled (pl_steps pipeline)).
    + destruct Hcase as [-> _]. split; auto.
    + destruct Hcase as [-> _]. split; discriminate.
Qed.

(** X3. [execute_pipeline] writes the history and the row of its own run
    only: the history, the summary and the row of every other run, the
    projects and the context entries are as before; when the run has no row
    the run table is unchanged, and the steps are executed all the same. *)
Theorem execute_pipeline_touches_one_run
    (pipeline : OrchestrationPipeline) (run_id : N) (w : World) :
  exists result w',
    execute_pipeline pipeline run_id w = (Ok result, w') /\
    (forall j, j <> run_id ->
       w_step_history w' !! j = w_step_history w !! j /\
       get_run_summary j w' = get_run_summary j w /\
       runs (w_db w') !! j = runs (w_db w) !! j) /\
    projects (w_db w') = projects (w_db w) /\
    contexts (w_db w') = contexts (w_db w) /\
    (runs (w_db w) !! run_id = None ->
     runs (w_db w') = runs (w_db w) /\
     List.length (res_steps result) = List.length (executed (pl_steps pipeline))).
Proof.
  destruct (returns_and _ _ _ _ (execute_pipeline_returns pipeline run_id w)
                                (execute_pipeline_flow pipeline run_id w))
    as (result & w' & Hrun & (Hrecs & Hhist & _ & _ & Hwritten & _)
        & (_ & _ & Hp & Hc & _)).
  destruct Hwritten as (Hother & Hrow & _).
  exists result, w'. conjs; auto.
  - intros j Hj.
    assert (w_step_history w' !! j = w_step_history w !! j) as Hlook.
    { rewrite Hhist. apply lookup_insert_ne. congruence. }
    conjs; auto.
    unfold get_run_summary, get_step_history. now rewrite Hlook.
  - intros Hnone. rewrite Hnone in Hrow. split.
    + apply map_eq. intros j. destruct (decide (j = run_id)) as [-> | Hj].
      * now rewrite Hrow, Hnone.
      * now apply Hother.
    + symmetry. exact (Forall2_length _ _ _ Hrecs).
Qed.

(** X4. Every row of the artifact table after [execute_pipeline] was
    there before or is the row of an artifact of one of the step results
    that the call returns, stored under the run and the project of the
    call, with its name, its content and the path [/artifacts/] followed
    by its name; the column of the metadata is empty, so that the type of
    the artifact is not in the row.  The artifacts of the assembler are
    returned and not stored. *)
Theorem execute_pipeline_stores_step_artifacts
    (pipeline : OrchestrationPipeline) (run_id : N) (w : World) :
  exists result w',
    execute_pipeline pipeline run_id w = (Ok result, w') /\
    forall id row, artifacts (w_db w') !! id = Some row ->
      artifacts (w_db w) !! id = Some row \/
      exists o a,
        o ∈ res_steps result /\ so_status o = SUCCESS /\ a ∈ so_artifacts o /\
        ga_project_id row = Some (pl_project_id pipeline) /\
        ga_run_id row = Some run_id /\
        ga_name row = art_name a /\
        ga_path row = Some ("/artifacts/" +:+ art_name a) /\
        ga_content row = Some (art_content a) /\
        ga_metadata row = None.
Proof.
  destruct (returns_and _ _ _ _ (execute_pipeline_returns pipeline run_id w)
                                (execute_pipeline_flow pipeline run_id w))
    as (result & w' & Hrun & (Hrecs & _) & (_ & Hrows & _)).
  exists result, w'. split; [exact Hrun |].
  intros id row Hrow.
  destruct (Hrows id row Hrow) as [Hold | (o & a & t & Ho & Ha & ->)]; [now left |].
  right. exists o, a. conjs; auto.
  apply list_elem_of_lookup in Ho as [k Hk].
  destruct (Forall2_lookup_r _ _ _ _ _ Hrecs Hk)
    as (st & _ & ctx & w1 & _ & _ & Hout).
  destruct (handled st).
  - now destruct Hout as [-> _].
  - destruct Hout as (_ & _ & _ & Hnil). rewrite Hnil in Ha.
    now apply elem_of_nil in Ha.
Qed.

End RunReports.

(** ** The context that the steps build *)

Lemma dict_get_set_eq (k : string) (v dflt : PyVal) (d : Dict) :
  dict_get k dflt (dict_set k v d) = v.
Proof.
  induction d as [|[k' v'] d IH]; cbn.
  - now rewrite String.eqb_refl.
  - destruct (String.eqb k k') eqn:Hk; cbn; rewrite Hk; [reflexivity | exact IH].
Qed.

Lemma dict_get_set_ne (k k' : string) (v dflt : PyVal) (d : Dict) :
  k <> k' -> dict_get k dflt (dict_set k' v d) = dict_get k dflt d.
Proof.
  intros Hne. induction d as [|[k0 v0] d IH]; cbn.
  - apply String.eqb_neq in Hne. now rewrite Hne.
  - destruct (String.eqb k' k0) eqn:Hk0; cbn.
    + apply String.eqb_eq in Hk0 as <-.
      apply String.eqb_neq in Hne. now rewrite Hne.
    + destruct (String.eqb k k0); [reflexivity | exact IH].
Qed.

Lemma output_key_inj (i j : nat) : output_key i = output_key j -> i = j.
Proof.
  unfold output_key. intros Heq. apply str_app_inv_head in Heq.
  now apply (str_of_nat_sep "_") in Heq as [-> _].
Qed.

Lemma artifacts_key_inj (i j : nat) : artifacts_key i = artifacts_key j -> i = j.
Proof.
  unfold artifacts_key. intros Heq. apply str_app_inv_head in Heq.
  now apply (str_of_nat_sep "_") in Heq as [-> _].
Qed.

Lemma output_key_not_artifacts_key (i j : nat) : output_key i <> artifacts_key j.
Proof.
  unfold output_key, artifacts_key. intros Heq. apply str_app_inv_head in Heq.
  apply (str_of_nat_sep "_") in Heq as [_ Heq]; [discriminate | reflexivity].
Qed.

Lemma context_after_keeps (key : string) (dflt : PyVal) (outs : list StepOutput) :
  forall (i : nat) (ctx : Dict),
    (forall j, i <= j -> key <> output_key j /\ key <> artifacts_key j) ->
    dict_get key dflt (context_after i ctx outs) = dict_get key dflt ctx.
Proof.
  induction outs as [|o outs IH]; intros i ctx Hkey; cbn [context_after];
    [reflexivity |].
  rewrite IH by (intros j Hj; apply Hkey; lia).
  unfold next_context.
  destruct (Hkey i (Nat.le_refl i)) as [Hout Hart].
  now rewrite !dict_get_set_ne.
Qed.

Lemma context_after_lookup (dflt : PyVal) (outs : list StepOutput) :
  forall (i : nat) (ctx : Dict) (j : nat) (o : StepOutput),
    outs !! j = Some o ->
    dict_get (output_key (i + j)) dflt (context_after i ctx outs)
    = opt_str_val (so_result o) /\
    dict_get (artifacts_key (i + j)) dflt (context_after i ctx outs)
    = PyList (map artifact_dict (so_artifacts o)).
Proof.
  induction outs as [|o0 outs IH]; intros i ctx j o Hj; [discriminate |].
  cbn [context_after]. destruct j as [|j].
  - injection Hj as ->. rewrite Nat.add_0_r.
    rewrite !context_after_keeps.
    + unfold next_context. split.
      * rewrite dict_get_set_ne by apply output_key_not_artifacts_key.
        apply dict_get_set_eq.
      * apply dict_get_set_eq.
    + intros j Hj. split.
      * intros Heq. symmetry in Heq. now apply output_key_not_artifacts_key in Heq.
      * intros Heq%artifacts_key_inj. lia.
    + intros j Hj. split.
      * intros Heq%output_key_inj. lia.
      * apply output_key_not_artifacts_key.
  - replace (i + S j) with (S i + j) by lia. now apply IH.
Qed.

Section ContextFlow.
Context `{!PyBuiltins}.

Lemma run_chain_lookup (w0 : World) (steps : list StepInput) :
  forall (i : nat) (ctx : Dict) (outs : list StepOutput) (ctx' : Dict)
         (k : nat) (st : StepInput) (o : StepOutput),
    run_chain w0 i ctx steps outs ctx' ->
    steps !! k = Some st -> outs !! k = Some o ->
    exists w, w_hf_manager w = w_hf_manager w0 /\
              step_outcome w st (context_after i ctx (take k outs)) o.
Proof.
  induction steps as [|st0 rest IH]; intros i ctx [|o0 outs] ctx' k st o Hchain Hst Ho;
    try discriminate.
  cbn [run_chain] in Hchain. destruct Hchain as [Hhead Hrest].
  destruct k as [|k].
  - injection Hst as <-. injection Ho as <-. exact Hhead.
  - cbn in Hst, Ho. cbn [take context_after].
    destruct (handled st0).
    + exact (IH _ _ _ _ _ _ _ Hrest Hst Ho).
    + destruct Hrest as [-> _]. discriminate.
Qed.

(** X5. In a call of [execute_pipeline], the step at position [k] runs in
    the context that the results before it have built from the global
    context of the pipeline: under the key [step_{j}_output] it finds the
    result text of the step at position [j] and under [step_{j}_artifacts]
    the artifacts of that step, for every [j] below [k]; every key that is
    not of one of these two forms has the value that the global context
    gives it. *)
Theorem execute_pipeline_context_flow
    (pipeline : OrchestrationPipeline) (run_id : N) (w : World) :
  exists result w',
    execute_pipeline pipeline run_id w = (Ok result, w') /\
    forall k st o,
      pl_steps pipeline !! k = Some st ->
      res_steps result !! k = Some o ->
      let ctx := context_after 0 (pl_global_context pipeline)
                               (take k (res_steps result)) in
      (exists wk, w_hf_manager wk = w_hf_manager w /\ step_outcome wk st ctx o) /\
      (forall j oj, j < k -> res_steps result !! j = Some oj ->
         dict_get (output_key j) PyNone ctx = opt_str_val (so_result oj) /\
         dict_get (artifacts_key j) PyNone ctx
         = PyList (map artifact_dict (so_artifacts oj))) /\
      (forall key dflt,
         (forall j, key <> output_key j /\ key <> artifacts_key j) ->
         dict_get key dflt ctx = dict_get key dflt (pl_global_context pipeline)).
Proof.
  destruct (execute_pipeline_flow pipeline run_id w)
    as (result & w' & Hrun & (ctx' & Hchain) & _).
  exists result, w'. split; [exact Hrun |].
  intros k st o Hst Ho. cbn zeta. conjs.
  - exact (run_chain_lookup _ _ _ _ _ _ _ _ _ Hchain Hst Ho).
  - intros j oj Hj Hoj.
    apply (context_after_lookup PyNone (take k (res_steps result)) 0
             (pl_global_context pipeline) j oj).
    now rewrite lookup_take_lt.
  - intros key dflt Hkey. apply context_after_keeps. intros j _. apply Hkey.
Qed.

End ContextFlow.

(** ** The artifacts of one extraction *)





Lemma kind_names_lookup (label type infix ext : string) (bodies : list string)
    (i : nat) (x : string) :
  map art_name (kind_artifacts label type infix ext bodies) !! i = Some x ->
  x = label +:+ infix +:+ str_of_nat i +:+ ext.
Proof.
  unfold kind_artifacts. rewrite list_lookup_fmap, list_lookup_imap.
  destruct (bodies !! i); [| discriminate]. now intros [= <-].
Qed.

(** The names of one kind are pairwise distinct. *)
Lemma kind_names_NoDup (label type infix : string) (ext : string)
    (bodies : list string) :
  NoDup (map art_name (kind_artifacts label type infix (String "." ext) bodies)).
Proof.
  apply NoDup_alt. intros i j x Hi Hj.
  apply kind_names_lookup in Hi, Hj. rewrite Hi in Hj.
  do 2 apply str_app_inv_head in Hj.
  now apply (str_of_nat_sep ".") in Hj as [-> _].
Qed.

(** The names of two kinds with different name parts differ. *)
Lemma kind_names_disjoint (label t1 t2 f1 f2 e1 e2 : string)
    (b1 b2 : list string) (x : string) :
  (forall u v, f1 +:+ u <> f2 +:+ v) \/ (f1 = f2 /\ e1 <> e2) ->
  x ∈ map art_name (kind_artifacts label t1 f1 (String "." e1) b1) ->
  x ∉ map art_name (kind_artifacts label t2 f2 (String "." e2) b2).
Proof.
  intros Hdiff [i Hi]%list_elem_of_lookup [j Hj]%list_elem_of_lookup.
  apply kind_names_lookup in Hi, Hj. rewrite Hi in Hj.
  apply str_app_inv_head in Hj.
  destruct Hdiff as [Hf | [-> He]].
  - exact (Hf _ _ Hj).
  - apply str_app_inv_head in Hj.
    apply (str_of_nat_sep ".") in Hj as [_ Hj]; [congruence | reflexivity].
Qed.

Lemma _extract_artifacts_kinds (label text : string) :
  _extract_artifacts label text
  = kind_artifacts label "jsx" "_component_" ".jsx" (re_findall_fenced "jsx" text)
    ++ kind_artifacts label "tsx" "_component_" ".tsx" (re_findall_fenced "tsx" text)
    ++ kind_artifacts label "css" "_styles_" ".css" (re_findall_fenced "css" text)
    ++ kind_artifacts label "python" "_script_" ".py" (re_findall_fenced "python" text).
Proof.
  unfold _extract_artifacts. rewrite !append_blocks_spec.
  rewrite app_nil_l, <- !app_assoc. reflexivity.
Qed.

(** X6. The artifacts that [_extract_artifacts] returns for one text have
    pairwise distinct names. *)
Theorem extract_artifacts_names_distinct (label text : string) :
  NoDup (map art_name (_extract_artifacts label text)).
Proof.
  rewrite _extract_artifacts_kinds, !map_app.
  assert (forall u v : string, "_component_" +:+ u <> "_styles_" +:+ v) as Hcs
    by (intros u v; rewrite !str_app_cons; discriminate).
  assert (forall u v : string, "_component_" +:+ u <> "_script_" +:+ v) as Hcp
    by (intros u v; rewrite !str_app_cons; discriminate).
  assert (forall u v : string, "_styles_" +:+ u <> "_script_" +:+ v) as Hsp
    by (intros u v; rewrite !str_app_cons; discriminate).
  repeat (apply NoDup_app; split; [apply kind_names_NoDup | split]);
    try apply kind_names_NoDup;
    intros x Hx; rewrite ?not_elem_of_app; conjs;
    (eapply kind_names_disjoint; [| exact Hx]); auto.
Qed.


(** ** The orchestrator over [HFModelManager] *)

(** The keywords of the orchestrator leave [model_key] without a value. *)
Lemma HFModelManager_generate_raises (loaded : list string)
    (infer : nat -> string -> string -> PyVal -> Dict -> Res string)
    (n : nat) (req : GenRequest) :
  exists e, HFModelManager_generate loaded infer n req = Raise e /\
            exc_class e = "TypeError".
Proof.
  unfold HFModelManager_generate, bind_keywords. cbn.
  eexists. split; reflexivity.
Qed.

Section OverHFModelManager.
Context `{!PyBuiltins}.

(** X8. [HFModelManager.generate] takes the model as [model_key] and the
    length as [max_new_tokens]; the orchestrator passes [model_name] and
    [max_tokens], so every call raises [TypeError] before a model is looked
    up.  A service constructed with such a manager therefore gives every
    step that a handler takes the placeholder text of the handler, and a
    run whose steps are all taken ends with the status SUCCESS, an empty
    assembled code and no final artifact. *)
Theorem orchestrator_never_reaches_hf_model
    (loaded : list string)
    (infer : nat -> string -> string -> PyVal -> Dict -> Res string)
    (pipeline : OrchestrationPipeline) (run_id : N) (w : World) :
  w_hf_manager w = Some (HFModelManager_generate loaded infer) ->
  (forall n req, exists e,
     HFModelManager_generate loaded infer n req = Raise e /\
     exc_class e = "TypeError") /\
  exists result w',
    execute_pipeline pipeline run_id w = (Ok result, w') /\
    (forall k st o,
       pl_steps pipeline !! k = Some st ->
       res_steps result !! k = Some o ->
       handled st = true ->
       so_status o = SUCCESS /\
       so_result o
       = Some (placeholder st
                 (_inject_context (prompt st)
                    (context_after 0 (pl_global_context pipeline)
                                   (take k (res_steps result)))))) /\
    (all_handled (pl_steps pipeline) = true ->
     res_status result = "SUCCESS" /\
     res_assembled_code result = Some EmptyString /\
     res_final_artifacts result = []).
Proof.
  intros Hhf. split; [apply HFModelManager_generate_raises |].
  destruct (returns_and _ _ _ _ (execute_pipeline_returns pipeline run_id w)
                                (execute_pipeline_flow pipeline run_id w))
    as (result & w' & Hrun & (_ & _ & _ & _ & _ & Hcase) & ((ctx' & Hchain) & _)).
  exists result, w'. conjs.
  - exact Hrun.
  - intros k st o Hst Ho Hhandled.
    destruct (run_chain_lookup _ _ _ _ _ _ _ _ _ Hchain Hst Ho)
      as (wk & Hwk & _ & Hout).
    rewrite Hhandled in Hout. destruct Hout as (Hstatus & _ & Hresult & _).
    split; [exact Hstatus |]. rewrite Hresult. f_equal.
    unfold step_text, backend_answer. rewrite Hwk, Hhf.
    destruct (HFModelManager_generate_raises loaded infer (w_hf_calls wk)
                (handler_request st
                   (_inject_context (prompt st)
                      (context_after 0 (pl_global_context pipeline)
                                     (take k (res_steps result))))))
      as (e & -> & _).
    reflexivity.
  - intros Hall. rewrite Hall in Hcase.
    destruct Hcase as (Hstatus & _ & _ & a & wa & Hwa & Hasm & Hfin & Hcode).
    unfold assembler_outcome in Hasm. rewrite Hwa, Hhf in Hasm.
    destruct (HFModelManager_generate_raises loaded infer (w_hf_calls wa)
                (assembler_request (res_steps result))) as (e & He & _).
    rewrite He in Hasm. subst a. auto.
Qed.

End OverHFModelManager.

(** ** The routes of the orchestrator *)

Lemma ModelType_of_value_Ok (v : string) :
  v ∈ ["CodeLlama"; "CodeGemma"; "T5Gemma"; "Assembler"] ->
  exists m, ModelType_of_value v = Ok m /\ ModelType_value m = v.
Proof.
  rewrite !elem_of_cons, elem_of_nil.
  intros [-> | [-> | [-> | [-> | []]]]]; eexists; split; reflexivity.
Qed.

Lemma ModelType_of_value_Raise (v : string) :
  v ∉ ["CodeLlama"; "CodeGemma"; "T5Gemma"; "Assembler"] ->
  ModelType_of_value v
  = Raise (mkExc "ValueError" ("'" +:+ v +:+ "' is not a valid ModelType")).
Proof.
  rewrite !not_elem_of_cons. intros (H1 & H2 & H3 & H4 & _).
  unfold ModelType_of_value.
  apply String.eqb_neq in H1, H2, H3, H4. now rewrite H1, H2, H3, H4.
Qed.

Section Routes.
Context `{!PyBuiltins}.

(** What the list comprehension of the route makes of a step of the
    request. *)
Lemma convert_steps_valid (steps : list StepInputSchema) (w : World) :
  Forall (fun s => sis_model_type s ∈ ["CodeLlama"; "CodeGemma"; "T5Gemma"; "Assembler"])
         steps ->
  exists converted,
    convert_steps steps w = (Ok converted, w) /\
    Forall2 (fun s st =>
               step_name st = sis_step_name s /\
               ModelRef_value (model_type st) = sis_model_type s /\
               prompt st = sis_prompt s)
            steps converted.
Proof.
  induction 1 as [|s steps Hs _ (converted & Hconv & Hrel)]; cbn [convert_steps].
  - eexists. split; [reflexivity | constructor].
  - destruct (ModelType_of_value_Ok _ Hs) as (m & Hm & Hv).
    unfold bind, ret. rewrite Hm, Hconv.
    eexists. split; [reflexivity |]. constructor; [| exact Hrel].
    cbn. auto.
Qed.

Lemma convert_steps_invalid (steps : list StepInputSchema) (w : World) :
  Exists (fun s => sis_model_type s ∉ ["CodeLlama"; "CodeGemma"; "T5Gemma"; "Assembler"])
         steps ->
  exists e, convert_steps steps w = (Raise e, w) /\ exc_class e = "ValueError".
Proof.
  induction 1 as [s steps Hs | s steps _ (e & Hconv & He)]; cbn [convert_steps].
  - unfold bind, raise. rewrite (ModelType_of_value_Raise _ Hs).
    eexists. split; reflexivity.
  - unfold bind, ret, raise.
    destruct (ModelType_of_value (sis_model_type s)) as [m | e0] eqn:Hm.
    + rewrite Hconv. eexists. split; [reflexivity | exact He].
    + eexists. split; [reflexivity |].
      unfold ModelType_of_value in Hm.
      repeat match type of Hm with
             | (if ?b then _ else _) = _ => destruct b; try discriminate
             end.
      now injection Hm as <-.
Qed.

(** Up to the conversion of the steps, the route checks the project and
    creates the row of the run. *)
Lemma route_execute_pipeline_prefix {A} (respond : PipelineResult -> Res A)
    (project_id : N) (pipeline : PipelineCreateSchema) (w : World) (p : Project) :
  db_available w ->
  projects (w_db w) !! project_id = Some p ->
  route_execute_pipeline respond project_id pipeline w
  = (steps <- convert_steps (pcs_steps pipeline) ;;
     try_except
       (result <- execute_pipeline
                    (mkPipeline project_id (pcs_name pipeline) steps
                       (default [] (pcs_global_context pipeline))
                       (default [] (pcs_metadata pipeline)))
                    (w_next_uuid w) ;;
        match respond result with
        | Ok response => ret response
        | Raise e => raise e
        end)
       (fun e => raise (http_exception 500
                          ("Pipeline execution failed: " +:+ exc_str e))))
    (route_world project_id pipeline w).
Proof.
  intros Hav Hp.
  unfold route_execute_pipeline, new_orchestrator_service, get_project,
    commit_run.
  unfold bind at 1 2 3. unfold modify at 1, db_statement at 1, gets at 1.
  cbn -[execute_pipeline convert_steps steps_map]. rewrite Hav.
  cbn -[execute_pipeline convert_steps steps_map]. rewrite Hp.
  unfold bind at 1 2 3 4. unfold uuid4, db_statement, modify, set_db.
  repeat (cbn -[execute_pipeline convert_steps steps_map]; rewrite ?Hav).
  reflexivity.
Qed.

(** X9. A request for a project that does not exist is answered with the
    HTTP error 404: no run is created and nothing is executed. *)
Theorem route_execute_pipeline_unknown_project {A}
    (respond : PipelineResult -> Res A)
    (project_id : N) (pipeline : PipelineCreateSchema) (w : World) :
  w_db_fault w (w_db_ops w) = false ->
  projects (w_db w) !! project_id = None ->
  exists w',
    route_execute_pipeline respond project_id pipeline w
    = (Raise (http_exception 404 "Project not found"), w') /\
    w_db w' = w_db w /\ w_trace w' = w_trace w.
Proof.
  intros Hok Hp.
  unfold route_execute_pipeline, new_orchestrator_service, get_project.
  unfold bind, modify, db_statement, gets, raise.
  cbn. rewrite Hok. cbn. rewrite Hp.
  eexists. conjs; reflexivity.
Qed.

(** X10. When a step of the request names a model that is no value of
    [ModelType], the route raises the [ValueError] of the enumeration, which
    its [try] does not enclose: by then the row of the run is created, and
    it stays with the status PENDING and without a finish time; no step is
    executed. *)
Theorem route_execute_pipeline_invalid_model {A}
    (respond : PipelineResult -> Res A)
    (project_id : N) (pipeline : PipelineCreateSchema) (w : World) (p : Project) :
  db_available w ->
  projects (w_db w) !! project_id = Some p ->
  Exists (fun s => sis_model_type s ∉ ["CodeLlama"; "CodeGemma"; "T5Gemma"; "Assembler"])
         (pcs_steps pipeline) ->
  exists e w',
    route_execute_pipeline respond project_id pipeline w = (Raise e, w') /\
    exc_class e = "ValueError" /\
    runs (w_db w') !! w_next_uuid w
    = Some (mkRun (Some project_id) (Some "PENDING")
                  (Some (steps_map (pcs_steps pipeline))) None None) /\
    (forall j, j <> w_next_uuid w -> runs (w_db w') !! j = runs (w_db w) !! j) /\
    artifacts (w_db w') = artifacts (w_db w) /\
    w_trace w' = w_trace w.
Proof.
  intros Hav Hp Hbad.
  rewrite (route_execute_pipeline_prefix respond _ _ _ p Hav Hp).
  destruct (convert_steps_invalid _ (route_world project_id pipeline w) Hbad)
    as (e & Hconv & He).
  unfold bind at 1. rewrite Hconv.
  exists e, (route_world project_id pipeline w). conjs; try reflexivity.
  - exact He.
  - cbn. apply lookup_insert_eq.
  - intros j Hj. cbn. now apply lookup_insert_ne.
Qed.

End Routes.

Section RouteRuns.
Context `{!PyBuiltins}.

Lemma converted_all_handled (steps : list StepInputSchema) (converted : list StepInput) :
  Forall2 (fun s st =>
             step_name st = sis_step_name s /\
             ModelRef_value (model_type st) = sis_model_type s /\
             prompt st = sis_prompt s)
          steps converted ->
  Forall (fun s => sis_model_type s ∈ ["CodeLlama"; "CodeGemma"; "T5Gemma"; "Assembler"])
         steps ->
  all_handled converted
  = forallb (fun s => negb (String.eqb (sis_model_type s) "Assembler")) steps.
Proof.
  unfold all_handled.
  induction 1 as [|s st steps converted (_ & Hv & _) _ IH]; [reflexivity |].
  intros [Hs Hrest]%Forall_cons. cbn [forallb]. rewrite (IH Hrest). f_equal.
  unfold handled, model_is. rewrite Hv. cbn [ModelType_value].
  revert Hs. rewrite !elem_of_cons, elem_of_nil.
  intros [-> | [-> | [-> | [-> | []]]]]; reflexivity.
Qed.

(** X11. For a project that exists and steps that name values of
    [ModelType], the route runs the pipeline in a service that has no
    backend: every step result tagged SUCCESS carries a placeholder text.
    The run ends FAILED when some step names [Assembler], which no handler
    takes, and SUCCESS otherwise; the row of the run carries that status
    and a finish time, also when the construction of the response raises
    and the route answers with the HTTP error 500, which is the only way it
    does. *)
Theorem route_execute_pipeline_runs_without_backend {A}
    (respond : PipelineResult -> Res A)
    (project_id : N) (pipeline : PipelineCreateSchema) (w : World) (p : Project) :
  db_available w ->
  projects (w_db w) !! project_id = Some p ->
  Forall (fun s => sis_model_type s ∈ ["CodeLlama"; "CodeGemma"; "T5Gemma"; "Assembler"])
         (pcs_steps pipeline) ->
  let final :=
    if forallb (fun s => negb (String.eqb (sis_model_type s) "Assembler"))
               (pcs_steps pipeline)
    then "SUCCESS" else "FAILED" in
  exists result w' t,
    route_execute_pipeline respond project_id pipeline w
    = (match respond result with
       | Ok response => Ok response
       | Raise e => Raise (http_exception 500
                             ("Pipeline execution failed: " +:+ exc_str e))
       end, w') /\
    res_status result = final /\
    Forall (fun o => so_status o = SUCCESS ->
                     exists text, so_result o = Some text /\
                                  contains "Placeholder response to:" text)
           (res_steps result) /\
    runs (w_db w') !! w_next_uuid w
    = Some (mkRun (Some project_id) (Some final)
                  (Some (steps_map (pcs_steps pipeline))) None (Some t)).
Proof.
  intros Hav Hp Hvalid final.
  rewrite (route_execute_pipeline_prefix respond _ _ _ p Hav Hp).
  destruct (convert_steps_valid _ (route_world project_id pipeline w) Hvalid)
    as (converted & Hconv & Hrel).
  unfold bind at 1. rewrite Hconv.
  set (w1 := route_world project_id pipeline w).
  set (pl := mkPipeline project_id (pcs_name pipeline) converted
               (default [] (pcs_global_context pipeline))
               (default [] (pcs_metadata pipeline))).
  destruct (execute_pipeline_returns pl (w_next_uuid w) w1)
    as (result & w' & Hrun & Hrecs & _ & _ & _ & Hwritten & Hcase).
  cbn [pl_steps pl] in Hrecs, Hwritten, Hcase.
  rewrite (converted_all_handled _ _ Hrel Hvalid) in Hwritten, Hcase.
  fold final in Hwritten.
  destruct Hwritten as (_ & _ & Hrow).
  destruct (Hrow Hav (mkRun (Some project_id) (Some "PENDING")
                            (Some (steps_map (pcs_steps pipeline))) None None))
    as [t Ht].
  { cbn. apply lookup_insert_eq. }
  exists result, w', t. conjs.
  - unfold try_except, bind. rewrite Hrun.
    destruct (respond result); reflexivity.
  - subst final.
    destruct (forallb _ (pcs_steps pipeline)); now destruct Hcase as [-> _].
  - clear -Hrecs. apply Forall2_Forall_r with (1 := Hrecs).
    apply Forall_forall. intros st _ o (ctx & w2 & Hw2 & _ & Hout) Hstatus.
    destruct (handled st).
    + destruct Hout as (_ & _ & Hres & _).
      eexists. split; [exact Hres |].
      unfold step_text, backend_answer. rewrite Hw2. cbn.
      apply placeholder_contains.
    + destruct Hout as (Hfailed & _). congruence.
  - rewrite Ht. subst final.
    destruct (forallb _ (pcs_steps pipeline)); reflexivity.
Qed.

(** X12. The route of the summary answers with the HTTP error 404 for a
    run that has no row; for a run that has one it reports no step at all,
    whatever was executed for the run before: the history is kept by the
    service object, and every request gets a new one. *)
Theorem route_get_run_summary_reports_no_step (run_id : N) (w : World) :
  w_db_fault w (w_db_ops w) = false ->
  exists w',
    route_get_run_summary run_id w
    = (match runs (w_db w) !! run_id with
       | Some _ => Ok (mkRunSummary run_id 0 0 0 0 [])
       | None => Raise (http_exception 404 "Orchestration run not found")
       end, w') /\
    w_db w' = w_db w.
Proof.
  intros Hok.
  unfold route_get_run_summary, new_orchestrator_service, select_run_first.
  unfold bind, modify, db_statement, gets, raise.
  cbn. rewrite Hok. cbn.
  destruct (runs (w_db w) !! run_id); eexists; split; reflexivity.
Qed.

End RouteRuns.

(** ** The rows of the project service *)

(** Runs a service method whose statements the database accepts. *)
Ltac run_statements Hav :=
  unfold bind, db_statement, gets, modify, ret, uuid4, now, set_db;
  repeat (cbn; rewrite ?Hav).

(** X13. [delete_project] and [delete_run] remove no row in any state of
    the service and never return [True]: for a row that exists they stop at
    the first cascade statement, for one that does not they return
    [False]. *)
Theorem delete_with_cascade_never_deletes (w : World) :
  (forall project_id, exists r w',
     delete_project project_id w = (r, w') /\ r <> Ok true /\ w_db w' = w_db w) /\
  (forall run_id, exists r w',
     delete_run run_id w = (r, w') /\ r <> Ok true /\ w_db w' = w_db w).
Proof.
  split.
  - intros project_id.
    unfold delete_project, get_project, exec_then_delete, ScalarResult_getattr.
    unfold bind, db_statement, gets, ret, raise. cbn.
    destruct (w_db_fault w (w_db_ops w)); cbn.
    { eexists _, _. conjs; [reflexivity | discriminate | reflexivity]. }
    destruct (projects (w_db w) !! project_id); cbn.
    2: { eexists _, _. conjs; [reflexivity | discriminate | reflexivity]. }
    destruct (w_db_fault w (S (w_db_ops w))); cbn;
      eexists _, _; (conjs; [reflexivity | discriminate | reflexivity]).
  - intros run_id.
    unfold delete_run, get_run, select_run_first, exec_then_delete,
      ScalarResult_getattr.
    unfold bind, db_statement, gets, ret, raise. cbn.
    destruct (w_db_fault w (w_db_ops w)); cbn.
    { eexists _, _. conjs; [reflexivity | discriminate | reflexivity]. }
    destruct (runs (w_db w) !! run_id); cbn.
    2: { eexists _, _. conjs; [reflexivity | discriminate | reflexivity]. }
    destruct (w_db_fault w (S (w_db_ops w))); cbn;
      eexists _, _; (conjs; [reflexivity | discriminate | reflexivity]).
Qed.

(** X14. [delete_context] and [delete_artifact] remove the row of the
    given id and no other row of any table; they return whether there was
    such a row, and a lookup of the id afterwards finds nothing. *)
Theorem delete_row_removes_exactly_it (w : World) :
  db_available w ->
  (forall context_id, exists w' w'',
     delete_context context_id w
     = (Ok (bool_decide (is_Some (contexts (w_db w) !! context_id))), w') /\
     contexts (w_db w') = delete context_id (contexts (w_db w)) /\
     projects (w_db w') = projects (w_db w) /\
     runs (w_db w') = runs (w_db w) /\
     artifacts (w_db w') = artifacts (w_db w) /\
     get_context context_id w' = (Ok None, w'')) /\
  (forall artifact_id, exists w' w'',
     delete_artifact artifact_id w
     = (Ok (bool_decide (is_Some (artifacts (w_db w) !! artifact_id))), w') /\
     artifacts (w_db w') = delete artifact_id (artifacts (w_db w)) /\
     projects (w_db w') = projects (w_db w) /\
     contexts (w_db w') = contexts (w_db w) /\
     runs (w_db w') = runs (w_db w) /\
     get_artifact artifact_id w' = (Ok None, w'')).
Proof.
  intros Hav. split.
  - intros context_id.
    unfold delete_context, get_context, delete_and_commit.
    destruct (contexts (w_db w) !! context_id) as [c|] eqn:Hc.
    + run_statements Hav. rewrite Hc. run_statements Hav.
      eexists _, _. split; [reflexivity |]. run_statements Hav.
      rewrite lookup_delete_eq. conjs; reflexivity.
    + run_statements Hav. rewrite Hc. run_statements Hav.
      eexists _, _. split; [reflexivity |]. run_statements Hav.
      rewrite Hc. conjs; try reflexivity.
      symmetry. now apply delete_id.
  - intros artifact_id.
    unfold delete_artifact, get_artifact, delete_and_commit.
    destruct (artifacts (w_db w) !! artifact_id) as [a|] eqn:Ha.
    + run_statements Hav. rewrite Ha. run_statements Hav.
      eexists _, _. split; [reflexivity |]. run_statements Hav.
      rewrite lookup_delete_eq. conjs; reflexivity.
    + run_statements Hav. rewrite Ha. run_statements Hav.
      eexists _, _. split; [reflexivity |]. run_statements Hav.
      rewrite Ha. conjs; try reflexivity.
      symmetry. now apply delete_id.
Qed.

(** X15. With the database available, each of the four [create_] methods
    stores one row under a new id and returns it; the row has the fields
    that the method was given, except the metadata: whatever is passed for
    it to [create_project] and [create_artifact], the column of the row is
    empty.  The row of every other id is as before, and the [get_] method
    of the table finds the row under the id returned. *)
Theorem create_then_get (w : World) :
  db_available w ->
  (forall name description metadata owner_id, exists p w1 w2,
     create_project name description metadata owner_id w
     = (Ok (w_next_uuid w, p), w1) /\
     get_project (w_next_uuid w) w1 = (Ok (Some p), w2) /\
     p_name p = name /\ p_description p = description /\
     p_metadata p = None /\ p_owner_id p = owner_id /\
     forall j, j <> w_next_uuid w ->
               projects (w_db w1) !! j = projects (w_db w) !! j) /\
  (forall project_id key value, exists c w1 w2,
     create_context project_id key value w = (Ok (w_next_uuid w, c), w1) /\
     get_context (w_next_uuid w) w1 = (Ok (Some c), w2) /\
     c_project_id c = project_id /\ c_key c = key /\ c_value c = value /\
     forall j, j <> w_next_uuid w ->
               contexts (w_db w1) !! j = contexts (w_db w) !! j) /\
  (forall project_id status steps, exists r w1 w2,
     create_run project_id status steps w = (Ok (w_next_uuid w, r), w1) /\
     get_run (w_next_uuid w) w1 = (Ok (Some r), w2) /\
     r_project_id r = Some project_id /\ r_status r = Some status /\
     r_steps r = steps /\
     forall j, j <> w_next_uuid w ->
               runs (w_db w1) !! j = runs (w_db w) !! j) /\
  (forall project_id name path content metadata run_id, exists a w1 w2,
     create_artifact project_id name path content metadata run_id w
     = (Ok (w_next_uuid w, a), w1) /\
     get_artifact (w_next_uuid w) w1 = (Ok (Some a), w2) /\
     ga_project_id a = Some project_id /\ ga_run_id a = run_id /\
     ga_name a = name /\ ga_path a = path /\ ga_content a = content /\
     ga_metadata a = None /\
     forall j, j <> w_next_uuid w ->
               artifacts (w_db w1) !! j = artifacts (w_db w) !! j).
Proof.
  intros Hav. conjs.
  - intros name description metadata owner_id.
    unfold create_project, get_project, commit_project. run_statements Hav.
    eexists _, _, _. split; [reflexivity |]. run_statements Hav.
    rewrite lookup_insert_eq. conjs; try reflexivity.
    intros j Hj. now apply lookup_insert_ne.
  - intros project_id key value.
    unfold create_context, get_context, commit_context. run_statements Hav.
    eexists _, _, _. split; [reflexivity |]. run_statements Hav.
    rewrite lookup_insert_eq. conjs; try reflexivity.
    intros j Hj. now apply lookup_insert_ne.
  - intros project_id status steps.
    unfold create_run, get_run, select_run_first, commit_run.
    destruct (String.eqb status "RUNNING"); run_statements Hav;
      eexists _, _, _; (split; [reflexivity |]); run_statements Hav;
      rewrite lookup_insert_eq; conjs; try reflexivity;
      intros j Hj; now apply lookup_insert_ne.
  - intros project_id name path content metadata run_id.
    unfold create_artifact, get_artifact, commit_artifact. run_statements Hav.
    eexists _, _, _. split; [reflexivity |]. run_statements Hav.
    rewrite lookup_insert_eq. conjs; try reflexivity.
    intros j Hj. now apply lookup_insert_ne.
Qed.

(** X16. [create_run] sets the start time exactly for the status RUNNING
    and never a finish time: a run created with the status SUCCESS or
    FAILED breaks the rule that the finish time is set exactly on these two
    statuses. *)
Theorem create_run_sets_no_finish_time
    (project_id : N) (status : string) (steps : option Dict) (w : World) :
  db_available w ->
  exists r w',
    create_run project_id status steps w = (Ok (w_next_uuid w, r), w') /\
    runs (w_db w') !! w_next_uuid w = Some r /\
    (is_Some (r_started_at r) <-> status = "RUNNING") /\
    r_finished_at r = None /\
    (status = "SUCCESS" \/ status = "FAILED" -> ~ finished_iff_terminal r).
Proof.
  intros Hav. unfold create_run, commit_run.
  destruct (String.eqb_spec status "RUNNING") as [-> | Hne]; run_statements Hav;
    eexists _, _; (split; [reflexivity |]); cbn; rewrite lookup_insert_eq;
    conjs; try reflexivity.
  - split; [reflexivity | intros _; eexists; reflexivity].
  - intros [[=] | [=]].
  - split; [intros [t [=]] | intros Heq; contradiction].
  - intros Hterminal Hinv. unfold finished_iff_terminal in Hinv. cbn in Hinv.
    assert (is_Some (@None nat)) as [t [=]].
    apply Hinv. destruct Hterminal as [-> | ->]; auto.
Qed.


(** X18. A status update for a run that has no row changes no table and
    raises nothing: [update_run_status] returns [None], and [_update_run]
    of the orchestrator returns as after a write. *)
Theorem update_of_missing_run_changes_nothing
    (run_id : N) (status : string) (finished : bool) (w : World) :
  runs (w_db w) !! run_id = None ->
  w_db_fault w (w_db_ops w) = false ->
  (exists w', update_run_status run_id status finished w = (Ok None, w') /\
              w_db w' = w_db w) /\
  (exists w', _update_run run_id status w = (Ok tt, w') /\ w_db w' = w_db w).
Proof.
  intros Hnone Hok. split.
  - unfold update_run_status, get_run, select_run_first.
    unfold bind, db_statement, gets, ret. cbn. rewrite Hok. cbn. rewrite Hnone.
    eexists. split; reflexivity.
  - destruct (_update_run_keeps_tables run_id status w)
      as ([] & w' & Hrun & _ & _ & _ & Hdb).
    exists w'. split; [exact Hrun | exact (Hdb Hnone)].
Qed.

(** ** The pages of the list methods *)



(** ** The artifacts that a run stores *)

Lemma _save_artifact_stores (run_id project_id : N) (a : Artifact) (w : World) :
  db_available w ->
  returns (_save_artifact run_id project_id a) w (fun _ w' =>
    w_db_fault w' = w_db_fault w /\
    w_next_uuid w' = N.succ (w_next_uuid w) /\
    artifacts (w_db w')
    = <[w_next_uuid w := artifact_row run_id project_id a (w_clock w)]>
        (artifacts (w_db w))).
Proof.
  intros Hav. unfold returns, _save_artifact, commit_artifact.
  unfold try_except, bind, db_statement, modify, ret, uuid4, now.
  cbn. rewrite Hav. cbn. eexists _, _. split; [reflexivity |]. cbn. auto.
Qed.

Lemma save_artifacts_stores (run_id project_id : N) (arts : list Artifact) :
  forall w : World,
    db_available w ->
    returns (for_each arts (_save_artifact run_id project_id)) w (fun _ w' =>
      w_db_fault w' = w_db_fault w /\
      (w_next_uuid w <= w_next_uuid w')%N /\
      (forall id, (id < w_next_uuid w)%N ->
                  artifacts (w_db w') !! id = artifacts (w_db w) !! id) /\
      forall a, a ∈ arts ->
        exists id t, (w_next_uuid w <= id < w_next_uuid w')%N /\
                     artifacts (w_db w') !! id
                     = Some (artifact_row run_id project_id a t)).
Proof.
  induction arts as [|a arts IH]; intros w Hav; simpl.
  - apply returns_ret. conjs; try reflexivity.
    intros a Ha. now apply elem_of_nil in Ha.
  - apply returns_bind.
    eapply returns_mono; [apply _save_artifact_stores, Hav |].
    intros _ w1 (Hfa1 & Hid1 & Hrows1). cbn beta.
    assert (db_available w1) as Hav1 by (intros n; rewrite Hfa1; apply Hav).
    eapply returns_mono; [apply IH, Hav1 |].
    intros _ w2 (Hfa2 & Hid2 & Hold2 & Hnew2). cbn beta.
    conjs.
    + congruence.
    + lia.
    + intros id Hid. rewrite Hold2 by lia. rewrite Hrows1.
      apply lookup_insert_ne. lia.
    + intros a' [-> | Ha']%elem_of_cons.
      * exists (w_next_uuid w), (w_clock w). split; [lia |].
        rewrite Hold2 by lia. rewrite Hrows1. apply lookup_insert_eq.
      * destruct (Hnew2 a' Ha') as (id & t & Hid & Hrow).
        exists id, t. split; [lia | exact Hrow].
Qed.

Lemma keeps_ids_ret {A} (a : A) : keeps_ids (ret a).
Proof. intros w. reflexivity. Qed.

Lemma keeps_ids_raise {A} (e : PyExc) : keeps_ids (@raise World A e).
Proof. intros w. reflexivity. Qed.

Lemma keeps_ids_gets {A} (f : World -> A) : keeps_ids (gets f).
Proof. intros w. reflexivity. Qed.

Lemma keeps_ids_modify (f : World -> World) :
  (forall w, w_next_uuid (f w) = w_next_uuid w) -> keeps_ids (modify f).
Proof. intros Hf w. apply Hf. Qed.

Lemma keeps_ids_now : keeps_ids now.
Proof. intros w. reflexivity. Qed.

Lemma keeps_ids_db_statement : keeps_ids db_statement.
Proof. intros w. unfold db_statement. now destruct (w_db_fault w (w_db_ops w)). Qed.

Lemma keeps_ids_hf_generate (g : HFManager) (req : GenRequest) :
  keeps_ids (hf_generate g req).
Proof. intros w. reflexivity. Qed.

Lemma keeps_ids_bind {A B} (m : M World A) (k : A -> M World B) :
  keeps_ids m -> (forall a, keeps_ids (k a)) -> keeps_ids (bind m k).
Proof.
  intros Hm Hk w. unfold bind. specialize (Hm w).
  destruct (m w) as [[a|e] w1]; cbn in *; [| exact Hm].
  now rewrite Hk.
Qed.

Lemma keeps_ids_try {A} (m : M World A) (h : PyExc -> M World A) :
  keeps_ids m -> (forall e, keeps_ids (h e)) -> keeps_ids (try_except m h).
Proof.
  intros Hm Hh w. unfold try_except. specialize (Hm w).
  destruct (m w) as [[a|e] w1]; cbn in *; [exact Hm |].
  now rewrite Hh.
Qed.

(** Takes a computation apart along its binds and branches. *)
Ltac keeps_ids_steps :=
  repeat first
    [ apply keeps_ids_ret | apply keeps_ids_raise | apply keeps_ids_gets
    | apply keeps_ids_now | apply keeps_ids_db_statement
    | apply keeps_ids_hf_generate
    | apply keeps_ids_modify; intros ?; reflexivity
    | apply keeps_ids_bind | apply keeps_ids_try
    | match goal with
      | |- keeps_ids (if ?b then _ else _) => destruct b
      | |- keeps_ids (match ?x with _ => _ end) => destruct x
      | |- forall _, _ => intro
      end ].

Section StoredArtifacts.
Context `{!PyBuiltins}.

Lemma _execute_step_keeps_ids (st : StepInput) (ctx : Dict) :
  keeps_ids (_execute_step st ctx).
Proof.
  unfold _execute_step, _execute_code_llama, _execute_code_gemma,
    _execute_t5_gemma, generate_or_placeholder.
  keeps_ids_steps.
Qed.

Lemma _execute_step_ids (st : StepInput) (ctx : Dict) (w : World) :
  returns (_execute_step st ctx) w (fun _ w' =>
    w_next_uuid w' = w_next_uuid w).
Proof.
  destruct (_execute_step_returns st ctx w) as (o & w' & Hrun & _).
  exists o, w'. split; [exact Hrun |].
  change w' with (Ok o, w').2. rewrite <- Hrun. apply _execute_step_keeps_ids.
Qed.

Lemma history_append_ids (run_id : N) (o : StepOutput) (w : World)
    (h : list StepOutput) :
  w_step_history w !! run_id = Some h ->
  returns (history_append run_id o) w (fun _ w' =>
    w_next_uuid w' = w_next_uuid w).
Proof.
  intros Hh. unfold returns, history_append, history_of.
  unfold bind, gets, modify, ret. cbn. rewrite Hh.
  eexists _, _. split; reflexivity.
Qed.

Lemma _update_run_keeps_ids (run_id : N) (status : string) :
  keeps_ids (_update_run run_id status).
Proof.
  unfold _update_run, select_run_first, commit_run. keeps_ids_steps.
Qed.

Lemma _update_run_ids (run_id : N) (status : string) (w : World) :
  returns (_update_run run_id status) w (fun _ w' =>
    w_next_uuid w' = w_next_uuid w).
Proof.
  destruct (_update_run_returns run_id status w) as (u & w' & Hrun & _).
  exists u, w'. split; [exact Hrun |].
  change w' with (Ok u, w').2. rewrite <- Hrun. apply _update_run_keeps_ids.
Qed.

Lemma for_steps_stores (run_id project_id : N) (steps : list StepInput) :
  forall (i : nat) (fr : Frame) (h : list StepOutput),
    w_step_history (fr_world fr) !! run_id = Some h ->
    db_available (fr_world fr) ->
    returns (for_steps run_id project_id i steps) fr (fun _ fr' =>
      exists outs,
        res_steps (fr_results fr') = res_steps (fr_results fr) ++ outs /\
        (w_next_uuid (fr_world fr) <= w_next_uuid (fr_world fr'))%N /\
        (forall id, (id < w_next_uuid (fr_world fr))%N ->
           artifacts (w_db (fr_world fr')) !! id
           = artifacts (w_db (fr_world fr)) !! id) /\
        forall o a, o ∈ outs -> a ∈ so_artifacts o ->
          exists id t,
            (w_next_uuid (fr_world fr) <= id)%N /\
            artifacts (w_db (fr_world fr')) !! id
            = Some (artifact_row run_id project_id a t)).
Proof.
  induction steps as [|st rest IH]; intros i fr h Hh Hav.
  - apply returns_ret. exists []. rewrite app_nil_r. conjs; try reflexivity.
    intros o a Ho. now apply elem_of_nil in Ho.
  - cbn [for_steps].
    apply returns_bind, returns_gets.
    apply returns_bind, returns_lift.
    eapply returns_mono;
      [apply returns_and; [apply _execute_step_returns | apply _execute_step_ids] |].
    intros o w1 ((Hdb1 & Hfa1 & Hhf1 & Hh1 & Ht1 & Hout) & Hid1). cbn beta.
    apply returns_bind, returns_lift. cbn [fr_world fr_results fr_context].
    eapply returns_mono.
    { apply returns_and.
      - apply (history_append_returns run_id o w1 h). now rewrite Hh1.
      - apply (history_append_ids run_id o w1 h). now rewrite Hh1. }
    intros _ w2 ((Hdb2 & Hfa2 & Hhf2 & Ht2 & Hh2) & Hid2). cbn beta.
    apply returns_bind, returns_modify. cbn [fr_world fr_results fr_context].
    pose proof (step_outcome_status _ _ _ _ Hout) as Hstatus.
    destruct (handled st) eqn:Hhandled; rewrite Hstatus;
      cbn [StepStatus_eqb StepStatus_value String.eqb Ascii.eqb Bool.eqb].
    + apply returns_bind, returns_modify. cbn [fr_world fr_results fr_context].
      apply returns_bind, returns_modify. cbn [fr_world fr_results fr_context].
      apply returns_bind, returns_lift. cbn [fr_world fr_results fr_context].
      assert (db_available w2) as Hav2.
      { intros n. rewrite Hfa2, Hfa1. apply Hav. }
      eapply returns_mono.
      { apply returns_and;
          [apply save_artifacts_returns | apply save_artifacts_stores, Hav2]. }
      intros _ w3 ((Hhf3 & Hfa3 & Hh3 & Ht3 & _) & (_ & Hid3 & Hold3 & Hnew3)).
      cbn beta.
      eapply returns_mono.
      { apply (IH (S i) _ (h ++ [o])); cbn [fr_world].
        - rewrite Hh3, Hh2. apply lookup_insert_eq.
        - intros n. rewrite Hfa3. apply Hav2. }
      intros _ fr' (outs & Hsteps & Hid & Hold & Hnew).
      cbn [fr_world fr_results fr_context res_steps with_step] in *.
      exists (o :: outs). conjs.
      * rewrite Hsteps, <- app_assoc. reflexivity.
      * lia.
      * intros id Hlt. rewrite Hold by lia. rewrite Hold3 by lia. congruence.
      * intros o' a [-> | Ho']%elem_of_cons Ha.
        -- destruct (Hnew3 a Ha) as (id & t & Hrange & Hrow).
           exists id, t. split; [lia |]. rewrite Hold by lia. exact Hrow.
        -- destruct (Hnew o' a Ho' Ha) as (id & t & Hrange & Hrow).
           exists id, t. split; [lia | exact Hrow].
    + apply returns_bind, returns_modify. cbn [fr_world fr_results fr_context].
      apply returns_bind, returns_modify. cbn [fr_world fr_results fr_context].
      apply returns_lift. cbn [fr_world fr_results fr_context].
      eapply returns_mono;
        [apply returns_and; [apply _update_run_keeps_tables | apply _update_run_ids] |].
      intros _ w3 ((_ & _ & Ha3 & _) & Hid3).
      cbn [fr_world fr_results fr_context res_steps with_step with_status with_error].
      destruct Hout as (_ & Hout). rewrite Hhandled in Hout.
      destruct Hout as (_ & _ & _ & Hnil).
      exists [o]. conjs.
      * reflexivity.
      * lia.
      * intros id _. congruence.
      * intros o' a Ho' Ha. apply list_elem_of_singleton in Ho' as ->.
        rewrite Hnil in Ha. now apply elem_of_nil in Ha.
Qed.

End StoredArtifacts.

Section StoredByRun.
Context `{!PyBuiltins}.

Lemma execute_pipeline_body_stores (pipeline : OrchestrationPipeline)
    (run_id : N) (fr : Frame) :
  w_step_history (fr_world fr) !! run_id = Some [] ->
  res_status (fr_results fr) = "RUNNING" ->
  res_steps (fr_results fr) = [] ->
  db_available (fr_world fr) ->
  returns (execute_pipeline_body pipeline run_id) fr (fun _ fr' =>
    forall o a, o ∈ res_steps (fr_results fr') -> a ∈ so_artifacts o ->
      exists id t,
        (w_next_uuid (fr_world fr) <= id)%N /\
        artifacts (w_db (fr_world fr')) !! id
        = Some (artifact_row run_id (pl_project_id pipeline) a t)).
Proof.
  intros Hh Hstatus Hsteps Hav. unfold execute_pipeline_body.
  apply returns_bind, returns_lift.
  eapply returns_mono;
    [apply returns_and; [apply _update_run_returns | apply _update_run_ids] |].
  intros _ w1 ((Hhf1 & Hfa1 & Hh1 & Ht1 & Hr1) & Hid1). cbn beta.
  apply returns_bind, returns_modify.
  apply returns_bind.
  eapply returns_mono.
  { apply returns_and.
    - apply (for_steps_returns run_id (pl_project_id pipeline) (pl_steps pipeline) 0 _ []).
      cbn [fr_world]. now rewrite Hh1.
    - apply (for_steps_stores run_id (pl_project_id pipeline) (pl_steps pipeline) 0 _ []).
      + cbn [fr_world]. now rewrite Hh1.
      + cbn [fr_world]. intros n. rewrite Hfa1. apply Hav. }
  intros _ fr2
    ((outs & _ & _ & Hhist2 & _ & _ & _ & Hcase) &
     (outs' & Hsteps2 & _ & _ & Hnew)).
  cbn [fr_world fr_results fr_context] in *. cbn beta.
  rewrite Hsteps in Hsteps2. cbn [app] in Hsteps2.
  rewrite Hid1 in Hnew. rewrite <- Hsteps2 in Hnew.
  apply returns_bind, returns_gets.
  destruct (all_handled (pl_steps pipeline)).
  - destruct Hcase as (Hs & _ & _). rewrite Hs, Hstatus.
    cbn [String.eqb Ascii.eqb Bool.eqb].
    apply returns_bind, returns_gets.
    apply returns_bind, returns_lift.
    unfold history_of. apply returns_bind, returns_gets.
    rewrite Hhist2, lookup_insert_eq.
    apply returns_ret.
    apply returns_bind, returns_lift.
    eapply returns_mono; [apply _run_assembler_returns |].
    intros a w3 (Hdb3 & _). cbn beta.
    apply returns_bind, returns_modify.
    apply returns_bind, returns_modify.
    apply returns_lift.
    eapply returns_mono; [apply _update_run_keeps_tables |].
    intros _ w4 (_ & _ & Ha4 & _).
    cbn [fr_world fr_results fr_context res_steps with_assembly with_status] in *.
    intros o a' Ho Ha'. rewrite Ha4, Hdb3. exact (Hnew o a' Ho Ha').
  - destruct Hcase as (Hs & _). rewrite Hs.
    cbn [String.eqb Ascii.eqb Bool.eqb].
    apply returns_ret. exact Hnew.
Qed.

(** X20. With the database available, [execute_pipeline] stores every
    artifact of every step result it returns: for each of them the artifact
    table has, under an id drawn during the call, a row with the name and
    the content of the artifact, the path [/artifacts/] followed by its
    name, and the run and the project of the call.  The column of the
    metadata of this row is empty: the type of the artifact is not
    stored. *)
Theorem execute_pipeline_stores_every_step_artifact
    (pipeline : OrchestrationPipeline) (run_id : N) (w : World) :
  db_available w ->
  exists result w',
    execute_pipeline pipeline run_id w = (Ok result, w') /\
    forall o a, o ∈ res_steps result -> a ∈ so_artifacts o ->
      exists id row,
        (w_next_uuid w <= id)%N /\
        artifacts (w_db w') !! id = Some row /\
        ga_project_id row = Some (pl_project_id pipeline) /\
        ga_run_id row = Some run_id /\
        ga_name row = art_name a /\
        ga_path row = Some ("/artifacts/" +:+ art_name a) /\
        ga_content row = Some (art_content a) /\
        ga_metadata row = None.
Proof.
  intros Hav. unfold execute_pipeline.
  apply returns_bind, returns_modify.
  apply returns_bind.
  unfold returns at 1. unfold now at 1. eexists _, _. split; [reflexivity |].
  unfold returns. cbv beta.
  match goal with |- context [try_except _ _ ?f] =>
    destruct (execute_pipeline_body_stores pipeline run_id f)
      as ([] & fr' & Hbody & Hpost)
  end.
  { cbn. apply lookup_insert_eq. }
  { reflexivity. }
  { reflexivity. }
  { exact Hav. }
  unfold try_except at 1. rewrite Hbody.
  eexists _, _. split; [reflexivity |].
  intros o a Ho Ha.
  destruct (Hpost o a Ho Ha) as (id & t & Hid & Hrow).
  exists id, (artifact_row run_id (pl_project_id pipeline) a t).
  conjs; auto.
Qed.

End StoredByRun.

(** ** The routes of the project service *)

(** X21. The routes that delete a project or a run never answer with
    success and never remove a row: for an id that has no row they raise
    the HTTP error 404, for one that has a row the [AttributeError] of the
    cascade statement goes through them. *)
Theorem delete_routes_never_succeed (w : World) :
  (forall project_id, exists e w',
     route_delete_project project_id w = (Raise e, w') /\ w_db w' = w_db w /\
     (db_available w ->
      exc_class e = (if bool_decide (is_Some (projects (w_db w) !! project_id))
                     then "AttributeError" else "HTTPException"))) /\
  (forall run_id, exists e w',
     route_delete_run run_id w = (Raise e, w') /\ w_db w' = w_db w /\
     (db_available w ->
      exc_class e = (if bool_decide (is_Some (runs (w_db w) !! run_id))
                     then "AttributeError" else "HTTPException"))).
Proof.
  split.
  - intros project_id.
    unfold route_delete_project, delete_project, get_project, exec_then_delete,
      ScalarResult_getattr.
    unfold bind, db_statement, gets, ret, raise. cbn.
    destruct (w_db_fault w (w_db_ops w)) eqn:Hf1; cbn.
    { eexists _, _. conjs; [reflexivity | reflexivity |].
      intros Hav. rewrite Hav in Hf1. discriminate. }
    destruct (projects (w_db w) !! project_id); cbn.
    2: { eexists _, _. conjs; reflexivity. }
    destruct (w_db_fault w (S (w_db_ops w))) eqn:Hf2; cbn;
      eexists _, _; (conjs; [reflexivity | reflexivity |]).
    + intros Hav. rewrite Hav in Hf2. discriminate.
    + reflexivity.
  - intros run_id.
    unfold route_delete_run, delete_run, get_run, select_run_first,
      exec_then_delete, ScalarResult_getattr.
    unfold bind, db_statement, gets, ret, raise. cbn.
    destruct (w_db_fault w (w_db_ops w)) eqn:Hf1; cbn.
    { eexists _, _. conjs; [reflexivity | reflexivity |].
      intros Hav. rewrite Hav in Hf1. discriminate. }
    destruct (runs (w_db w) !! run_id); cbn.
    2: { eexists _, _. conjs; reflexivity. }
    destruct (w_db_fault w (S (w_db_ops w))) eqn:Hf2; cbn;
      eexists _, _; (conjs; [reflexivity | reflexivity |]).
    + intros Hav. rewrite Hav in Hf2. discriminate.
    + reflexivity.
Qed.

(** X22. An update of a run through its route that names no status writes
    the status PENDING: a run that had ended goes back to PENDING and keeps
    its finish time, so that the row has a finish time without a terminal
    status; the write is made also when the response cannot be built. *)
Theorem route_update_run_without_status_resets {A}
    (respond : OrchestrationRun -> Res A)
    (run_id : N) (finished : option bool) (w : World) (r : OrchestrationRun) :
  db_available w ->
  runs (w_db w) !! run_id = Some r ->
  exists r' w',
    route_update_run respond run_id (mkRunUpdate None finished) w
    = (respond r', w') /\
    runs (w_db w') !! run_id = Some r' /\
    r_status r' = Some "PENDING" /\
    (is_Some (r_finished_at r) -> is_Some (r_finished_at r')) /\
    (is_Some (r_finished_at r) -> ~ finished_iff_terminal r').
Proof.
  intros Hav Hr.
  unfold route_update_run, update_run_status, get_run, select_run_first,
    commit_run, status_or_pending.
  cbn [ru_status ru_finished].
  destruct (default false finished);
    [exists (set_run_finished_at (w_clock w) (set_run_status "PENDING" r))
    | exists (set_run_status "PENDING" r)];
    run_statements Hav; rewrite Hr; run_statements Hav; eexists;
    (split; [destruct (respond _); reflexivity |]); cbn;
    rewrite lookup_insert_eq; conjs; try reflexivity.
  - intros _. eexists. reflexivity.
  - intros _ Hinv. unfold finished_iff_terminal in Hinv. cbn in Hinv.
    destruct Hinv as [Hinv _].
    destruct Hinv as [[=] | [=]]. eexists. reflexivity.
  - auto.
  - intros Hfin Hinv. unfold finished_iff_terminal in Hinv. cbn in Hinv.
    destruct Hinv as [Hinv _]. destruct (Hinv Hfin) as [[=] | [=]].
Qed.

(** ** The prompt of the assembler *)




(** ** A run while the database is down *)

Lemma _update_run_down (run_id : N) (status : string) (w : World) :
  db_down w ->
  returns (_update_run run_id status) w (fun _ w' =>
    w_db w' = w_db w /\ w_db_fault w' = w_db_fault w /\
    w_step_history w' = w_step_history w /\
    w_hf_manager w' = w_hf_manager w).
Proof.
  intros Hdown. unfold returns, _update_run, select_run_first.
  unfold try_except, bind, db_statement, ret. rewrite Hdown.
  eexists _, _. split; [reflexivity |]. cbn. auto.
Qed.

Lemma _save_artifact_down (run_id project_id : N) (a : Artifact) (w : World) :
  db_down w ->
  returns (_save_artifact run_id project_id a) w (fun _ w' =>
    w_db w' = w_db w /\ w_db_fault w' = w_db_fault w /\
    w_step_history w' = w_step_history w /\
    w_hf_manager w' = w_hf_manager w).
Proof.
  intros Hdown. unfold returns, _save_artifact, commit_artifact.
  unfold try_except, bind, db_statement, ret, uuid4, now. cbn. rewrite Hdown.
  eexists _, _. split; [reflexivity |]. cbn. auto.
Qed.

Lemma save_artifacts_down (run_id project_id : N) (arts : list Artifact) :
  forall w : World,
    db_down w ->
    returns (for_each arts (_save_artifact run_id project_id)) w (fun _ w' =>
      w_db w' = w_db w /\ w_db_fault w' = w_db_fault w /\
      w_step_history w' = w_step_history w /\
      w_hf_manager w' = w_hf_manager w).
Proof.
  induction arts as [|a arts IH]; intros w Hdown; simpl.
  - apply returns_ret. auto.
  - apply returns_bind.
    eapply returns_mono; [apply _save_artifact_down, Hdown |].
    intros _ w1 (Hdb1 & Hfa1 & Hh1 & Hhf1). cbn beta.
    eapply returns_mono.
    { apply IH. intros n. rewrite Hfa1. apply Hdown. }
    intros _ w2 (Hdb2 & Hfa2 & Hh2 & Hhf2). cbn beta.
    conjs; congruence.
Qed.

Section DatabaseDown.
Context `{!PyBuiltins}.

Lemma for_steps_down (run_id project_id : N) (steps : list StepInput) :
  forall (i : nat) (fr : Frame) (h : list StepOutput),
    w_step_history (fr_world fr) !! run_id = Some h ->
    db_down (fr_world fr) ->
    returns (for_steps run_id project_id i steps) fr (fun _ fr' =>
      w_db (fr_world fr') = w_db (fr_world fr) /\
      w_db_fault (fr_world fr') = w_db_fault (fr_world fr)).
Proof.
  induction steps as [|st rest IH]; intros i fr h Hh Hdown.
  - apply returns_ret. auto.
  - cbn [for_steps].
    apply returns_bind, returns_gets.
    apply returns_bind, returns_lift.
    eapply returns_mono; [apply _execute_step_returns |].
    intros o w1 (Hdb1 & Hfa1 & Hhf1 & Hh1 & Ht1 & Hout). cbn beta.
    apply returns_bind, returns_lift. cbn [fr_world fr_results fr_context].
    eapply returns_mono;
      [apply (history_append_returns run_id o w1 h); now rewrite Hh1 |].
    intros _ w2 (Hdb2 & Hfa2 & Hhf2 & Ht2 & Hh2). cbn beta.
    apply returns_bind, returns_modify. cbn [fr_world fr_results fr_context].
    assert (db_down w2) as Hdown2.
    { intros n. rewrite Hfa2, Hfa1. apply Hdown. }
    destruct (StepStatus_eqb (so_status o) FAILED).
    + apply returns_bind, returns_modify. cbn [fr_world fr_results fr_context].
      apply returns_bind, returns_modify. cbn [fr_world fr_results fr_context].
      apply returns_lift. cbn [fr_world fr_results fr_context].
      eapply returns_mono; [apply _update_run_down, Hdown2 |].
      intros _ w3 (Hdb3 & Hfa3 & _). cbn [fr_world]. split; congruence.
    + apply returns_bind, returns_modify. cbn [fr_world fr_results fr_context].
      apply returns_bind, returns_modify. cbn [fr_world fr_results fr_context].
      apply returns_bind, returns_lift. cbn [fr_world fr_results fr_context].
      eapply returns_mono; [apply save_artifacts_down, Hdown2 |].
      intros _ w3 (Hdb3 & Hfa3 & Hh3 & Hhf3). cbn beta.
      eapply returns_mono.
      { apply (IH (S i) _ (h ++ [o])); cbn [fr_world].
        - rewrite Hh3, Hh2. apply lookup_insert_eq.
        - intros n. rewrite Hfa3. apply Hdown2. }
      intros _ fr' (Hdb & Hfa). cbn [fr_world] in *. split; congruence.
Qed.

Lemma execute_pipeline_body_down (pipeline : OrchestrationPipeline)
    (run_id : N) (fr : Frame) :
  w_step_history (fr_world fr) !! run_id = Some [] ->
  res_status (fr_results fr) = "RUNNING" ->
  db_down (fr_world fr) ->
  returns (execute_pipeline_body pipeline run_id) fr (fun _ fr' =>
    w_db (fr_world fr') = w_db (fr_world fr)).
Proof.
  intros Hh Hstatus Hdown. unfold execute_pipeline_body.
  apply returns_bind, returns_lift.
  eapply returns_mono; [apply _update_run_down, Hdown |].
  intros _ w1 (Hdb1 & Hfa1 & Hh1 & Hhf1). cbn beta.
  assert (db_down w1) as Hdown1 by (intros n; rewrite Hfa1; apply Hdown).
  apply returns_bind, returns_modify.
  apply returns_bind.
  eapply returns_mono.
  { apply returns_and.
    - apply (for_steps_returns run_id (pl_project_id pipeline) (pl_steps pipeline) 0 _ []).
      cbn [fr_world]. now rewrite Hh1.
    - apply (for_steps_down run_id (pl_project_id pipeline) (pl_steps pipeline) 0 _ []).
      + cbn [fr_world]. now rewrite Hh1.
      + exact Hdown1. }
  intros _ fr2 ((outs & _ & _ & Hhist2 & _ & _ & _ & Hcase) & (Hdb2 & Hfa2)).
  cbn [fr_world fr_results fr_context] in *. cbn beta.
  apply returns_bind, returns_gets.
  destruct (all_handled (pl_steps pipeline)).
  - destruct Hcase as (Hs & _ & _). rewrite Hs, Hstatus.
    cbn [String.eqb Ascii.eqb Bool.eqb].
    apply returns_bind, returns_gets.
    apply returns_bind, returns_lift.
    unfold history_of. apply returns_bind, returns_gets.
    rewrite Hhist2, lookup_insert_eq.
    apply returns_ret.
    apply returns_bind, returns_lift.
    eapply returns_mono; [apply _run_assembler_returns |].
    intros a w3 (Hdb3 & Hfa3 & _). cbn [fr_world] in Hdb3, Hfa3. cbn beta.
    apply returns_bind, returns_modify.
    apply returns_bind, returns_modify.
    apply returns_lift.
    eapply returns_mono.
    { apply _update_run_down. intros n. cbn [fr_world].
      rewrite Hfa3, Hfa2. apply Hdown1. }
    intros _ w4 (Hdb4 & _). cbn [fr_world] in *. congruence.
  - destruct Hcase as (Hs & _). rewrite Hs.
    cbn [String.eqb Ascii.eqb Bool.eqb].
    apply returns_ret. congruence.
Qed.

(** X24. While the database refuses every statement, [execute_pipeline]
    returns as it does otherwise: the steps are executed, and the status
    returned is SUCCESS when every step is taken by a handler and FAILED
    when not; no table is changed, so that neither the status of the run
    nor any artifact is stored, and nothing in the dictionary returned
    tells. *)
Theorem execute_pipeline_with_database_down
    (pipeline : OrchestrationPipeline) (run_id : N) (w : World) :
  db_down w ->
  exists result w',
    execute_pipeline pipeline run_id w = (Ok result, w') /\
    w_db w' = w_db w /\
    res_status result
    = (if all_handled (pl_steps pipeline) then "SUCCESS" else "FAILED") /\
    List.length (res_steps result) = List.length (executed (pl_steps pipeline)) /\
    (all_handled (pl_steps pipeline) = true -> res_error result = None).
Proof.
  intros Hdown.
  destruct (execute_pipeline_returns pipeline run_id w)
    as (result & w' & Hrun & Hrecs & _ & _ & _ & _ & Hcase).
  exists result, w'. conjs.
  - exact Hrun.
  - revert Hrun. unfold execute_pipeline.
    unfold bind at 1 2. unfold modify at 1, now at 1. cbv beta iota.
    match goal with |- context [try_except _ _ ?f] =>
      destruct (execute_pipeline_body_down pipeline run_id f)
        as ([] & fr' & Hbody & Hpost)
    end.
    { cbn. apply lookup_insert_eq. }
    { reflexivity. }
    { exact Hdown. }
    unfold try_except at 1. rewrite Hbody. unfold now. cbn.
    intros [= _ <-]. exact Hpost.
  - destruct (all_handled (pl_steps pipeline)); apply Hcase.
  - symmetry. exact (Forall2_length _ _ _ Hrecs).
  - intros Hall. rewrite Hall in Hcase. apply Hcase.
Qed.

End DatabaseDown.

(** ** The further properties at the example inputs *)

#[local] Existing Instance demo_builtins.

Lemma execute_pipeline_reports_failing_step_witness :
  (failing_step (pl_steps bad_pipeline) = Some step_bad) /\
  (exists result w' o,
    execute_pipeline bad_pipeline 7%N demo_world = (Ok result, w') /\
    res_status result = "FAILED" /\
    res_error result = Some (stop_message step_bad) /\
    res_final_artifacts result = [] /\
    res_assembled_code result = None /\
    last (res_steps result) = Some o /\
    so_step_name o = step_name step_bad /\
    so_status o = FAILED /\
    so_result o = None /\
    so_error o = Some ("Unknown model type: " +:+ py_format_model (model_type step_bad)) /\
    so_artifacts o = []).
Proof.
  assert (failing_step (pl_steps bad_pipeline) = Some step_bad) as W1.
  { reflexivity. }
  exact (conj W1
    (execute_pipeline_reports_failing_step bad_pipeline 7%N demo_world step_bad
       W1)).
Defined.


Lemma orchestrator_never_reaches_hf_model_witness :
  (w_hf_manager demo_world_hf_manager = Some (HFModelManager_generate ["CodeLlama-7b"] demo_infer)) /\
  ((forall n req, exists e,
     HFModelManager_generate ["CodeLlama-7b"] demo_infer n req = Raise e /\
     exc_class e = "TypeError") /\
  exists result w',
    execute_pipeline good_pipeline 7%N demo_world_hf_manager = (Ok result, w') /\
    (forall k st o,
       pl_steps good_pipeline !! k = Some st ->
       res_steps result !! k = Some o ->
       handled st = true ->
       so_status o = SUCCESS /\
       so_result o
       = Some (placeholder st
                 (_inject_context (prompt st)
                    (context_after 0 (pl_global_context good_pipeline)
                                   (take k (res_steps result)))))) /\
    (all_handled (pl_steps good_pipeline) = true ->
     res_status result = "SUCCESS" /\
     res_assembled_code result = Some EmptyString /\
     res_final_artifacts result = [])).
Proof.
  assert (w_hf_manager demo_world_hf_manager = Some (HFModelManager_generate ["CodeLlama-7b"] demo_infer)) as W1.
  { reflexivity. }
  exact (conj W1
    (orchestrator_never_reaches_hf_model ["CodeLlama-7b"] demo_infer good_pipeline 7%N demo_world_hf_manager
       W1)).
Defined.

Lemma route_execute_pipeline_unknown_project_witness :
  (w_db_fault demo_world (w_db_ops demo_world) = false) /\
  (projects (w_db demo_world) !! 2%N = None) /\
  (exists w',
    route_execute_pipeline demo_respond 2%N demo_request demo_world
    = (Raise (http_exception 404 "Project not found"), w') /\
    w_db w' = w_db demo_world /\ w_trace w' = w_trace demo_world).
Proof.
  assert (w_db_fault demo_world (w_db_ops demo_world) = false) as W1.
  { reflexivity. }
  assert (projects (w_db demo_world) !! 2%N = None) as W2.
  { cbn. now apply lookup_singleton_ne. }
  exact (conj W1 (conj W2
    (route_execute_pipeline_unknown_project demo_respond 2%N demo_request demo_world
       W1 W2))).
Defined.

Lemma route_execute_pipeline_invalid_model_witness :
  (db_available demo_world) /\
  (projects (w_db demo_world) !! 1%N = Some demo_project) /\
  (Exists (fun s => sis_model_type s ∉ ["CodeLlama"; "CodeGemma"; "T5Gemma"; "Assembler"])
         (pcs_steps demo_request_invalid)) /\
  (exists e w',
    route_execute_pipeline demo_respond 1%N demo_request_invalid demo_world = (Raise e, w') /\
    exc_class e = "ValueError" /\
    runs (w_db w') !! w_next_uuid demo_world
    = Some (mkRun (Some 1%N) (Some "PENDING")
                  (Some (steps_map (pcs_steps demo_request_invalid))) None None) /\
    (forall j, j <> w_next_uuid demo_world -> runs (w_db w') !! j = runs (w_db demo_world) !! j) /\
    artifacts (w_db w') = artifacts (w_db demo_world) /\
    w_trace w' = w_trace demo_world).
Proof.
  assert (db_available demo_world) as W1.
  { exact demo_db_available. }
  assert (projects (w_db demo_world) !! 1%N = Some demo_project) as W2.
  { cbn. apply lookup_singleton_eq. }
  assert (Exists (fun s => sis_model_type s ∉ ["CodeLlama"; "CodeGemma"; "T5Gemma"; "Assembler"])
         (pcs_steps demo_request_invalid)) as W3.
  { apply Exists_cons_tl, Exists_cons_hd. cbn. rewrite !not_elem_of_cons. conjs; try discriminate. apply not_elem_of_nil. }
  exact (conj W1 (conj W2 (conj W3
    (route_execute_pipeline_invalid_model demo_respond 1%N demo_request_invalid demo_world demo_project
       W1 W2 W3)))).
Defined.

Lemma route_execute_pipeline_runs_without_backend_witness :
  (db_available demo_world) /\
  (projects (w_db demo_world) !! 1%N = Some demo_project) /\
  (Forall (fun s => sis_model_type s ∈ ["CodeLlama"; "CodeGemma"; "T5Gemma"; "Assembler"])
         (pcs_steps demo_request)) /\
  (let final :=
    if forallb (fun s => negb (String.eqb (sis_model_type s) "Assembler"))
               (pcs_steps demo_request)
    then "SUCCESS" else "FAILED" in
  exists result w' t,
    route_execute_pipeline demo_respond 1%N demo_request demo_world
    = (match demo_respond result with
       | Ok response => Ok response
       | Raise e => Raise (http_exception 500
                             ("Pipeline execution failed: " +:+ exc_str e))
       end, w') /\
    res_status result = final /\
    Forall (fun o => so_status o = SUCCESS ->
                     exists text, so_result o = Some text /\
                                  contains "Placeholder response to:" text)
           (res_steps result) /\
    runs (w_db w') !! w_next_uuid demo_world
    = Some (mkRun (Some 1%N) (Some final)
                  (Some (steps_map (pcs_steps demo_request))) None (Some t))).
Proof.
  assert (db_available demo_world) as W1.
  { exact demo_db_available. }
  assert (projects (w_db demo_world) !! 1%N = Some demo_project) as W2.
  { cbn. apply lookup_singleton_eq. }
  assert (Forall (fun s => sis_model_type s ∈ ["CodeLlama"; "CodeGemma"; "T5Gemma"; "Assembler"])
         (pcs_steps demo_request)) as W3.
  { repeat constructor. }
  exact (conj W1 (conj W2 (conj W3
    (route_execute_pipeline_runs_without_backend demo_respond 1%N demo_request demo_world demo_project
       W1 W2 W3)))).
Defined.

Lemma route_get_run_summary_reports_no_step_witness :
  (w_db_fault demo_world (w_db_ops demo_world) = false) /\
  (exists w',
    route_get_run_summary 7%N demo_world
    = (match runs (w_db demo_world) !! 7%N with
       | Some _ => Ok (mkRunSummary 7%N 0 0 0 0 [])
       | None => Raise (http_exception 404 "Orchestration run not found")
       end, w') /\
    w_db w' = w_db demo_world).
Proof.
  assert (w_db_fault demo_world (w_db_ops demo_world) = false) as W1.
  { reflexivity. }
  exact (conj W1
    (route_get_run_summary_reports_no_step 7%N demo_world
       W1)).
Defined.

Lemma delete_row_removes_exactly_it_witness :
  (db_available demo_world) /\
  ((forall context_id, exists w' w'',
     delete_context context_id demo_world
     = (Ok (bool_decide (is_Some (contexts (w_db demo_world) !! context_id))), w') /\
     contexts (w_db w') = delete context_id (contexts (w_db demo_world)) /\
     projects (w_db w') = projects (w_db demo_world) /\
     runs (w_db w') = runs (w_db demo_world) /\
     artifacts (w_db w') = artifacts (w_db demo_world) /\
     get_context context_id w' = (Ok None, w'')) /\
  (forall artifact_id, exists w' w'',
     delete_artifact artifact_id demo_world
     = (Ok (bool_decide (is_Some (artifacts (w_db demo_world) !! artifact_id))), w') /\
     artifacts (w_db w') = delete artifact_id (artifacts (w_db demo_world)) /\
     projects (w_db w') = projects (w_db demo_world) /\
     contexts (w_db w') = contexts (w_db demo_world) /\
     runs (w_db w') = runs (w_db demo_world) /\
     get_artifact artifact_id w' = (Ok None, w''))).
Proof.
  assert (db_available demo_world) as W1.
  { exact demo_db_available. }
  exact (conj W1
    (delete_row_removes_exactly_it demo_world
       W1)).
Defined.

Lemma create_then_get_witness :
  (db_available demo_world) /\
  ((forall name description metadata owner_id, exists p w1 w2,
     create_project name description metadata owner_id demo_world
     = (Ok (w_next_uuid demo_world, p), w1) /\
     get_project (w_next_uuid demo_world) w1 = (Ok (Some p), w2) /\
     p_name p = name /\ p_description p = description /\
     p_metadata p = None /\ p_owner_id p = owner_id /\
     forall j, j <> w_next_uuid demo_world ->
               projects (w_db w1) !! j = projects (w_db demo_world) !! j) /\
  (forall project_id key value, exists c w1 w2,
     create_context project_id key value demo_world = (Ok (w_next_uuid demo_world, c), w1) /\
     get_context (w_next_uuid demo_world) w1 = (Ok (Some c), w2) /\
     c_project_id c = project_id /\ c_key c = key /\ c_value c = value /\
     forall j, j <> w_next_uuid demo_world ->
               contexts (w_db w1) !! j = contexts (w_db demo_world) !! j) /\
  (forall project_id status steps, exists r w1 w2,
     create_run project_id status steps demo_world = (Ok (w_next_uuid demo_world, r), w1) /\
     get_run (w_next_uuid demo_world) w1 = (Ok (Some r), w2) /\
     r_project_id r = Some project_id /\ r_status r = Some status /\
     r_steps r = steps /\
     forall j, j <> w_next_uuid demo_world ->
               runs (w_db w1) !! j = runs (w_db demo_world) !! j) /\
  (forall project_id name path content metadata run_id, exists a w1 w2,
     create_artifact project_id name path content metadata run_id demo_world
     = (Ok (w_next_uuid demo_world, a), w1) /\
     get_artifact (w_next_uuid demo_world) w1 = (Ok (Some a), w2) /\
     ga_project_id a = Some project_id /\ ga_run_id a = run_id /\
     ga_name a = name /\ ga_path a = path /\ ga_content a = content /\
     ga_metadata a = None /\
     forall j, j <> w_next_uuid demo_world ->
               artifacts (w_db w1) !! j = artifacts (w_db demo_world) !! j)).
Proof.
  assert (db_available demo_world) as W1.
  { exact demo_db_available. }
  exact (conj W1
    (create_then_get demo_world
       W1)).
Defined.

Lemma create_run_sets_no_finish_time_witness :
  (db_available demo_world) /\
  (exists r w',
    create_run 1%N "SUCCESS" None demo_world = (Ok (w_next_uuid demo_world, r), w') /\
    runs (w_db w') !! w_next_uuid demo_world = Some r /\
    (is_Some (r_started_at r) <-> "SUCCESS" = "RUNNING") /\
    r_finished_at r = None /\
    ("SUCCESS" = "SUCCESS" \/ "SUCCESS" = "FAILED" -> ~ finished_iff_terminal r)).
Proof.
  assert (db_available demo_world) as W1.
  { exact demo_db_available. }
  exact (conj W1
    (create_run_sets_no_finish_time 1%N "SUCCESS" None demo_world
       W1)).
Defined.


Lemma update_of_missing_run_changes_nothing_witness :
  (runs (w_db demo_world) !! 8%N = None) /\
  (w_db_fault demo_world (w_db_ops demo_world) = false) /\
  ((exists w', update_run_status 8%N "SUCCESS" true demo_world = (Ok None, w') /\
              w_db w' = w_db demo_world) /\
  (exists w', _update_run 8%N "SUCCESS" demo_world = (Ok tt, w') /\ w_db w' = w_db demo_world)).
Proof.
  assert (runs (w_db demo_world) !! 8%N = None) as W1.
  { cbn. now apply lookup_singleton_ne. }
  assert (w_db_fault demo_world (w_db_ops demo_world) = false) as W2.
  { reflexivity. }
  exact (conj W1 (conj W2
    (update_of_missing_run_changes_nothing 8%N "SUCCESS" true demo_world
       W1 W2))).
Defined.


Lemma execute_pipeline_stores_every_step_artifact_witness :
  (db_available demo_world) /\
  (exists result w',
    execute_pipeline fenced_pipeline 7%N demo_world = (Ok result, w') /\
    forall o a, o ∈ res_steps result -> a ∈ so_artifacts o ->
      exists id row,
        (w_next_uuid demo_world <= id)%N /\
        artifacts (w_db w') !! id = Some row /\
        ga_project_id row = Some (pl_project_id fenced_pipeline) /\
        ga_run_id row = Some 7%N /\
        ga_name row = art_name a /\
        ga_path row = Some ("/artifacts/" +:+ art_name a) /\
        ga_content row = Some (art_content a) /\
        ga_metadata row = None).
Proof.
  assert (db_available demo_world) as W1.
  { exact demo_db_available. }
  exact (conj W1
    (execute_pipeline_stores_every_step_artifact fenced_pipeline 7%N demo_world
       W1)).
Defined.

Lemma route_update_run_without_status_resets_witness :
  (db_available demo_world) /\
  (runs (w_db demo_world) !! 7%N = Some demo_run) /\
  (exists r' w',
    route_update_run demo_respond_run 7%N (mkRunUpdate None None) demo_world
    = (demo_respond_run r', w') /\
    runs (w_db w') !! 7%N = Some r' /\
    r_status r' = Some "PENDING" /\
    (is_Some (r_finished_at demo_run) -> is_Some (r_finished_at r')) /\
    (is_Some (r_finished_at demo_run) -> ~ finished_iff_terminal r')).
Proof.
  assert (db_available demo_world) as W1.
  { exact demo_db_available. }
  assert (runs (w_db demo_world) !! 7%N = Some demo_run) as W2.
  { exact demo_run_lookup. }
  exact (conj W1 (conj W2
    (route_update_run_without_status_resets demo_respond_run 7%N None demo_world demo_run
       W1 W2))).
Defined.


Lemma execute_pipeline_with_database_down_witness :
  (db_down demo_world_db_down) /\
  (exists result w',
    execute_pipeline good_pipeline 7%N demo_world_db_down = (Ok result, w') /\
    w_db w' = w_db demo_world_db_down /\
    res_status result
    = (if all_handled (pl_steps good_pipeline) then "SUCCESS" else "FAILED") /\
    List.length (res_steps result) = List.length (executed (pl_steps good_pipeline)) /\
    (all_handled (pl_steps good_pipeline) = true -> res_error result = None)).
Proof.
  assert (db_down demo_world_db_down) as W1.
  { intros n. reflexivity. }
  exact (conj W1
    (execute_pipeline_with_database_down good_pipeline 7%N demo_world_db_down
       W1)).
Defined.


(** The run of the pipeline whose first step repeats a fenced block: the
    step result has the artifact of the block, and the artifact table has
    its row under the identifier drawn for it, with no metadata. *)
Example fenced_pipeline_stores_artifact :
  exists result w' o o',
    execute_pipeline fenced_pipeline 7 demo_world = (Ok result, w') /\
    res_steps result = [o; o'] /\
    so_artifacts o = [mkArtifact "jsx" "fenced_component_0.jsx" "x"] /\
    artifacts (w_db w') !! 100%N
    = Some (mkGenerated (Some 1%N) (Some 7%N) "fenced_component_0.jsx"
              (Some "/artifacts/fenced_component_0.jsx") (Some "x") None 3).
Proof.
  eexists _, _, _, _. split; [vm_compute; reflexivity |].
  conjs; reflexivity.
Qed.
